(** * Aggregation of classification metrics (core/eval.py)

    A shallow embedding of the four table operations of [core/eval.py]:
    [append_weighted_average], [combine_several_weighted_averages],
    [create_metrics_table] and [metric_class_averages].

    Modelling choices, fixed once here:
    - a float64 cell is an exact rational extended with the IEEE special
      values (both infinities and not-a-number); rounding and the sign of
      zero are not modelled, a zero divisor counts as a positive zero.
      What is stated of the values is therefore kept to what rounding does
      not disturb: two sides made of the same operations, the special
      values, and bounds;
    - the metric columns of the frames given to the operations are float64
      columns: scalars read out of them are NumPy scalars, so a division by
      zero yields an infinity or not-a-number and raises nothing. The
      object columns of a frame [append_weighted_average] has returned are
      modelled apart, at the end of the definitions;
    - a DataFrame is its list of column names and its rows, in order; row
      labels are not modelled, the only label-based access of the code
      ([.loc[0, 'model_name']]) reads the first row, as it does under the
      default index;
    - DataFrames are mutable objects living in a heap; the functions take
      and return references. *)

From Stdlib Require Import ZArith QArith Qcanon Ascii String DecimalString.
From stdpp Require Import base list strings.

Local Open Scope string_scope.
Local Open Scope list_scope.

(** ** float64 values *)

Inductive float64 : Type :=
  | Fin (q : Qc)
  | PInf
  | NInf
  | NaN.

Definition is_nan (x : float64) : bool :=
  match x with NaN => true | _ => false end.

Definition is_finite (x : float64) : bool :=
  match x with Fin _ => true | _ => false end.

Definition of_Z (z : Z) : float64 := Fin (Q2Qc (inject_Z z)).
Definition of_nat (n : nat) : float64 := of_Z (Z.of_nat n).

Definition fzero : float64 := Fin 0%Qc.
Definition fone : float64 := Fin 1%Qc.
Definition ftwo : float64 := Fin (Q2Qc 2).

(** The sign of a rational, as the comparison with zero. *)
Definition Qcsign (q : Qc) : comparison := (q ?= 0)%Qc.

Definition fneg (x : float64) : float64 :=
  match x with
  | Fin q => Fin (- q)%Qc
  | PInf => NInf
  | NInf => PInf
  | NaN => NaN
  end.

(** An infinity scaled by a finite factor: zero times infinity is undefined. *)
Definition scale_inf (inf : float64) (q : Qc) : float64 :=
  match Qcsign q with
  | Eq => NaN
  | Gt => inf
  | Lt => fneg inf
  end.

Definition fadd (x y : float64) : float64 :=
  match x, y with
  | NaN, _ | _, NaN => NaN
  | Fin a, Fin b => Fin (a + b)%Qc
  | PInf, NInf | NInf, PInf => NaN
  | PInf, _ | _, PInf => PInf
  | NInf, _ | _, NInf => NInf
  end.

Definition fmul (x y : float64) : float64 :=
  match x, y with
  | NaN, _ | _, NaN => NaN
  | Fin a, Fin b => Fin (a * b)%Qc
  | Fin a, PInf | PInf, Fin a => scale_inf PInf a
  | Fin a, NInf | NInf, Fin a => scale_inf NInf a
  | PInf, PInf | NInf, NInf => PInf
  | PInf, NInf | NInf, PInf => NInf
  end.

Definition fdiv (x y : float64) : float64 :=
  match x, y with
  | NaN, _ | _, NaN => NaN
  | Fin a, Fin b =>
      match Qcsign b with
      | Eq => match Qcsign a with Eq => NaN | Gt => PInf | Lt => NInf end
      | _ => Fin (a / b)%Qc
      end
  | Fin _, _ => fzero
  | PInf, Fin b => match Qcsign b with Lt => NInf | _ => PInf end
  | NInf, Fin b => match Qcsign b with Lt => PInf | _ => NInf end
  | _, _ => NaN
  end.

Declare Scope f64_scope.
Delimit Scope f64_scope with f64.
Bind Scope f64_scope with float64.
Infix "+" := fadd : f64_scope.
Infix "*" := fmul : f64_scope.
Infix "/" := fdiv : f64_scope.

(** A decidable equality that computes (the canonicity proofs inside [Qc]
    do not). *)
Definition feqb (x y : float64) : bool :=
  match x, y with
  | Fin a, Fin b => Qeq_bool a b
  | PInf, PInf | NInf, NInf | NaN, NaN => true
  | _, _ => false
  end.

(** *** Reductions over a column: [Series.sum] and [Series.mean]

    Both are called with pandas' defaults, [skipna=True]: the
    not-a-number entries are dropped before the reduction; the sum of
    nothing is 0 and the mean of nothing is not-a-number. *)

Definition dropna (xs : list float64) : list float64 :=
  List.filter (fun x => negb (is_nan x)) xs.

(** The plain left-to-right IEEE sum: a not-a-number term poisons it. *)
Definition fsum (xs : list float64) : float64 :=
  fold_left fadd xs fzero.

Definition series_sum (xs : list float64) : float64 := fsum (dropna xs).

Definition series_mean (xs : list float64) : float64 :=
  match dropna xs with
  | [] => NaN
  | ys => (fsum ys / of_nat (length ys))%f64
  end.

(** ** Exceptions and results *)

(** [Unbound] is not a Python exception: it is the outcome of reading a
    reference the heap does not hold, which no caller can produce. *)
Inductive exn : Type :=
  | KeyError
  | IndexError
  | ValueError
  | TypeError
  | Unbound.

Inductive result (A : Type) : Type :=
  | Ok (a : A)
  | Raise (e : exn).
Arguments Ok {A} a.
Arguments Raise {A} e.

#[global] Instance result_ret : MRet result := λ A a, Ok a.
#[global] Instance result_bind : MBind result := λ A B f m,
  match m with
  | Ok a => f a
  | Raise e => Raise e
  end.
#[global] Instance result_fmap : FMap result := λ A B f m,
  match m with
  | Ok a => Ok (f a)
  | Raise e => Raise e
  end.

(** [[f(x) for x in xs]], stopping at the first exception. *)
Fixpoint traverse {A B : Type} (f : A → result B) (xs : list A) : result (list B) :=
  match xs with
  | [] => Ok []
  | x :: xs' => y ← f x; ys ← traverse f xs'; Ok (y :: ys)
  end.

(** ** Cells, Series and DataFrames *)

(** What a table cell holds: a [str], a NumPy integer, a float64 or [None]. *)
Inductive cell : Type :=
  | VStr (s : string)
  | VInt (z : Z)
  | VFloat (x : float64)
  | VNone.

Definition nan_cell : cell := VFloat NaN.

(** A column taken out of a frame, in row order. *)
Abbreviation Series := (list cell) (only parsing).

(** A row taken out of a frame ([.iloc[-1]]): cells labelled by column. *)
Abbreviation RowSeries := (list (string * cell)) (only parsing).

Record DataFrame : Type := mkDF {
  columns : list string;
  rows : list (list cell)
}.

Definition LABELS : list string :=
  ["model_name"; "note"; "loss"; "acc"; "prec0"; "prec1"; "rec0"; "rec1";
   "f1sc0"; "f1sc1"; "sup0"; "sup1"; "mcc"].

(** *** Strings *)

(** [s[-1]]: the last character; [IndexError] on the empty string. *)
Fixpoint str_last (s : string) : result ascii :=
  match s with
  | EmptyString => Raise IndexError
  | String a s' =>
      match s' with
      | EmptyString => Ok a
      | String _ _ => str_last s'
      end
  end.

(** [s[:-1]]: everything but the last character. *)
Fixpoint str_init (s : string) : string :=
  match s with
  | EmptyString => EmptyString
  | String a s' =>
      match s' with
      | EmptyString => EmptyString
      | String _ _ => String a (str_init s')
      end
  end.

(** [c.isdigit()] on an ASCII character: the column names are ASCII
    strings, the digits of other scripts are not modelled. *)
Definition isdigit (a : ascii) : bool :=
  let n := nat_of_ascii a in (48 <=? n)%nat && (n <=? 57)%nat.

(** [str(n)] for a non-negative integer. *)
Definition str_of_nat (n : nat) : string :=
  NilEmpty.string_of_uint (Nat.to_uint n).

(** *** Numeric views of a cell *)

(** The operand of an element-wise Series operation: integers widen to
    float64, [None] is a missing value, a string is a [TypeError]. *)
Definition to_float (c : cell) : result float64 :=
  match c with
  | VFloat x => Ok x
  | VInt z => Ok (of_Z z)
  | VNone => Ok NaN
  | VStr _ => Raise TypeError
  end.

(** The operand of a scalar Python operation: [None] is a [TypeError] too. *)
Definition to_scalar (c : cell) : result float64 :=
  match c with
  | VFloat x => Ok x
  | VInt z => Ok (of_Z z)
  | VNone | VStr _ => Raise TypeError
  end.

Definition to_floats (s : Series) : result (list float64) := traverse to_float s.

(** [a * b], [a + b], [a / b] on two Series of one frame. *)
Definition series_binop (op : float64 → float64 → float64) (a b : Series)
  : result (list float64) :=
  xs ← to_floats a; ys ← to_floats b; Ok (zip_with op xs ys).

(** [s == 'text'], element-wise. *)
Definition cell_eq_str (text : string) (c : cell) : bool :=
  match c with
  | VStr s => String.eqb s text
  | _ => false
  end.

(** *** Reading a DataFrame *)

(** The position of a column name. *)
Fixpoint col_pos (cols : list string) (c : string) : result nat :=
  match cols with
  | [] => Raise KeyError
  | c' :: cols' => if String.eqb c' c then Ok 0%nat else S <$> col_pos cols' c
  end.

Definition row_cell (i : nat) (row : list cell) : cell := nth i row nan_cell.

(** [df[c]]. *)
Definition getitem (d : DataFrame) (c : string) : result Series :=
  i ← col_pos (columns d) c; Ok (map (row_cell i) (rows d)).

(** [df[[c1, ..., ck]]]. *)
Definition getitem_list (d : DataFrame) (cs : list string) : result DataFrame :=
  ps ← traverse (col_pos (columns d)) cs;
  Ok (mkDF cs (map (λ row, map (λ i, row_cell i row) ps) (rows d))).

(** [df[mask]] with a boolean Series computed from [df]: the rows at the
    [True] positions. *)
Definition getitem_mask (d : DataFrame) (mask : list bool) : DataFrame :=
  mkDF (columns d) (map snd (List.filter fst (zip mask (rows d)))).

(** [df.loc[0, c]] under the default index: the cell of the first row. *)
Definition loc0 (d : DataFrame) (c : string) : result cell :=
  i ← col_pos (columns d) c;
  match rows d with
  | [] => Raise KeyError
  | row :: _ => Ok (row_cell i row)
  end.

(** [df.iloc[-1]]. *)
Definition iloc_last (d : DataFrame) : result RowSeries :=
  match last (rows d) with
  | None => Raise IndexError
  | Some row => Ok (zip (columns d) row)
  end.

(** *** Updating a DataFrame or a Series (the values the updates produce) *)

(** One row after [df[c] = v]: overwrite in place, or extend on the right. *)
Definition row_set (cols : list string) (c : string) (v : cell) (row : list cell)
  : list cell :=
  match col_pos cols c with
  | Ok i => <[i:=v]> row
  | Raise _ => row ++ [v]
  end.

Definition cols_set (cols : list string) (c : string) : list string :=
  match col_pos cols c with
  | Ok _ => cols
  | Raise _ => cols ++ [c]
  end.

(** [df[c] = scalar]. *)
Definition setitem_scalar (c : string) (v : cell) (d : DataFrame) : DataFrame :=
  mkDF (cols_set (columns d) c) (map (row_set (columns d) c v) (rows d)).

(** [df[c] = values], one value per row; [ValueError] on a length mismatch. *)
Definition setitem_values (c : string) (vs : list cell) (d : DataFrame)
  : result DataFrame :=
  if Nat.eqb (length vs) (length (rows d))
  then Ok (mkDF (cols_set (columns d) c)
                (zip_with (row_set (columns d) c) vs (rows d)))
  else Raise ValueError.

(** [df.columns = names]; [ValueError] on a length mismatch. *)
Definition set_columns (names : list string) (d : DataFrame) : result DataFrame :=
  if Nat.eqb (length names) (length (columns d))
  then Ok (mkDF names (rows d))
  else Raise ValueError.

(** [s[label] = v] and [s.loc[label] = v] on a row Series. *)
Fixpoint rowseries_set (label : string) (v : cell) (s : RowSeries) : RowSeries :=
  match s with
  | [] => [(label, v)]
  | (l, x) :: s' =>
      if String.eqb l label then (l, v) :: s' else (l, x) :: rowseries_set label v s'
  end.

(** [pd.DataFrame(s).transpose()]: a frame of one row. *)
Definition rowseries_to_frame (s : RowSeries) : DataFrame :=
  mkDF (map fst s) [map snd s].

(** [pd.Series(values).to_frame().transpose()]: one row, columns 0, 1, ... *)
Definition list_to_frame (vs : list cell) : DataFrame :=
  mkDF (map str_of_nat (seq 0 (length vs))) [vs].

(** *** [pd.concat(frames, axis=0)]

    Frames with the same columns are stacked; otherwise the columns are
    joined (first occurrence order) and the missing cells are filled
    with not-a-number. No frame at all is a [ValueError]. *)

Definition same_columns (cs : list string) (d : DataFrame) : bool :=
  bool_decide (columns d = cs).

Definition join_columns (cs1 cs2 : list string) : list string :=
  cs1 ++ List.filter (λ c, bool_decide (c ∉ cs1)) cs2.

Definition reindex_row (from to : list string) (row : list cell) : list cell :=
  map (λ c, match col_pos from c with
            | Ok i => row_cell i row
            | Raise _ => nan_cell
            end) to.

Definition concat (frames : list DataFrame) : result DataFrame :=
  match frames with
  | [] => Raise ValueError
  | d :: ds =>
      if forallb (same_columns (columns d)) ds
      then Ok (mkDF (columns d) (flat_map rows frames))
      else
        let cols := fold_left join_columns (map columns ds) (columns d) in
        Ok (mkDF cols
              (flat_map (λ d', map (reindex_row (columns d') cols) (rows d')) frames))
  end.

(** [DataFrame.apply(f, axis=0)] for an [f] that returns a Series: [f] is
    applied to every column, the results are the columns of the new frame. *)
Definition apply_columns (f : Series → result Series) (d : DataFrame)
  : result DataFrame :=
  cols ← traverse (λ c, getitem d c ≫= f) (columns d);
  let n := match cols with [] => 0%nat | s :: _ => length s end in
  Ok (mkDF (columns d) (map (λ i, map (row_cell i) cols) (seq 0 n))).

(** [s.item()]: the only element of a Series. *)
Definition item (xs : list float64) : result float64 :=
  match xs with
  | [x] => Ok x
  | _ => Raise ValueError
  end.

(** [x.iloc[i]] on a column. *)
Definition iloc (x : Series) (i : nat) : result cell :=
  match x !! i with
  | Some v => Ok v
  | None => Raise IndexError
  end.

(** A left fold whose step may raise. *)
Fixpoint fold_result {A B : Type} (f : A → B → result A) (xs : list B) (a : A)
  : result A :=
  match xs with
  | [] => Ok a
  | x :: xs' => a' ← f a x; fold_result f xs' a'
  end.

(** ** The heap of DataFrame objects *)

Abbreviation ref := nat (only parsing).
Abbreviation heap := (list DataFrame) (only parsing).

(** A computation reads and writes the heap and returns or raises. *)
Definition M (A : Type) : Type := heap → result A * heap.

#[global] Instance M_ret : MRet M := λ A a h, (Ok a, h).
#[global] Instance M_bind : MBind M := λ A B f m h,
  match m h with
  | (Ok a, h') => f a h'
  | (Raise e, h') => (Raise e, h')
  end.

Definition lift {A : Type} (r : result A) : M A := λ h, (r, h).

(** A new object; its reference is fresh. *)
Definition alloc (d : DataFrame) : M ref := λ h, (Ok (length h), h ++ [d]).

Definition deref (r : ref) : M DataFrame := λ h,
  (match h !! r with Some d => Ok d | None => Raise Unbound end, h).

(** The object behind [r] is replaced in place: every holder of [r] sees it. *)
Definition assign (r : ref) (d : DataFrame) : M unit := λ h,
  (if decide (r < length h)%nat then Ok () else Raise Unbound, <[r:=d]> h).

Fixpoint traverseM {A B : Type} (f : A → M B) (xs : list A) : M (list B) :=
  match xs with
  | [] => mret []
  | x :: xs' => y ← f x; ys ← traverseM f xs'; mret (y :: ys)
  end.

(** *** pandas operations on references *)

(** [df.copy()] and [df.reset_index(drop=True)]: a new object, same cells. *)
Definition df_copy (df : ref) : M ref := d ← deref df; alloc d.
Definition df_reset_index (df : ref) : M ref := d ← deref df; alloc d.

Definition df_getitem (df : ref) (c : string) : M Series :=
  d ← deref df; lift (getitem d c).

Definition df_getitem_list (df : ref) (cs : list string) : M ref :=
  d ← deref df; d' ← lift (getitem_list d cs); alloc d'.

Definition df_getitem_mask (df : ref) (mask : list bool) : M ref :=
  d ← deref df; alloc (getitem_mask d mask).

Definition df_setitem_scalar (df : ref) (c : string) (v : cell) : M unit :=
  d ← deref df; assign df (setitem_scalar c v d).

Definition df_setitem_values (df : ref) (c : string) (vs : list cell) : M unit :=
  d ← deref df; d' ← lift (setitem_values c vs d); assign df d'.

Definition df_set_columns (df : ref) (names : list string) : M unit :=
  d ← deref df; d' ← lift (set_columns names d); assign df d'.

Definition df_apply (df : ref) (f : Series → result Series) : M ref :=
  d ← deref df; d' ← lift (apply_columns f d); alloc d'.

Definition pd_concat (frames : list ref) : M ref :=
  ds ← traverseM deref frames; d ← lift (concat ds); alloc d.

(** ** The four operations of core/eval.py *)

Definition SUP0 : string := "sup0".
Definition SUP1 : string := "sup1".

(** The body of the loop of [append_weighted_average] (lines 145-159): the
    average of one metric column of the frame [d], whose metric columns
    are float64 columns. *)
Definition column_average (d : DataFrame) (metric_name : string) : result float64 :=
  let sample_count := of_nat (length (rows d)) in
  values ← getitem d metric_name;
  suffix ← str_last metric_name;
  if Ascii.eqb suffix "0" then
    sup ← getitem d SUP0;
    weighted_metrics ← series_binop fmul values sup;
    sample_count ← series_sum <$> to_floats sup;
    Ok (series_sum weighted_metrics / sample_count)%f64
  else if Ascii.eqb suffix "1" then
    sup ← getitem d SUP1;
    weighted_metrics ← series_binop fmul values sup;
    sample_count ← series_sum <$> to_floats sup;
    Ok (series_sum weighted_metrics / sample_count)%f64
  else
    weighted_metrics ← to_floats values;
    Ok (series_sum weighted_metrics / sample_count)%f64.

Definition append_weighted_average (metrics_df : ref) : M ref :=
  metrics_df ← df_copy metrics_df;
  d ← deref metrics_df;
  let metric_names := drop 2 (columns d) in
  model_name ← lift (loc0 d "model_name");
  averages ← lift (traverse (column_average d) metric_names);
  let weighted_avg_metrics := [model_name; VStr "wt_avg"] ++ map VFloat averages in
  weighted_avgs ← alloc (list_to_frame weighted_avg_metrics);
  df_set_columns weighted_avgs LABELS;;
  pd_concat [metrics_df; weighted_avgs].

(** The columns averaged by [combine_several_weighted_averages] (line 191). *)
Definition MEAN_COLUMNS : list string :=
  ["loss"; "acc"; "prec0"; "prec1"; "rec0"; "rec1"; "f1sc0"; "f1sc1";
   "sup0"; "sup1"; "mcc"].

Definition wt_avg_mask (note : Series) : list bool :=
  map (cell_eq_str "wt_avg") note.

(** The first loop of [combine_several_weighted_averages] (lines 183-186);
    [i] is the index [enumerate] has reached. *)
Fixpoint extract_wt_avg (i : nat) (metric_dataframes : list ref) : M (list ref) :=
  match metric_dataframes with
  | [] => mret []
  | df :: rest =>
      note ← df_getitem df "note";
      wt_avg ← df_getitem_mask df (wt_avg_mask note);
      df_setitem_scalar wt_avg "note" (VStr (str_of_nat (i + 1) ++ "_wt_avg")%string);;
      wt_avg_list ← extract_wt_avg (S i) rest;
      mret (wt_avg :: wt_avg_list)
  end.

(** One step of the second loop (line 192). *)
Definition set_column_mean (d : DataFrame) (means : RowSeries) (col : string)
  : result RowSeries :=
  values ← getitem d col;
  xs ← to_floats values;
  Ok (rowseries_set col (VFloat (series_mean xs)) means).

Definition combine_several_weighted_averages (metric_dataframes : list ref) : M ref :=
  wt_avg_list ← extract_wt_avg 0 metric_dataframes;
  new_df ← pd_concat wt_avg_list;
  d ← deref new_df;
  new_df_means ← lift (iloc_last d);
  let new_df_means := rowseries_set "note" (VStr "wt_avg") new_df_means in
  new_df_means ← lift (fold_result (set_column_mean d) MEAN_COLUMNS new_df_means);
  means_frame ← alloc (rowseries_to_frame new_df_means);
  pd_concat [new_df; means_frame].

(** [(metrics.loc[:, a] + metrics.loc[:, b]) / 2] (lines 211-213). *)
Definition class_mean (d : DataFrame) (a b : string) : result Series :=
  xs ← getitem d a;
  ys ← getitem d b;
  total ← series_binop fadd xs ys;
  Ok (map (λ t, VFloat (t / ftwo)%f64) total).

Definition create_metrics_table (metric_dataframes : list ref) : M ref :=
  metrics ← pd_concat metric_dataframes;
  note ← df_getitem metrics "note";
  metrics ← df_getitem_mask metrics (wt_avg_mask note);
  d ← deref metrics;
  new_metrics ← df_getitem_list metrics ["model_name"; "loss"; "acc"];
  new_metrics ← df_copy new_metrics;
  prec ← lift (class_mean d "prec0" "prec1");
  df_setitem_values new_metrics "prec" prec;;
  rec ← lift (class_mean d "rec0" "rec1");
  df_setitem_values new_metrics "rec" rec;;
  f1sc ← lift (class_mean d "f1sc0" "f1sc1");
  df_setitem_values new_metrics "f1sc" f1sc;;
  df_reset_index new_metrics.

Definition remove_end_digit (x : string) : string :=
  match str_last x with
  | Raise _ => x
  | Ok a => if isdigit a then str_init x else x
  end.

(** [[c for c in cols if c[-1] != digit]] (lines 245 and 250). *)
Definition columns_not_ending (digit : ascii) (cols : list string)
  : result (list string) :=
  keep ← traverse (λ c, a ← str_last c; Ok (negb (Ascii.eqb a digit))) cols;
  Ok (map snd (List.filter fst (zip keep cols))).

(** [isinstance(val, (int, float))]: a float64 is a Python float, a NumPy
    integer is not a Python int. *)
Definition is_int_or_float (val : cell) : bool :=
  match val with
  | VFloat _ => true
  | _ => false
  end.

Definition weighted_avg (x : Series) (ratio : float64) : result Series :=
  val ← iloc x 0;
  if negb (is_int_or_float val) then Ok [val; val]
  else
    x0 ← to_scalar val;
    x1 ← iloc x 1 ≫= to_scalar;
    let weighted_avg := ((x0 * ratio + x1) / (fone + ratio))%f64 in
    let macro_avg := ((x0 + x1) / ftwo)%f64 in
    Ok [VFloat macro_avg; VFloat weighted_avg].

(** Lines 245-248 and 250-253: the view of one class. *)
Definition class_view (metric_df : ref) (other : ascii) (label : Z) : M ref :=
  d ← deref metric_df;
  columns_c ← lift (columns_not_ending other (columns d));
  metric_c ← df_getitem_list metric_df columns_c;
  metric_c ← df_copy metric_c;
  d_c ← deref metric_c;
  df_set_columns metric_c (map remove_end_digit (columns d_c));;
  df_setitem_scalar metric_c "note" (VInt label);;
  mret metric_c.

(** Lines 233-235, "calculate class ratio". *)
Definition class_ratio (metric_df : ref) : M float64 :=
  support_values ← df_getitem_list metric_df ["sup0"; "sup1"];
  support_values ← df_copy support_values;
  sup0 ← df_getitem support_values "sup0";
  sup1 ← df_getitem support_values "sup1";
  lift (series_binop fdiv sup0 sup1 ≫= item).

Definition metric_class_averages (metric_df : ref) : M ref :=
  support_ratio ← class_ratio metric_df;
  metric_0 ← class_view metric_df "1" 0;
  metric_1 ← class_view metric_df "0" 1;
  metrics_new ← pd_concat [metric_0; metric_1];
  metric_avg ← df_apply metrics_new (λ x, weighted_avg x support_ratio);
  df_setitem_values metric_avg "note" [VStr "macro_avg"; VStr "wt_avg"];;
  pd_concat [metrics_new; metric_avg].

(** ** Metric tables: the frames the operations are called on *)

(** One row under the canonical schema [LABELS]. *)
Record MetricRecord : Type := mkRecord {
  model_name : string;
  note : cell;
  loss : float64;
  acc : float64;
  prec0 : float64;
  prec1 : float64;
  rec0 : float64;
  rec1 : float64;
  f1sc0 : float64;
  f1sc1 : float64;
  sup0 : float64;
  sup1 : float64;
  mcc : float64
}.

Definition to_row (r : MetricRecord) : list cell :=
  [VStr (model_name r); note r; VFloat (loss r); VFloat (acc r);
   VFloat (prec0 r); VFloat (prec1 r); VFloat (rec0 r); VFloat (rec1 r);
   VFloat (f1sc0 r); VFloat (f1sc1 r); VFloat (sup0 r); VFloat (sup1 r);
   VFloat (mcc r)].

(** The frame holding the rows [recs]. *)
Definition table (recs : list MetricRecord) : DataFrame :=
  mkDF LABELS (map to_row recs).

(** The metric columns (all but [model_name] and [note]) with their fields. *)
Definition metric_columns : list (string * (MetricRecord → float64)) :=
  [("loss", loss); ("acc", acc); ("prec0", prec0); ("prec1", prec1);
   ("rec0", rec0); ("rec1", rec1); ("f1sc0", f1sc0); ("f1sc1", f1sc1);
   ("sup0", sup0); ("sup1", sup1); ("mcc", mcc)].

(** A record from its name, note and the eleven metric values in order. *)
Definition record_of (name : string) (nt : cell) (xs : list float64) : MetricRecord :=
  let x i := nth i xs NaN in
  mkRecord name nt (x 0%nat) (x 1%nat) (x 2%nat) (x 3%nat) (x 4%nat) (x 5%nat)
           (x 6%nat) (x 7%nat) (x 8%nat) (x 9%nat) (x 10%nat).

(** [m] run on [h] returns a reference to a frame equal to [d]. *)
Definition returns (m : M ref) (h : heap) (d : DataFrame) : Prop :=
  ∃ r h', m h = (Ok r, h') ∧ h' !! r = Some d.

(** [m] run on [h] returns the value [a]. *)
Definition yields {A : Type} (m : M A) (h : heap) (a : A) : Prop :=
  ∃ h', m h = (Ok a, h').

(** [m] run on [h] raises [e]. *)
Definition raises {A : Type} (m : M A) (h : heap) (e : exn) : Prop :=
  ∃ h', m h = (Raise e, h').

(** *** Closed forms of what the operations compute on metric tables *)

(** The average [append_weighted_average] computes for the column [c] with
    field [fld]: weighted by the support its suffix names, or over the
    number of rows. *)
Definition average_of (recs : list MetricRecord) (c : string)
    (fld : MetricRecord → float64) : float64 :=
  let weighted (sup : MetricRecord → float64) :=
    (series_sum (map (λ r, fld r * sup r) recs) / series_sum (map sup recs))%f64 in
  match str_last c with
  | Ok "0"%char => weighted sup0
  | Ok "1"%char => weighted sup1
  | _ => (series_sum (map fld recs) / of_nat (length recs))%f64
  end.

Definition average_row (recs : list MetricRecord) : MetricRecord :=
  record_of (match recs with r :: _ => model_name r | [] => "" end)
            (VStr "wt_avg")
            (map (λ cf, average_of recs cf.1 cf.2) metric_columns).

(** The rows [combine_several_weighted_averages] stacks: the ["wt_avg"]
    rows of every table, relabelled with the 1-based position of the table. *)
Definition is_wt_avg (r : MetricRecord) : bool := cell_eq_str "wt_avg" (note r).

Definition relabel (i : nat) (r : MetricRecord) : MetricRecord :=
  mkRecord (model_name r) (VStr (str_of_nat (i + 1) ++ "_wt_avg")%string)
    (loss r) (acc r) (prec0 r) (prec1 r) (rec0 r) (rec1 r)
    (f1sc0 r) (f1sc1 r) (sup0 r) (sup1 r) (mcc r).

Fixpoint stacked (i : nat) (tables : list (list MetricRecord)) : list MetricRecord :=
  match tables with
  | [] => []
  | t :: rest => map (relabel i) (List.filter is_wt_avg t) ++ stacked (S i) rest
  end.

Definition mean_row (recs : list MetricRecord) : MetricRecord :=
  record_of (match last recs with Some r => model_name r | None => "" end)
            (VStr "wt_avg")
            (map (λ cf, series_mean (map cf.2 recs)) metric_columns).

(** ** The averages in the words of the specification

    [sum(value_i * sup_i) / sum(sup_i)] and the arithmetic mean, with the
    plain sum: a not-a-number term makes the result not-a-number. *)

Definition weighted_mean (values weights : list float64) : float64 :=
  (fsum (zip_with fmul values weights) / fsum weights)%f64.

Definition arithmetic_mean (values : list float64) : float64 :=
  (fsum values / of_nat (length values))%f64.

(** The value the specification gives the appended row in column [c]. *)
Definition stated_average (recs : list MetricRecord) (c : string)
    (fld : MetricRecord → float64) : float64 :=
  match str_last c with
  | Ok "0"%char => weighted_mean (map fld recs) (map sup0 recs)
  | Ok "1"%char => weighted_mean (map fld recs) (map sup1 recs)
  | _ => arithmetic_mean (map fld recs)
  end.

(** Every metric cell of the record is a finite number. *)
Definition finite_record (r : MetricRecord) : Prop :=
  Forall (λ cf, is_finite (cf.2 r) = true) metric_columns.

(** ** Example tables *)

Definition dec (n : Z) (d : positive) : float64 := Fin (Q2Qc (n # d)).

(** Two folds of one run: fold A has [prec0 = 1.0], [sup0 = 10],
    [prec1 = 0.5], [sup1 = 2]; fold B has [prec0 = 0.8], [sup0 = 5],
    [prec1 = 0.9], [sup1 = 8]. *)
Definition fold_A : MetricRecord :=
  mkRecord "Net" VNone (dec 1 2) (dec 9 10) (dec 1 1) (dec 1 2) (dec 1 1) (dec 1 2)
           (dec 1 1) (dec 1 2) (dec 10 1) (dec 2 1) (dec 1 2).
Definition fold_B : MetricRecord :=
  mkRecord "Net" VNone (dec 1 4) (dec 8 10) (dec 8 10) (dec 9 10) (dec 1 1) (dec 1 1)
           (dec 9 10) (dec 9 10) (dec 5 1) (dec 8 1) (dec 1 4).
Definition two_folds : list MetricRecord := [fold_A; fold_B].

(** Fold C never predicts class 1: its [prec1] is undefined, [sup1 = 3]. *)
Definition fold_C : MetricRecord :=
  mkRecord "Net" VNone (dec 1 4) (dec 8 10) (dec 8 10) NaN (dec 1 1) (dec 0 1)
           (dec 9 10) (dec 0 1) (dec 5 1) (dec 3 1) (dec 1 4).
Definition nan_folds : list MetricRecord := [fold_A; fold_C].

(** Fold C with 0 in the place of the undefined [prec1]. *)
Definition fold_C0 : MetricRecord :=
  mkRecord "Net" VNone (dec 1 4) (dec 8 10) (dec 8 10) fzero (dec 1 1) (dec 0 1)
           (dec 9 10) (dec 0 1) (dec 5 1) (dec 3 1) (dec 1 4).

(** A fold of another model. *)
Definition fold_D : MetricRecord :=
  mkRecord "Forest" VNone (dec 1 4) (dec 8 10) (dec 8 10) (dec 9 10) (dec 1 1) (dec 1 1)
           (dec 9 10) (dec 9 10) (dec 5 1) (dec 8 1) (dec 1 4).
Definition two_models : list MetricRecord := [fold_A; fold_D].

(** Two folds without any sample of class 1. *)
Definition fold_E : MetricRecord :=
  mkRecord "Net" VNone (dec 1 2) (dec 9 10) (dec 1 1) NaN (dec 1 1) NaN
           (dec 1 1) NaN (dec 10 1) fzero (dec 0 1).
Definition fold_F : MetricRecord :=
  mkRecord "Net" VNone (dec 1 4) (dec 8 10) (dec 8 10) (dec 0 1) (dec 1 1) NaN
           (dec 9 10) NaN (dec 5 1) fzero (dec 0 1).
Definition no_class_1 : list MetricRecord := [fold_E; fold_F].

(** ** Frame conditions *)

(** [m] leaves the first [n] objects of the heap as they are, never
    shrinks the heap, and returns only values that satisfy [V]. *)
Definition frames {A : Type} (n : nat) (V : A → Prop) (m : M A) : Prop :=
  ∀ h, (n ≤ length h)%nat →
    (length h ≤ length (m h).2)%nat
    ∧ take n (m h).2 = take n h
    ∧ ∀ a, (m h).1 = Ok a → V a.

(** Postconditions on a returned value: a reference at or above [n], or
    anything at all. *)
Definition fresh (n : nat) (r : ref) : Prop := (n ≤ r)%nat.
Definition any {A : Type} (_ : A) : Prop := True.

(** The reference [m] returns is bound in the heap [m] leaves. *)
Definition returns_bound (m : M ref) : Prop :=
  ∀ h r, (m h).1 = Ok r → (r < length (m h).2)%nat.

(** [m] builds a new table: every object of the heap it starts from is
    unchanged, and the reference it returns is a fresh one, bound to an
    object. *)
Definition builds_new_table (m : M ref) : Prop :=
  ∀ h,
    (∀ r d, h !! r = Some d → (m h).2 !! r = Some d)
    ∧ (∀ r, (m h).1 = Ok r → (length h ≤ r)%nat ∧ is_Some ((m h).2 !! r)).

(** The objects the first loop of [combine_several_weighted_averages] allocates. *)
Fixpoint extracted (i : nat) (tables : list (list MetricRecord)) : list DataFrame :=
  match tables with
  | [] => []
  | t :: rest => table (map (relabel i) (List.filter is_wt_avg t)) :: extracted (S i) rest
  end.

(** ** Example runs *)

(** A run whose ["wt_avg"] row has a defined [prec1] and a run without
    any sample of class 1, whose ["wt_avg"] row has none. *)
Definition run_1 : list MetricRecord := two_folds ++ [average_row two_folds].
Definition run_2 : list MetricRecord := no_class_1 ++ [average_row no_class_1].

(** A heap with a table of folds holding an undefined [prec1], the same
    table with 0 in its place, and the two example runs. *)
Definition nan_heap : list DataFrame :=
  [table nan_folds; table [fold_A; fold_C0]; table run_1; table run_2].

(** ** The summary table of [create_metrics_table] *)

Definition SUMMARY_LABELS : list string :=
  ["model_name"; "loss"; "acc"; "prec"; "rec"; "f1sc"].

Record SummaryRecord : Type := mkSummary {
  s_model_name : string;
  s_loss : float64;
  s_acc : float64;
  s_prec : float64;
  s_rec : float64;
  s_f1sc : float64
}.

Definition summary_to_row (s : SummaryRecord) : list cell :=
  [VStr (s_model_name s); VFloat (s_loss s); VFloat (s_acc s);
   VFloat (s_prec s); VFloat (s_rec s); VFloat (s_f1sc s)].

Definition summary_table (ss : list SummaryRecord) : DataFrame :=
  mkDF SUMMARY_LABELS (map summary_to_row ss).

(** The row [create_metrics_table] builds from a kept row. *)
Definition summarise (r : MetricRecord) : SummaryRecord :=
  mkSummary (model_name r) (loss r) (acc r)
    ((prec0 r + prec1 r) / ftwo)%f64
    ((rec0 r + rec1 r) / ftwo)%f64
    ((f1sc0 r + f1sc1 r) / ftwo)%f64.

(** The summary row [s] is the one built from the row [r]: identity and
    scalar metrics copied, class metrics averaged over the two classes. *)
Definition summary_of (r : MetricRecord) (s : SummaryRecord) : Prop :=
  s_model_name s = model_name r ∧ s_loss s = loss r ∧ s_acc s = acc r
  ∧ s_prec s = ((prec0 r + prec1 r) / ftwo)%f64
  ∧ s_rec s = ((rec0 r + rec1 r) / ftwo)%f64
  ∧ s_f1sc s = ((f1sc0 r + f1sc1 r) / ftwo)%f64.

(** ** The class table of [metric_class_averages] *)

Definition CLASS_LABELS : list string :=
  ["model_name"; "note"; "loss"; "acc"; "prec"; "rec"; "f1sc"; "sup"; "mcc"].

Record ClassRecord : Type := mkClass {
  c_model_name : string;
  c_note : cell;
  c_loss : float64;
  c_acc : float64;
  c_prec : float64;
  c_rec : float64;
  c_f1sc : float64;
  c_sup : float64;
  c_mcc : float64
}.

Definition class_to_row (r : ClassRecord) : list cell :=
  [VStr (c_model_name r); c_note r; VFloat (c_loss r); VFloat (c_acc r);
   VFloat (c_prec r); VFloat (c_rec r); VFloat (c_f1sc r); VFloat (c_sup r);
   VFloat (c_mcc r)].

Definition class_table (rs : list ClassRecord) : DataFrame :=
  mkDF CLASS_LABELS (map class_to_row rs).

(** The numeric columns of the class table with their fields. *)
Definition class_columns : list (string * (ClassRecord → float64)) :=
  [("loss", c_loss); ("acc", c_acc); ("prec", c_prec); ("rec", c_rec);
   ("f1sc", c_f1sc); ("sup", c_sup); ("mcc", c_mcc)].

(** The two views of a summary row. *)
Definition class_0 (r : MetricRecord) : ClassRecord :=
  mkClass (model_name r) (VInt 0) (loss r) (acc r) (prec0 r) (rec0 r) (f1sc0 r)
          (sup0 r) (mcc r).
Definition class_1 (r : MetricRecord) : ClassRecord :=
  mkClass (model_name r) (VInt 1) (loss r) (acc r) (prec1 r) (rec1 r) (f1sc1 r)
          (sup1 r) (mcc r).

(** [sup0 / sup1] of a summary row. *)
Definition support_ratio (r : MetricRecord) : float64 := (sup0 r / sup1 r)%f64.

(** The two averages [weighted_avg] computes of a numeric pair. *)
Definition macro_of (v0 v1 : float64) : float64 := ((v0 + v1) / ftwo)%f64.
Definition weighted_of (ratio v0 v1 : float64) : float64 :=
  ((v0 * ratio + v1) / (fone + ratio))%f64.

(** A row reduced from the two views, field by field. *)
Definition reduce_views (nt : string) (f : float64 → float64 → float64)
    (a b : ClassRecord) : ClassRecord :=
  mkClass (c_model_name a) (VStr nt)
    (f (c_loss a) (c_loss b)) (f (c_acc a) (c_acc b)) (f (c_prec a) (c_prec b))
    (f (c_rec a) (c_rec b)) (f (c_f1sc a) (c_f1sc b)) (f (c_sup a) (c_sup b))
    (f (c_mcc a) (c_mcc b)).

Definition macro_row (r : MetricRecord) : ClassRecord :=
  reduce_views "macro_avg" macro_of (class_0 r) (class_1 r).
Definition weighted_row (r : MetricRecord) : ClassRecord :=
  reduce_views "wt_avg" (weighted_of (support_ratio r)) (class_0 r) (class_1 r).

(** A summary row with ten samples of class 0 and none of class 1, and one
    with five samples of each class. *)
Definition only_class_0 : MetricRecord :=
  mkRecord "Net" (VStr "wt_avg") (dec 1 2) (dec 9 10) (dec 1 1) NaN (dec 1 1) NaN
           (dec 1 1) NaN (dec 10 1) fzero (dec 0 1).
Definition balanced : MetricRecord :=
  mkRecord "Net" (VStr "wt_avg") (dec 1 2) (dec 9 10) (dec 1 1) (dec 1 2) (dec 1 1)
           (dec 1 2) (dec 1 1) (dec 2 3) (dec 5 1) (dec 5 1) (dec 1 2).

(** The ["wt_avg"] row of a run with accuracy [a]. *)
Definition run_row (a : float64) : MetricRecord :=
  mkRecord "Net" (VStr "wt_avg") (dec 1 2) a (dec 1 1) (dec 1 2) (dec 1 1) (dec 1 2)
           (dec 1 1) (dec 2 3) (dec 5 1) (dec 5 1) (dec 1 2).
Definition three_runs : list (list MetricRecord) :=
  [[run_row (dec 70 100)]; [run_row (dec 80 100)]; [run_row (dec 75 100)]].

(** ** Object columns: [append_weighted_average] on its own result

    The frame [append_weighted_average] returns has object columns: the
    appended row is built from a list that mixes strings and numbers, and
    [pd.concat] gives a float64 column joined to an object one the dtype
    object. The cells of the input rows become Python floats, those of the
    appended row stay NumPy scalars. On object columns the products and
    the sums are computed on the objects themselves, and the division of
    line 159 is Python's own when both operands are Python numbers: a
    divisor 0 then raises [ZeroDivisionError], where NumPy yields an
    infinity or not-a-number. *)

(** A number held as an object: a Python float or int, or a NumPy scalar. *)
Inductive number : Type :=
  | PyNumber (x : float64)
  | NpNumber (x : float64).

Definition value (n : number) : float64 :=
  match n with
  | PyNumber x | NpNumber x => x
  end.

Definition is_python (n : number) : bool :=
  match n with
  | PyNumber _ => true
  | NpNumber _ => false
  end.

(** [a + b] and [a * b] on two objects: a Python number when both are, a
    NumPy scalar as soon as one is. *)
Definition number_op (f : float64 → float64 → float64) (a b : number) : number :=
  match a, b with
  | PyNumber x, PyNumber y => PyNumber (f x y)
  | _, _ => NpNumber (f (value a) (value b))
  end.

(** How a call on an object frame ends; [DivisionByZero] is Python's
    [ZeroDivisionError]. *)
Inductive ended (A : Type) : Type :=
  | Returned (a : A)
  | Raised (e : exn)
  | DivisionByZero.
Arguments Returned {A} a.
Arguments Raised {A} e.
Arguments DivisionByZero {A}.

#[global] Instance ended_ret : MRet ended := λ A a, Returned a.
#[global] Instance ended_bind : MBind ended := λ A B f m,
  match m with
  | Returned a => f a
  | Raised e => Raised e
  | DivisionByZero => DivisionByZero
  end.

(** [a / b] on two objects (line 159). *)
Definition number_div (a b : number) : ended number :=
  match a, b with
  | PyNumber x, PyNumber y =>
      if feqb y fzero then DivisionByZero else Returned (PyNumber (x / y)%f64)
  | _, _ => Returned (NpNumber (value a / value b)%f64)
  end.

(** [Series.sum()] of an object column: the not-a-number entries are
    replaced by the integer 0 and the objects are added from left to
    right; the sum of nothing is the integer 0. *)
Definition object_sum (xs : list number) : number :=
  match map (λ n, if is_nan (value n) then PyNumber fzero else n) xs with
  | [] => PyNumber fzero
  | n :: ns => fold_left (number_op fadd) ns n
  end.

(** A row of an object frame under [LABELS]: its values and, for each
    metric column, whether the cell is a Python number. *)
Record ObjectRecord : Type := mkObject {
  o_values : MetricRecord;
  o_python : string → bool
}.

Definition number_at (r : ObjectRecord) (c : string)
    (fld : MetricRecord → float64) : number :=
  if o_python r c then PyNumber (fld (o_values r)) else NpNumber (fld (o_values r)).

(** [metrics_df[c]]. *)
Definition object_column (rows : list ObjectRecord) (c : string)
    (fld : MetricRecord → float64) : list number :=
  map (λ r, number_at r c fld) rows.

(** The body of the loop (lines 145-159) on an object frame. *)
Definition object_column_average (rows : list ObjectRecord) (metric_name : string)
    (fld : MetricRecord → float64) : ended number :=
  let sample_count := PyNumber (of_nat (length rows)) in
  let weighted_metrics := object_column rows metric_name fld in
  match str_last metric_name with
  | Raise e => Raised e
  | Ok suffix =>
      if Ascii.eqb suffix "0" then
        let sup := object_column rows SUP0 sup0 in
        let weighted_metrics := zip_with (number_op fmul) weighted_metrics sup in
        number_div (object_sum weighted_metrics) (object_sum sup)
      else if Ascii.eqb suffix "1" then
        let sup := object_column rows SUP1 sup1 in
        let weighted_metrics := zip_with (number_op fmul) weighted_metrics sup in
        number_div (object_sum weighted_metrics) (object_sum sup)
      else
        number_div (object_sum weighted_metrics) sample_count
  end.

(** The loop over the metric columns, stopping at the first exception. *)
Fixpoint object_averages (rows : list ObjectRecord)
    (cols : list (string * (MetricRecord → float64))) : ended (list number) :=
  match cols with
  | [] => Returned []
  | (c, fld) :: cols' =>
      n ← object_column_average rows c fld;
      ns ← object_averages rows cols';
      Returned (n :: ns)
  end.

(** The appended row: the name of the first row, the note ["wt_avg"] and
    the averages as they were computed. *)
Definition object_average_row (name : string) (averages : list number)
  : ObjectRecord :=
  mkObject (record_of name (VStr "wt_avg") (map value averages))
    (λ c, existsb (λ cn, String.eqb cn.1 c && is_python cn.2)
            (zip (map fst metric_columns) averages)).

(** [append_weighted_average] on an object frame under [LABELS]. *)
Definition append_weighted_average_object (rows : list ObjectRecord)
  : ended (list ObjectRecord) :=
  match rows with
  | [] => Raised KeyError
  | first :: _ =>
      averages ← object_averages rows metric_columns;
      Returned (rows ++ [object_average_row (model_name (o_values first)) averages])
  end.

(** The frame [append_weighted_average] returns on the float64 table of
    [recs], [row] being the row it appends: Python floats in the rows of
    the input, NumPy scalars in the appended row. *)
Definition first_result (recs : list MetricRecord) (row : MetricRecord)
  : list ObjectRecord :=
  map (λ r, mkObject r (λ _, true)) recs ++ [mkObject row (λ _, false)].

(** ** Frames and rows used by the further properties *)

(** A frame of three columns only. *)
Definition three_columns : DataFrame :=
  mkDF ["model_name"; "note"; "loss"] [[VStr "Net"; VNone; VFloat (dec 1 2)]].

(** ** Tables of finite cells *)

(** The rational a finite float64 holds. *)
Definition qval (x : float64) : Qc :=
  match x with
  | Fin q => q
  | _ => 0%Qc
  end.

Fixpoint Qcsum (qs : list Qc) : Qc :=
  match qs with
  | [] => 0%Qc
  | q :: qs' => (q + Qcsum qs')%Qc
  end.

(** The sum of a field over the rows, and the sum of the products of two. *)
Definition qsum (f : MetricRecord → float64) (recs : list MetricRecord) : Qc :=
  Qcsum (map (λ r, qval (f r)) recs).
Definition qdot (f g : MetricRecord → float64) (recs : list MetricRecord) : Qc :=
  Qcsum (map (λ r, qval (f r) * qval (g r))%Qc recs).

(** The number of rows as a rational. *)
Definition qcount {A : Type} (xs : list A) : Qc :=
  Q2Qc (inject_Z (Z.of_nat (length xs))).

(** What [average_of] comes to on finite cells. *)
Definition qaverage (recs : list MetricRecord) (c : string)
    (fld : MetricRecord → float64) : Qc :=
  match str_last c with
  | Ok "0"%char => (qdot fld sup0 recs / qsum sup0 recs)%Qc
  | Ok "1"%char => (qdot fld sup1 recs / qsum sup1 recs)%Qc
  | _ => (qsum fld recs / qcount recs)%Qc
  end.

(** A count, a positive count, and a value of the unit interval. *)
Definition nonneg (x : float64) : Prop := ∃ q, x = Fin q ∧ (0 <= q)%Qc.
Definition positive (x : float64) : Prop := ∃ q, x = Fin q ∧ (0 < q)%Qc.
Definition in_unit (x : float64) : Prop := ∃ q, x = Fin q ∧ (0 <= q)%Qc ∧ (q <= 1)%Qc.

(** The folds of a run: finite metric cells, supports that are counts, and
    at least one sample of each class in some fold. *)
Definition fold_table (recs : list MetricRecord) : Prop :=
  Forall finite_record recs
  ∧ Forall (λ r, nonneg (sup0 r) ∧ nonneg (sup1 r)) recs
  ∧ Exists (λ r, positive (sup0 r)) recs
  ∧ Exists (λ r, positive (sup1 r)) recs.

(** ** The two evaluation functions

    [eval_model] and [eval_sklearn_model] run a network or a scikit-learn
    classifier and score its predictions with torch and scikit-learn.
    These calls are outside the file: a batch is given here by the values
    they return for it, and only runs in which they return are covered.
    Embedded is what the two functions do with these values: the
    accumulation over the batches, the divisions by the number of batches
    and the labelled Series. A dataloader is the list of its batches, its
    length the number of batches the loop sees. *)

Record Batch : Type := mkBatch {
  b_loss : float64;
  b_acc : float64;
  b_precision : list float64;
  b_recall : list float64;
  b_fscore : list float64;
  b_support : list Z;
  b_mcc : float64
}.

(** The supports are NumPy 64-bit integers: their sum wraps around. *)
Definition wrap64 (z : Z) : Z := ((z + 2 ^ 63) mod 2 ^ 64 - 2 ^ 63)%Z.
Definition int64_add (a b : Z) : Z := wrap64 (a + b).
Definition is_int64 (z : Z) : Prop := (- 2 ^ 63 <= z < 2 ^ 63)%Z.

(** [v[i] if len(v) > i else 0]. *)
Definition entry_or_zero {A : Type} (zero : A) (v : list A) (i : nat) : A :=
  if (i <? length v)%nat then nth i v zero else zero.

(** [v[i]] on an array: [IndexError] past its end. *)
Definition entry {A : Type} (v : list A) (i : nat) : result A :=
  match v !! i with
  | Some x => Ok x
  | None => Raise IndexError
  end.

(** The accumulators of the loop; the lists of two entries are pairs. *)
Record Totals : Type := mkTotals {
  test_loss : float64;
  test_acc : float64;
  test_precision : float64 * float64;
  test_recall : float64 * float64;
  test_fscore : float64 * float64;
  test_support : Z * Z;
  test_mcc : float64
}.

Definition no_totals : Totals :=
  mkTotals fzero fzero (fzero, fzero) (fzero, fzero) (fzero, fzero) (0%Z, 0%Z) fzero.

(** One turn of the loop. *)
Definition add_batch (t : Totals) (b : Batch) : Totals :=
  mkTotals
    (test_loss t + b_loss b)%f64
    (test_acc t + b_acc b)%f64
    (((test_precision t).1 + entry_or_zero fzero (b_precision b) 0)%f64,
     ((test_precision t).2 + entry_or_zero fzero (b_precision b) 1)%f64)
    (((test_recall t).1 + entry_or_zero fzero (b_recall b) 0)%f64,
     ((test_recall t).2 + entry_or_zero fzero (b_recall b) 1)%f64)
    (((test_fscore t).1 + entry_or_zero fzero (b_fscore b) 0)%f64,
     ((test_fscore t).2 + entry_or_zero fzero (b_fscore b) 1)%f64)
    (int64_add (test_support t).1 (entry_or_zero 0%Z (b_support b) 0),
     int64_add (test_support t).2 (entry_or_zero 0%Z (b_support b) 1))
    (test_mcc t + b_mcc b)%f64.

(** What [eval_model] ends in: a Series or [ZeroDivisionError]. *)
Inductive checked (A : Type) : Type :=
  | Value (a : A)
  | ZeroDivisionError.
Arguments Value {A} a.
Arguments ZeroDivisionError {A}.

#[global] Instance checked_ret : MRet checked := λ A a, Value a.
#[global] Instance checked_bind : MBind checked := λ A B f m,
  match m with
  | Value a => f a
  | ZeroDivisionError => ZeroDivisionError
  end.

(** [x /= len(dataloader)]. The length is 0 only when the loop has seen no
    batch: the accumulator is then still the Python integer 0, and dividing
    it by 0 raises. Otherwise a float is divided by a positive integer. *)
Definition div_len (x : float64) (n : nat) : checked float64 :=
  match n with
  | O => ZeroDivisionError
  | S _ => Value (x / of_nat n)%f64
  end.

(** The Series both functions return: thirteen cells under [LABELS]. *)
Definition results_series (name : string) (nt : cell)
    (ls ac p0 p1 r0 r1 f0 f1 : float64) (s0 s1 : Z) (mc : float64)
  : list (string * cell) :=
  zip LABELS
    [VStr name; nt; VFloat ls; VFloat ac; VFloat p0; VFloat p1; VFloat r0;
     VFloat r1; VFloat f0; VFloat f1; VInt s0; VInt s1; VFloat mc].

Definition eval_model (name : string) (dataloader : list Batch) (nt : cell)
  : checked (list (string * cell)) :=
  let t := fold_left add_batch dataloader no_totals in
  let n := length dataloader in
  ls ← div_len (test_loss t) n;
  ac ← div_len (test_acc t) n;
  p0 ← div_len (test_precision t).1 n;
  p1 ← div_len (test_precision t).2 n;
  r0 ← div_len (test_recall t).1 n;
  r1 ← div_len (test_recall t).2 n;
  f0 ← div_len (test_fscore t).1 n;
  f1 ← div_len (test_fscore t).2 n;
  mc ← div_len (test_mcc t) n;
  mret (results_series name nt ls ac p0 p1 r0 r1 f0 f1
          (test_support t).1 (test_support t).2 mc).

(** [eval_sklearn_model] scores the whole test set at once: one batch, no
    division, and the two entries of each array read without a guard. *)
Definition eval_sklearn_model (name : string) (m : Batch) (nt : cell)
  : result (list (string * cell)) :=
  p0 ← entry (b_precision m) 0;
  p1 ← entry (b_precision m) 1;
  r0 ← entry (b_recall m) 0;
  r1 ← entry (b_recall m) 1;
  f0 ← entry (b_fscore m) 0;
  f1 ← entry (b_fscore m) 1;
  s0 ← entry (b_support m) 0;
  s1 ← entry (b_support m) 1;
  Ok (results_series name nt (b_loss m) (b_acc m) p0 p1 r0 r1 f0 f1 s0 s1 (b_mcc m)).

(** *** The Series in closed form *)

(** [results[c]]. *)
Fixpoint series_at (s : list (string * cell)) (c : string) : option cell :=
  match s with
  | [] => None
  | (l, v) :: s' => if String.eqb l c then Some v else series_at s' c
  end.

(** The mean of a measure over the batches, by the plain sum. *)
Definition batch_mean (f : Batch → float64) (dl : list Batch) : float64 :=
  (fsum (map f dl) / of_nat (length dl))%f64.

(** The samples of class [i] over the batches. *)
Definition support_total (i : nat) (dl : list Batch) : Z :=
  fold_left int64_add (map (λ b, entry_or_zero 0%Z (b_support b) i) dl) 0%Z.

(** The measures that are averaged, under the labels of their means. *)
Definition batch_measures : list (string * (Batch → float64)) :=
  [("loss", b_loss); ("acc", b_acc);
   ("prec0", λ b, entry_or_zero fzero (b_precision b) 0);
   ("prec1", λ b, entry_or_zero fzero (b_precision b) 1);
   ("rec0", λ b, entry_or_zero fzero (b_recall b) 0);
   ("rec1", λ b, entry_or_zero fzero (b_recall b) 1);
   ("f1sc0", λ b, entry_or_zero fzero (b_fscore b) 0);
   ("f1sc1", λ b, entry_or_zero fzero (b_fscore b) 1);
   ("mcc", b_mcc)].

(** What [eval_model] returns on the batches [dl]. *)
Definition batch_means (name : string) (nt : cell) (dl : list Batch)
  : list (string * cell) :=
  results_series name nt
    (batch_mean b_loss dl) (batch_mean b_acc dl)
    (batch_mean (λ b, entry_or_zero fzero (b_precision b) 0) dl)
    (batch_mean (λ b, entry_or_zero fzero (b_precision b) 1) dl)
    (batch_mean (λ b, entry_or_zero fzero (b_recall b) 0) dl)
    (batch_mean (λ b, entry_or_zero fzero (b_recall b) 1) dl)
    (batch_mean (λ b, entry_or_zero fzero (b_fscore b) 0) dl)
    (batch_mean (λ b, entry_or_zero fzero (b_fscore b) 1) dl)
    (support_total 0 dl) (support_total 1 dl)
    (batch_mean b_mcc dl).

(** *** Example batches *)

(** A batch with samples of both classes, and one in which no sample was
    predicted positive: scikit-learn reports the precision of class 1 as
    not-a-number. *)
Definition batch_A : Batch :=
  mkBatch (dec 1 2) (dec 3 4) [dec 1 1; dec 1 2] [dec 2 3; dec 1 1]
    [dec 4 5; dec 2 3] [3%Z; 1%Z] (dec 1 2).
Definition batch_B : Batch :=
  mkBatch (dec 1 4) (dec 1 2) [dec 1 2; NaN] [dec 1 1; dec 0 1]
    [dec 2 3; dec 0 1] [2%Z; 2%Z] (dec 0 1).

(** A batch of one class only: the arrays have one entry. *)
Definition batch_C : Batch :=
  mkBatch (dec 1 4) (dec 1 1) [dec 1 1] [dec 1 1] [dec 1 1] [4%Z] (dec 0 1).

(** The samples of class [i] over the batches, counted in the integers. *)
Definition samples (i : nat) (dl : list Batch) : Z :=
  foldr Z.add 0%Z (map (λ b, entry_or_zero 0%Z (b_support b) i) dl).
(** * Proofs *)

(** ** Running computations step by step *)

Lemma bind_ok {A B : Type} (m : M A) (f : A → M B) (h h' : heap) (a : A) :
  m h = (Ok a, h') → (m ≫= f) h = f a h'.
Proof. intros E. unfold mbind, M_bind. by rewrite E. Qed.

Lemma bind_raise {A B : Type} (m : M A) (f : A → M B) (h h' : heap) (e : exn) :
  m h = (Raise e, h') → (m ≫= f) h = (Raise e, h').
Proof. intros E. unfold mbind, M_bind. by rewrite E. Qed.

Lemma run_ret {A : Type} (a : A) (h : heap) : (mret a : M A) h = (Ok a, h).
Proof. reflexivity. Qed.

Lemma run_lift {A : Type} (r : result A) (a : A) (h : heap) :
  r = Ok a → lift r h = (Ok a, h).
Proof. by intros ->. Qed.

Lemma run_deref (r : ref) (d : DataFrame) (h : heap) :
  h !! r = Some d → deref r h = (Ok d, h).
Proof. intros E. unfold deref. by rewrite E. Qed.

(** The heap is written [h ++ l]: the objects of the caller, then the
    objects allocated so far. *)
Lemma run_alloc (d : DataFrame) (h l : heap) :
  alloc d (h ++ l) = (Ok (length h + length l)%nat, h ++ (l ++ [d])).
Proof. unfold alloc. by rewrite length_app, (assoc_L (++)). Qed.

Lemma lookup_new (h l : heap) (d : DataFrame) :
  (h ++ (l ++ [d])) !! (length h + length l)%nat = Some d.
Proof.
  rewrite lookup_app_r by lia.
  replace (length h + length l - length h)%nat with (length l) by lia.
  by rewrite list_lookup_middle.
Qed.

Lemma run_assign_new (d d' : DataFrame) (h l : heap) :
  assign (length h + length l) d' (h ++ (l ++ [d])) = (Ok (), h ++ (l ++ [d'])).
Proof.
  unfold assign. rewrite decide_True by (rewrite !length_app; simpl; lia).
  f_equal. rewrite insert_app_r.
  replace (length l) with (length l + 0)%nat at 1 by lia.
  by rewrite insert_app_r.
Qed.

Lemma lookup_old (h l m : heap) (r : ref) (d : DataFrame) :
  (h ++ l) !! r = Some d → (h ++ l ++ m) !! r = Some d.
Proof.
  intros E. rewrite (assoc_L (++)). rewrite lookup_app_l; [done|].
  by eapply lookup_lt_Some.
Qed.

Lemma lookup_fresh (h l m : heap) (k n : nat) (d : DataFrame) :
  m !! k = Some d → n = (length h + (length l + k))%nat →
  (h ++ l ++ m) !! n = Some d.
Proof.
  intros E ->. rewrite lookup_app_r by lia. rewrite lookup_app_r by lia.
  by replace (length h + (length l + k) - length h - length l)%nat with k by lia.
Qed.

(** Reading a reference: one the caller passed, or one allocated since. *)
Ltac fresh_at k :=
  first [ eapply (lookup_fresh _ _ _ k); [reflexivity | cbn [length]; lia]
        | eapply (lookup_fresh _ [] _ k); [reflexivity | cbn [length]; lia] ].
Ltac heap_lookup :=
  rewrite <- ?(assoc_L (++)); rewrite ?length_app; cbn [app length];
  first [ eassumption | by apply lookup_old | by apply (lookup_old _ [])
        | fresh_at 0%nat | fresh_at 1%nat | fresh_at 2%nat | fresh_at 3%nat
        | fresh_at 4%nat | fresh_at 5%nat | fresh_at 6%nat | fresh_at 7%nat ].

Lemma run_df_copy (df : ref) (d : DataFrame) (h l : heap) :
  (h ++ l) !! df = Some d →
  df_copy df (h ++ l) = (Ok (length h + length l)%nat, h ++ (l ++ [d])).
Proof.
  intros E. unfold df_copy. erewrite bind_ok by by apply run_deref.
  apply run_alloc.
Qed.

Lemma run_df_getitem (df : ref) (c : string) (d : DataFrame) (s : Series) (h : heap) :
  h !! df = Some d → getitem d c = Ok s → df_getitem df c h = (Ok s, h).
Proof.
  intros E Es. unfold df_getitem. erewrite bind_ok by by apply run_deref.
  by apply run_lift.
Qed.

Lemma run_df_getitem_list (df : ref) (cs : list string) (d d' : DataFrame) (h l : heap) :
  (h ++ l) !! df = Some d → getitem_list d cs = Ok d' →
  df_getitem_list df cs (h ++ l) = (Ok (length h + length l)%nat, h ++ (l ++ [d'])).
Proof.
  intros E Es. unfold df_getitem_list. erewrite bind_ok by by apply run_deref.
  erewrite bind_ok by by apply run_lift. apply run_alloc.
Qed.

Lemma run_df_getitem_mask (df : ref) (mask : list bool) (d : DataFrame) (h l : heap) :
  (h ++ l) !! df = Some d →
  df_getitem_mask df mask (h ++ l)
  = (Ok (length h + length l)%nat, h ++ (l ++ [getitem_mask d mask])).
Proof.
  intros E. unfold df_getitem_mask. erewrite bind_ok by by apply run_deref.
  apply run_alloc.
Qed.

Lemma run_df_setitem_scalar (c : string) (v : cell) (d : DataFrame) (h l : heap) :
  df_setitem_scalar (length h + length l) c v (h ++ (l ++ [d]))
  = (Ok (), h ++ (l ++ [setitem_scalar c v d])).
Proof.
  unfold df_setitem_scalar.
  erewrite bind_ok by (apply run_deref, lookup_new). apply run_assign_new.
Qed.

Lemma run_df_setitem_values (c : string) (vs : list cell) (d d' : DataFrame) (h l : heap) :
  setitem_values c vs d = Ok d' →
  df_setitem_values (length h + length l) c vs (h ++ (l ++ [d]))
  = (Ok (), h ++ (l ++ [d'])).
Proof.
  intros E. unfold df_setitem_values.
  erewrite bind_ok by (apply run_deref, lookup_new).
  erewrite bind_ok by by apply run_lift. apply run_assign_new.
Qed.

Lemma run_df_set_columns (names : list string) (d d' : DataFrame) (h l : heap) :
  set_columns names d = Ok d' →
  df_set_columns (length h + length l) names (h ++ (l ++ [d]))
  = (Ok (), h ++ (l ++ [d'])).
Proof.
  intros E. unfold df_set_columns.
  erewrite bind_ok by (apply run_deref, lookup_new).
  erewrite bind_ok by by apply run_lift. apply run_assign_new.
Qed.

Lemma run_df_apply (df : ref) (f : Series → result Series) (d d' : DataFrame) (h l : heap) :
  (h ++ l) !! df = Some d → apply_columns f d = Ok d' →
  df_apply df f (h ++ l) = (Ok (length h + length l)%nat, h ++ (l ++ [d'])).
Proof.
  intros E Es. unfold df_apply. erewrite bind_ok by by apply run_deref.
  erewrite bind_ok by by apply run_lift. apply run_alloc.
Qed.

Lemma run_traverse_deref (frames : list ref) (ds : list DataFrame) (h : heap) :
  Forall2 (λ r d, h !! r = Some d) frames ds →
  traverseM deref frames h = (Ok ds, h).
Proof.
  induction 1 as [|r d rs ds E _ IH]; [done|]. simpl.
  erewrite bind_ok by by apply run_deref.
  erewrite bind_ok by exact IH. done.
Qed.

Lemma run_pd_concat (frames : list ref) (ds : list DataFrame) (d : DataFrame) (h l : heap) :
  Forall2 (λ r d, (h ++ l) !! r = Some d) frames ds → concat ds = Ok d →
  pd_concat frames (h ++ l) = (Ok (length h + length l)%nat, h ++ (l ++ [d])).
Proof.
  intros E Ec. unfold pd_concat. erewrite bind_ok by by apply run_traverse_deref.
  erewrite bind_ok by by apply run_lift. apply run_alloc.
Qed.

(** ** Frames of metric records *)

Lemma traverse_ok {A B : Type} (f : A → result B) (g : A → B) (xs : list A) :
  Forall (λ x, f x = Ok (g x)) xs → traverse f xs = Ok (map g xs).
Proof.
  induction 1 as [|x xs E _ IH]; [done|]. simpl. by rewrite E, IH.
Qed.

Lemma to_floats_map {A : Type} (f : A → float64) (xs : list A) :
  to_floats (map (λ x, VFloat (f x)) xs) = Ok (map f xs).
Proof. induction xs as [|x xs IH]; [done|]. unfold to_floats in *. simpl. by rewrite IH. Qed.

Lemma zip_with_map {A B : Type} (op : B → B → B) (f g : A → B) (xs : list A) :
  zip_with op (map f xs) (map g xs) = map (λ x, op (f x) (g x)) xs.
Proof. induction xs as [|x xs IH]; [done|]. simpl. by rewrite IH. Qed.

Lemma series_binop_map {A : Type} (op : float64 → float64 → float64)
    (f g : A → float64) (xs : list A) :
  series_binop op (map (λ x, VFloat (f x)) xs) (map (λ x, VFloat (g x)) xs)
  = Ok (map (λ x, op (f x) (g x)) xs).
Proof. unfold series_binop. rewrite !to_floats_map. simpl. by rewrite zip_with_map. Qed.

Lemma getitem_metric (recs : list MetricRecord) (c : string) (fld : MetricRecord → float64) :
  (c, fld) ∈ metric_columns →
  getitem (table recs) c = Ok (map (λ r, VFloat (fld r)) recs).
Proof.
  intros Hin. unfold metric_columns in Hin.
  repeat (apply elem_of_cons in Hin as [[= -> ->]|Hin];
          [unfold getitem; simpl; by rewrite map_map|]).
  by apply elem_of_nil in Hin.
Qed.

Lemma getitem_note (recs : list MetricRecord) :
  getitem (table recs) "note" = Ok (map note recs).
Proof. unfold getitem. simpl. by rewrite map_map. Qed.

Lemma column_average_table (recs : list MetricRecord) (c : string)
    (fld : MetricRecord → float64) :
  (c, fld) ∈ metric_columns →
  column_average (table recs) c = Ok (average_of recs c fld).
Proof.
  intros Hin. unfold column_average, average_of.
  rewrite (getitem_metric recs c fld Hin).
  assert (Hs0 := getitem_metric recs "sup0" sup0).
  assert (Hs1 := getitem_metric recs "sup1" sup1).
  unfold metric_columns in Hin.
  repeat (apply elem_of_cons in Hin as [[= -> ->]|Hin];
    [cbn -[getitem to_floats series_binop series_sum fdiv of_nat table];
     unfold SUP0, SUP1;
     rewrite ?Hs0, ?Hs1 by (unfold metric_columns; repeat constructor);
     cbn -[getitem to_floats series_binop series_sum fdiv of_nat table];
     rewrite ?series_binop_map, ?to_floats_map;
     cbn -[series_sum fdiv of_nat]; rewrite ?length_map; reflexivity|]).
  by apply elem_of_nil in Hin.
Qed.

Lemma concat_stack (cs : list string) (rs : list (list cell)) (ds : list DataFrame) :
  Forall (λ d, columns d = cs) ds →
  concat (mkDF cs rs :: ds) = Ok (mkDF cs (rs ++ flat_map rows ds)).
Proof.
  intros Hds. unfold concat. simpl.
  assert (forallb (same_columns cs) ds = true) as ->; [|done].
  apply forallb_forall. intros d Hd. apply bool_decide_eq_true.
  by apply (proj1 (List.Forall_forall _ _) Hds).
Qed.

Lemma to_row_average_row (recs : list MetricRecord) (r : MetricRecord) :
  [VStr (model_name r); VStr "wt_avg"]
    ++ map VFloat (map (λ cf, average_of (r :: recs) cf.1 cf.2) metric_columns)
  = to_row (average_row (r :: recs)).
Proof. reflexivity. Qed.

Lemma table_snoc (recs : list MetricRecord) (r : MetricRecord) :
  mkDF LABELS (map to_row recs ++ [to_row r]) = table (recs ++ [r]).
Proof. unfold table. by rewrite map_app. Qed.

Lemma traverse_map {A B C : Type} (f : B → result C) (k : A → B) (xs : list A) :
  traverse f (map k xs) = traverse (λ x, f (k x)) xs.
Proof. induction xs as [|x xs IH]; [done|]. simpl. by rewrite IH. Qed.

Lemma averages_table (recs : list MetricRecord) :
  traverse (column_average (table recs)) (drop 2 (columns (table recs)))
  = Ok (map (λ cf, average_of recs cf.1 cf.2) metric_columns).
Proof.
  change (drop 2 (columns (table recs))) with (map fst metric_columns).
  rewrite traverse_map. apply traverse_ok, Forall_forall.
  intros [c fld] Hin. by apply column_average_table.
Qed.

Lemma concat_tables (t : list MetricRecord) (ts : list (list MetricRecord)) :
  concat (map table (t :: ts)) = Ok (table (t ++ mjoin ts)).
Proof.
  change (map table (t :: ts)) with (mkDF LABELS (map to_row t) :: map table ts).
  rewrite concat_stack.
  - unfold table. do 2 f_equal. rewrite map_app. f_equal.
    induction ts as [|t' ts IH]; [done|]. simpl. by rewrite map_app, IH.
  - apply Forall_forall. intros d [t' [-> _]]%list_elem_of_fmap. done.
Qed.

(** What [append_weighted_average] does on a table with a first row: three
    objects are allocated, the copy, the new row and the result. *)
Lemma append_weighted_average_run (recs : list MetricRecord) (df : ref) (h l : heap) :
  (h ++ l) !! df = Some (table recs) → recs ≠ [] →
  append_weighted_average df (h ++ l)
  = (Ok (length h + length (l ++ [table recs; table [average_row recs]]))%nat,
     h ++ ((l ++ [table recs; table [average_row recs]])
             ++ [table (recs ++ [average_row recs])])).
Proof.
  intros E Hne. destruct recs as [|r recs]; [done|]. clear Hne.
  unfold append_weighted_average.
  erewrite bind_ok by by apply run_df_copy.
  erewrite bind_ok by apply run_deref, lookup_new.
  erewrite bind_ok by (apply run_lift; reflexivity).
  change (row_cell 0 (to_row r)) with (VStr (model_name r)).
  erewrite bind_ok by apply run_lift, averages_table.
  rewrite to_row_average_row.
  erewrite bind_ok by apply run_alloc.
  erewrite bind_ok by by apply run_df_set_columns.
  replace (l ++ [table (r :: recs); table [average_row (r :: recs)]])
    with ((l ++ [table (r :: recs)]) ++ [table [average_row (r :: recs)]])
    by by rewrite <- (assoc_L (++)).
  eapply run_pd_concat.
  - repeat constructor; heap_lookup.
  - exact (concat_tables (r :: recs) [[average_row (r :: recs)]]).
Qed.

Lemma append_weighted_average_returns (recs : list MetricRecord) (df : ref) (h : heap) :
  h !! df = Some (table recs) → recs ≠ [] →
  returns (append_weighted_average df) h (table (recs ++ [average_row recs])).
Proof.
  intros E Hne. rewrite <- (app_nil_r h) in E |- *.
  eexists _, _. split; [by apply append_weighted_average_run|].
  apply lookup_new.
Qed.

(** ** float64 arithmetic *)

Lemma dropna_id (xs : list float64) :
  Forall (λ x, is_nan x = false) xs → dropna xs = xs.
Proof.
  induction 1 as [|x xs E _ IH]; [done|]. unfold dropna in *. simpl.
  by rewrite E, IH.
Qed.

Lemma finite_not_nan (x : float64) : is_finite x = true → is_nan x = false.
Proof. by destruct x. Qed.

Lemma fmul_finite (x y : float64) :
  is_finite x = true → is_finite y = true → is_finite (x * y) = true.
Proof. by destruct x, y. Qed.

Lemma finite_field (r : MetricRecord) (c : string) (fld : MetricRecord → float64) :
  finite_record r → (c, fld) ∈ metric_columns → is_finite (fld r) = true.
Proof.
  intros Hr Hin. unfold finite_record in Hr.
  by apply (proj1 (Forall_forall _ _) Hr (c, fld)).
Qed.

Lemma series_sum_finite {A : Type} (f : A → float64) (xs : list A) :
  Forall (λ x, is_finite (f x) = true) xs → series_sum (map f xs) = fsum (map f xs).
Proof.
  intros Hf. unfold series_sum. rewrite dropna_id; [done|].
  apply Forall_map. eapply Forall_impl; [exact Hf|]. intros x. apply finite_not_nan.
Qed.

Lemma average_of_finite (recs : list MetricRecord) (c : string)
    (fld : MetricRecord → float64) :
  Forall finite_record recs → (c, fld) ∈ metric_columns →
  average_of recs c fld = stated_average recs c fld.
Proof.
  intros Hfin Hin. unfold average_of, stated_average, weighted_mean, arithmetic_mean.
  assert (∀ c' f', (c', f') ∈ metric_columns →
            Forall (λ r, is_finite (f' r) = true) recs) as Hcol.
  { intros c' f' Hin'. eapply Forall_impl; [exact Hfin|].
    intros r Hr. by eapply finite_field. }
  assert (∀ c' f', (c', f') ∈ metric_columns →
            Forall (λ r, is_finite (fld r * f' r) = true) recs) as Hprod.
  { intros c' f' Hin'. eapply Forall_impl; [exact Hfin|].
    intros r Hr. apply fmul_finite; by eapply finite_field. }
  rewrite !zip_with_map, length_map.
  rewrite (series_sum_finite fld) by by eapply Hcol.
  rewrite (series_sum_finite sup0), (series_sum_finite sup1)
    by (eapply Hcol; unfold metric_columns; repeat constructor).
  rewrite (series_sum_finite (λ r, fld r * sup0 r)%f64),
    (series_sum_finite (λ r, fld r * sup1 r)%f64)
    by (eapply Hprod; unfold metric_columns; repeat constructor).
  done.
Qed.

Lemma average_row_field (recs : list MetricRecord) (c : string)
    (fld : MetricRecord → float64) :
  (c, fld) ∈ metric_columns → fld (average_row recs) = average_of recs c fld.
Proof.
  intros Hin. unfold metric_columns in Hin.
  repeat (apply elem_of_cons in Hin as [[= -> ->]|Hin]; [reflexivity|]).
  by apply elem_of_nil in Hin.
Qed.

Lemma feqb_eq (x y : float64) : feqb x y = true → x = y.
Proof.
  destruct x as [a| | |], y as [b| | |]; simpl; try done.
  intros E. f_equal. by apply Qc_is_canon, Qeq_bool_eq.
Qed.

Lemma returns_not_raises (m : M ref) (h : heap) (d : DataFrame) (e : exn) :
  returns m h d → ¬ raises m h e.
Proof. intros (r & h' & E & _) (h'' & E'). by rewrite E in E'. Qed.

Lemma fmul_zero (x : float64) : (x * fzero)%f64 = fzero ∨ (x * fzero)%f64 = NaN.
Proof.
  destruct x as [a| | |]; simpl; auto.
  left. unfold fzero. f_equal. apply Qcmult_0_r.
Qed.

Lemma series_sum_zeros (xs : list float64) :
  Forall (λ x, x = fzero ∨ x = NaN) xs → series_sum xs = fzero.
Proof.
  unfold series_sum, fsum, dropna.
  induction 1 as [|x xs [-> | ->] _ IH]; [done|..]; simpl; [|done].
  by replace (Fin (0 + 0)%Qc) with fzero by (unfold fzero; f_equal; ring).
Qed.

(** ** Claims on [append_weighted_average] *)

(** Folds A and B: [prec0 = (1.0 * 10 + 0.8 * 5) / 15] and
    [prec1 = (0.5 * 2 + 0.9 * 8) / 10]. *)
Example two_folds_average :
  ∃ row,
    returns (append_weighted_average 0) [table two_folds] (table (two_folds ++ [row]))
    ∧ prec0 row = dec 14 15 ∧ prec1 row = dec 41 50.
Proof.
  exists (average_row two_folds). split_and!.
  - by apply append_weighted_average_returns.
  - apply feqb_eq. by vm_compute.
  - apply feqb_eq. by vm_compute.
Qed.

(** C1, as amended. On every table with a first row [append_weighted_average]
    returns the rows of the table followed by one row whose note is
    ["wt_avg"] and whose model name is that of the first row. In a column
    ending in [0] its value is [sum(value_i * sup0_i) / sum(sup0_i)], in a
    column ending in [1] the same with [sup1], in every other metric column
    [sum(value_i) / N], where every sum skips its not-a-number terms
    ([average_of]). On a table whose metric cells are all finite these are
    the sums and the mean the specification states ([stated_average]). *)
Theorem append_weighted_average_row (recs : list MetricRecord) (h : heap) (df : ref) :
  h !! df = Some (table recs) → recs ≠ [] →
  ∃ row,
    returns (append_weighted_average df) h (table (recs ++ [row]))
    ∧ note row = VStr "wt_avg"
    ∧ head (map model_name recs) = Some (model_name row)
    ∧ (∀ c fld, (c, fld) ∈ metric_columns → fld row = average_of recs c fld)
    ∧ (Forall finite_record recs →
       ∀ c fld, (c, fld) ∈ metric_columns → fld row = stated_average recs c fld).
Proof.
  intros E Hne. exists (average_row recs). split_and!.
  - by apply append_weighted_average_returns.
  - done.
  - by destruct recs.
  - intros c fld Hin. by apply average_row_field.
  - intros Hfin c fld Hin.
    rewrite (average_row_field recs c fld Hin). by apply average_of_finite.
Qed.

Lemma append_weighted_average_row_witness :
  [table two_folds] !! 0%nat = Some (table two_folds) ∧ two_folds ≠ [] ∧
  ∃ row,
    returns (append_weighted_average 0) [table two_folds] (table (two_folds ++ [row]))
    ∧ note row = VStr "wt_avg"
    ∧ head (map model_name two_folds) = Some (model_name row)
    ∧ (∀ c fld, (c, fld) ∈ metric_columns → fld row = average_of two_folds c fld)
    ∧ (Forall finite_record two_folds →
       ∀ c fld, (c, fld) ∈ metric_columns → fld row = stated_average two_folds c fld).
Proof.
  split; [reflexivity|]. split; [discriminate|].
  apply (append_weighted_average_row two_folds [table two_folds] 0);
    [reflexivity | discriminate].
Defined.

(** C1 as stated fails on a fold with an undefined precision: the code
    skips the not-a-number product and returns 1/5, the stated sum is
    not-a-number. *)
Lemma stated_average_fails_on_nan :
  ∃ row,
    returns (append_weighted_average 0) [table nan_folds] (table (nan_folds ++ [row]))
    ∧ prec1 row = dec 1 5
    ∧ stated_average nan_folds "prec1" prec1 = NaN
    ∧ prec1 row ≠ stated_average nan_folds "prec1" prec1.
Proof.
  assert (prec1 (average_row nan_folds) = dec 1 5) as Hcode
    by (apply feqb_eq; by vm_compute).
  assert (stated_average nan_folds "prec1" prec1 = NaN) as Hspec by reflexivity.
  exists (average_row nan_folds). split_and!.
  - by apply append_weighted_average_returns.
  - exact Hcode.
  - exact Hspec.
  - by rewrite Hcode, Hspec.
Qed.

Lemma average_of_zero_support (recs : list MetricRecord) (c : string)
    (fld : MetricRecord → float64) :
  str_last c = Ok "1"%char → Forall (λ r, sup1 r = fzero) recs →
  average_of recs c fld = NaN.
Proof.
  intros Hc Hz. unfold average_of. rewrite Hc.
  rewrite !series_sum_zeros; [done|..]; apply Forall_map;
    (eapply Forall_impl; [exact Hz|]); intros r Hr; simpl; rewrite Hr.
  - by left.
  - apply fmul_zero.
Qed.

(** C4. On a table with a first row in which every [sup1] is 0,
    [append_weighted_average] returns, and the [prec1], [rec1] and [f1sc1]
    of the appended row are not-a-number. *)
Theorem zero_support_gives_nan (recs : list MetricRecord) (h : heap) (df : ref) :
  h !! df = Some (table recs) → recs ≠ [] →
  Forall (λ r, sup1 r = fzero) recs →
  ∃ row,
    returns (append_weighted_average df) h (table (recs ++ [row]))
    ∧ prec1 row = NaN ∧ rec1 row = NaN ∧ f1sc1 row = NaN.
Proof.
  intros E Hne Hz. exists (average_row recs). split_and!.
  - by apply append_weighted_average_returns.
  - by apply (average_of_zero_support recs "prec1" prec1).
  - by apply (average_of_zero_support recs "rec1" rec1).
  - by apply (average_of_zero_support recs "f1sc1" f1sc1).
Qed.

Lemma zero_support_gives_nan_witness :
  [table no_class_1] !! 0%nat = Some (table no_class_1) ∧ no_class_1 ≠ [] ∧
  Forall (λ r, sup1 r = fzero) no_class_1 ∧
  ∃ row,
    returns (append_weighted_average 0) [table no_class_1] (table (no_class_1 ++ [row]))
    ∧ prec1 row = NaN ∧ rec1 row = NaN ∧ f1sc1 row = NaN.
Proof.
  split; [reflexivity|]. split; [discriminate|].
  split; [repeat constructor|].
  apply (zero_support_gives_nan no_class_1 [table no_class_1] 0);
    [reflexivity | discriminate | repeat constructor].
Defined.

(** C8, as amended. [append_weighted_average] does not look at the model
    names: on a table holding rows of two models it raises nothing and
    returns the table with one more row, named after the first row and
    averaged over all the rows. *)
Theorem mixed_models_are_averaged (recs : list MetricRecord) (h : heap) (df : ref)
    (r1 r2 : MetricRecord) :
  h !! df = Some (table recs) → r1 ∈ recs → r2 ∈ recs →
  model_name r1 ≠ model_name r2 →
  (∀ e, ¬ raises (append_weighted_average df) h e)
  ∧ ∃ row,
      returns (append_weighted_average df) h (table (recs ++ [row]))
      ∧ head (map model_name recs) = Some (model_name row)
      ∧ ∀ c fld, (c, fld) ∈ metric_columns → fld row = average_of recs c fld.
Proof.
  intros E H1 _ _.
  assert (recs ≠ []) as Hne by (intros ->; by apply elem_of_nil in H1).
  pose proof (append_weighted_average_returns recs df h E Hne) as Hret.
  split.
  - intros e. by eapply returns_not_raises.
  - exists (average_row recs). split_and!; [done | by destruct recs |].
    intros c fld Hin. by apply average_row_field.
Qed.

Lemma mixed_models_are_averaged_witness :
  [table two_models] !! 0%nat = Some (table two_models) ∧
  fold_A ∈ two_models ∧ fold_D ∈ two_models ∧
  model_name fold_A ≠ model_name fold_D ∧
  (∀ e, ¬ raises (append_weighted_average 0) [table two_models] e)
  ∧ ∃ row,
      returns (append_weighted_average 0) [table two_models] (table (two_models ++ [row]))
      ∧ head (map model_name two_models) = Some (model_name row)
      ∧ ∀ c fld, (c, fld) ∈ metric_columns → fld row = average_of two_models c fld.
Proof.
  split; [reflexivity|]. split; [repeat constructor|]. split; [repeat constructor|].
  split; [discriminate|].
  apply (mixed_models_are_averaged two_models [table two_models] 0 fold_A fold_D);
    [reflexivity | repeat constructor | repeat constructor | discriminate].
Defined.

(** C8 as stated fails: on a table of a ["Net"] row and a ["Forest"] row
    nothing is raised, the appended row is named ["Net"] and its accuracy
    blends both models. *)
Lemma mixed_models_raise_nothing :
  (∀ e, ¬ raises (append_weighted_average 0) [table two_models] e)
  ∧ ∃ row,
      returns (append_weighted_average 0) [table two_models] (table (two_models ++ [row]))
      ∧ model_name row = "Net" ∧ acc row = dec 17 20.
Proof.
  assert (returns (append_weighted_average 0) [table two_models]
            (table (two_models ++ [average_row two_models]))) as Hret
    by by apply append_weighted_average_returns.
  split.
  - intros e. by eapply returns_not_raises.
  - exists (average_row two_models). split_and!; [done | done |].
    apply feqb_eq. by vm_compute.
Qed.

(** ** Frame rules *)

Section frame_rules.
Context (n : nat).

Lemma frames_weaken {A : Type} (V W : A → Prop) (m : M A) :
  frames n V m → (∀ a, V a → W a) → frames n W m.
Proof.
  intros Hm HVW h Hn. destruct (Hm h Hn) as (? & ? & HV). split_and!; auto.
Qed.

Lemma frames_ret {A : Type} (V : A → Prop) (a : A) :
  V a → frames n V (mret a).
Proof. intros Ha h Hn. simpl. split_and!; [done..|]. by intros ? [= <-]. Qed.

Lemma frames_bind {A B : Type} (V : A → Prop) (W : B → Prop) (m : M A) (f : A → M B) :
  frames n V m → (∀ a, V a → frames n W (f a)) → frames n W (m ≫= f).
Proof.
  intros Hm Hf h Hn. destruct (Hm h Hn) as (Hlen & Htake & HV).
  unfold mbind, M_bind. destruct (m h) as [[a|e] h1]; simpl in *.
  - destruct (Hf a (HV a eq_refl) h1) as (Hlen' & Htake' & HW); [lia|].
    split_and!; [lia | congruence | done].
  - split_and!; [done..|]. by intros ? [=].
Qed.

Lemma frames_lift {A : Type} (r : result A) : frames n any (lift r).
Proof. intros h Hn. by split_and!. Qed.

Lemma frames_deref (r : ref) : frames n any (deref r).
Proof. intros h Hn. by split_and!. Qed.

Lemma frames_alloc (d : DataFrame) : frames n (fresh n) (alloc d).
Proof.
  intros h Hn. simpl. split_and!.
  - rewrite length_app. lia.
  - by rewrite take_app_le.
  - intros ? [= <-]. exact Hn.
Qed.

Lemma frames_assign (r : ref) (d : DataFrame) : fresh n r → frames n any (assign r d).
Proof.
  intros Hr h Hn. simpl. split_and!.
  - by rewrite length_insert.
  - by apply take_insert_ge.
  - done.
Qed.

Lemma frames_traverse_deref (rs : list ref) : frames n any (traverseM deref rs).
Proof.
  induction rs as [|r rs IH]; simpl.
  - by apply frames_ret.
  - eapply frames_bind; [apply frames_deref|]. intros d _.
    eapply frames_bind; [exact IH|]. intros ds _. by apply frames_ret.
Qed.
End frame_rules.

Create HintDb frame.
#[local] Hint Resolve frames_ret frames_lift frames_deref frames_alloc frames_assign
  frames_traverse_deref : frame.
#[local] Hint Extern 0 (any _) => exact I : frame.

(** A computation is cut at its binds; every part is closed by a rule. *)
Ltac frame :=
  repeat first
    [ solve [eauto with frame]
    | eapply frames_bind; [solve [eauto with frame] | intros ? ?] ].

Section frame_operations.
Context (n : nat).

Lemma frames_df_copy (df : ref) : frames n (fresh n) (df_copy df).
Proof. unfold df_copy. frame. Qed.

Lemma frames_df_reset_index (df : ref) : frames n (fresh n) (df_reset_index df).
Proof. unfold df_reset_index. frame. Qed.

Lemma frames_df_getitem (df : ref) (c : string) : frames n any (df_getitem df c).
Proof. unfold df_getitem. frame. Qed.

Lemma frames_df_getitem_list (df : ref) (cs : list string) :
  frames n (fresh n) (df_getitem_list df cs).
Proof. unfold df_getitem_list. frame. Qed.

Lemma frames_df_getitem_mask (df : ref) (mask : list bool) :
  frames n (fresh n) (df_getitem_mask df mask).
Proof. unfold df_getitem_mask. frame. Qed.

Lemma frames_df_setitem_scalar (df : ref) (c : string) (v : cell) :
  fresh n df → frames n any (df_setitem_scalar df c v).
Proof. intros Hdf. unfold df_setitem_scalar. frame. Qed.

Lemma frames_df_setitem_values (df : ref) (c : string) (vs : list cell) :
  fresh n df → frames n any (df_setitem_values df c vs).
Proof. intros Hdf. unfold df_setitem_values. frame. Qed.

Lemma frames_df_set_columns (df : ref) (names : list string) :
  fresh n df → frames n any (df_set_columns df names).
Proof. intros Hdf. unfold df_set_columns. frame. Qed.

Lemma frames_df_apply (df : ref) (f : Series → result Series) :
  frames n (fresh n) (df_apply df f).
Proof. unfold df_apply. frame. Qed.

Lemma frames_pd_concat (dfs : list ref) : frames n (fresh n) (pd_concat dfs).
Proof. unfold pd_concat. frame. Qed.
End frame_operations.

#[local] Hint Resolve frames_df_copy frames_df_reset_index frames_df_getitem
  frames_df_getitem_list frames_df_getitem_mask frames_df_setitem_scalar
  frames_df_setitem_values frames_df_set_columns frames_df_apply
  frames_pd_concat : frame.

Section frame_functions.
Context (n : nat).

Lemma frames_append_weighted_average (df : ref) :
  frames n (fresh n) (append_weighted_average df).
Proof. unfold append_weighted_average. frame. Qed.

Lemma frames_extract_wt_avg (i : nat) (dfs : list ref) :
  frames n any (extract_wt_avg i dfs).
Proof.
  revert i. induction dfs as [|df dfs IH]; intros i; simpl; [frame|].
  eapply frames_bind; [solve [eauto with frame] | intros ? ?].
  eapply frames_bind; [solve [eauto with frame] | intros ? ?].
  eapply frames_bind; [solve [eauto with frame] | intros ? ?].
  eapply frames_bind; [apply IH | intros ? ?]. frame.
Qed.

Lemma frames_combine_several_weighted_averages (dfs : list ref) :
  frames n (fresh n) (combine_several_weighted_averages dfs).
Proof.
  unfold combine_several_weighted_averages.
  eapply frames_bind; [apply frames_extract_wt_avg | intros ? ?]. frame.
Qed.

Lemma frames_create_metrics_table (dfs : list ref) :
  frames n (fresh n) (create_metrics_table dfs).
Proof. unfold create_metrics_table. frame. Qed.

Lemma frames_class_view (df : ref) (other : ascii) (label : Z) :
  frames n (fresh n) (class_view df other label).
Proof. unfold class_view. frame. Qed.

Lemma frames_class_ratio (df : ref) : frames n any (class_ratio df).
Proof. unfold class_ratio. frame. Qed.

Lemma frames_metric_class_averages (df : ref) :
  frames n (fresh n) (metric_class_averages df).
Proof.
  unfold metric_class_averages.
  pose proof frames_class_view. pose proof frames_class_ratio. frame.
Qed.
End frame_functions.

(** ** The returned reference is bound *)

Lemma bound_bind {A : Type} (m : M A) (f : A → M ref) :
  (∀ a, returns_bound (f a)) → returns_bound (m ≫= f).
Proof.
  intros Hf h r. unfold mbind, M_bind.
  destruct (m h) as [[a|e] h1]; simpl; [apply Hf | done].
Qed.

Lemma bound_alloc (d : DataFrame) : returns_bound (alloc d).
Proof. intros h r [= <-]. simpl. rewrite length_app. simpl. lia. Qed.

Lemma bound_pd_concat (dfs : list ref) : returns_bound (pd_concat dfs).
Proof. unfold pd_concat. repeat (apply bound_bind; intros ?). apply bound_alloc. Qed.

Lemma bound_df_reset_index (df : ref) : returns_bound (df_reset_index df).
Proof. unfold df_reset_index. apply bound_bind. intros ?. apply bound_alloc. Qed.

Ltac bound :=
  repeat (apply bound_bind; intros ?);
  first [apply bound_pd_concat | apply bound_df_reset_index | apply bound_alloc].

Lemma frames_builds_new_table (m : M ref) :
  (∀ n, frames n (fresh n) m) → returns_bound m → builds_new_table m.
Proof.
  intros Hm Hb h. destruct (Hm (length h) h) as (Hlen & Htake & Hfresh); [done|].
  split.
  - intros r d E. pose proof (lookup_lt_Some _ _ _ E) as Hr.
    rewrite <- (lookup_take_lt _ (length h)) by done.
    rewrite Htake. by rewrite lookup_take_lt.
  - intros r E. split; [by apply Hfresh|].
    apply lookup_lt_is_Some. by apply Hb.
Qed.

(** ** The claim on the inputs of the four operations *)

(** C9. Each of the four operations leaves every object of the heap it is
    started on unchanged, whatever it is given and whether it returns or
    raises; what it returns is a reference that was not bound before the
    call and is bound to an object after it. *)
Theorem operations_build_new_tables :
  (∀ df, builds_new_table (append_weighted_average df))
  ∧ (∀ dfs, builds_new_table (combine_several_weighted_averages dfs))
  ∧ (∀ dfs, builds_new_table (create_metrics_table dfs))
  ∧ (∀ df, builds_new_table (metric_class_averages df)).
Proof.
  split_and!; intros x; apply frames_builds_new_table.
  - intros n. apply frames_append_weighted_average.
  - unfold append_weighted_average. bound.
  - intros n. apply frames_combine_several_weighted_averages.
  - unfold combine_several_weighted_averages. bound.
  - intros n. apply frames_create_metrics_table.
  - unfold create_metrics_table. bound.
  - intros n. apply frames_metric_class_averages.
  - unfold metric_class_averages. bound.
Qed.

(** ** Running [combine_several_weighted_averages] *)

Lemma mask_filter {A B : Type} (f : A → bool) (g : A → B) (xs : list A) :
  map snd (List.filter fst (zip (map f xs) (map g xs))) = map g (List.filter f xs).
Proof.
  induction xs as [|x xs IH]; [done|]. simpl. destruct (f x); simpl; by rewrite IH.
Qed.

Lemma getitem_mask_table (t : list MetricRecord) :
  getitem_mask (table t) (wt_avg_mask (map note t)) = table (List.filter is_wt_avg t).
Proof.
  unfold getitem_mask, wt_avg_mask, table. simpl. f_equal.
  rewrite map_map. apply (mask_filter is_wt_avg to_row).
Qed.

Lemma setitem_note_table (i : nat) (t : list MetricRecord) :
  setitem_scalar "note" (VStr (str_of_nat (i + 1) ++ "_wt_avg")%string) (table t)
  = table (map (relabel i) t).
Proof.
  unfold setitem_scalar, table. simpl. f_equal. rewrite !map_map.
  by apply map_ext.
Qed.

Lemma length_extracted (i : nat) (tables : list (list MetricRecord)) :
  length (extracted i tables) = length tables.
Proof. revert i. induction tables as [|t ts IH]; intros i; simpl; [done|]. by rewrite IH. Qed.

Lemma extract_wt_avg_run (tables : list (list MetricRecord)) (dfs : list ref)
    (i : nat) (h l : heap) :
  Forall2 (λ r t, (h ++ l) !! r = Some (table t)) dfs tables →
  extract_wt_avg i dfs (h ++ l)
  = (Ok (seq (length h + length l) (length tables)), h ++ (l ++ extracted i tables)).
Proof.
  revert dfs i l.
  induction tables as [|t ts IH]; intros dfs i l Hdfs.
  - apply Forall2_nil_inv_r in Hdfs as ->. simpl. by rewrite app_nil_r.
  - apply Forall2_cons_inv_r in Hdfs as (df & dfs' & E & Hrest & ->). simpl.
    erewrite bind_ok by (eapply run_df_getitem; [exact E | apply getitem_note]).
    erewrite bind_ok by by apply run_df_getitem_mask.
    erewrite bind_ok by apply run_df_setitem_scalar.
    rewrite getitem_mask_table, setitem_note_table.
    erewrite bind_ok.
    2:{ apply IH. eapply Forall2_impl; [exact Hrest|]. intros r t' Er.
        by apply lookup_old. }
    simpl. rewrite length_app. simpl. rewrite <- (assoc_L (++) l). simpl.
    by replace (length h + (length l + 1))%nat with (S (length h + length l)) by lia.
Qed.

Lemma lookup_extracted (tables : list (list MetricRecord)) (i : nat) (h l : heap) :
  Forall2 (λ r d, (h ++ (l ++ extracted i tables)) !! r = Some d)
    (seq (length h + length l) (length tables)) (extracted i tables).
Proof.
  revert i l. induction tables as [|t ts IH]; intros i l; simpl; [constructor|].
  constructor.
  - rewrite (assoc_L (++)). apply list_lookup_middle. by rewrite length_app.
  - specialize (IH (S i) (l ++ [table (map (relabel i) (List.filter is_wt_avg t))])).
    rewrite <- (assoc_L (++) l) in IH. simpl in IH.
    rewrite length_app in IH. simpl in IH.
    by replace (length h + (length l + 1))%nat with (S (length h + length l)) in IH by lia.
Qed.

Lemma concat_extracted (i : nat) (tables : list (list MetricRecord)) :
  tables ≠ [] → concat (extracted i tables) = Ok (table (stacked i tables)).
Proof.
  intros Hne. destruct tables as [|t ts]; [done|]. clear Hne.
  assert (∀ j us, extracted j us
            = map table (map (λ '(k, u), map (relabel k) (List.filter is_wt_avg u))
                             (zip (seq j (length us)) us))) as Hex.
  { intros j us. revert j. induction us as [|u us IH]; intros j; simpl; [done|].
    by rewrite IH. }
  assert (∀ j us, stacked j us
            = mjoin (map (λ '(k, u), map (relabel k) (List.filter is_wt_avg u))
                         (zip (seq j (length us)) us))) as Hst.
  { intros j us. revert j. induction us as [|u us IH]; intros j; simpl; [done|].
    by rewrite IH. }
  rewrite Hex, Hst. simpl. apply concat_tables.
Qed.

Lemma set_column_mean_table (st : list MetricRecord) (s : RowSeries) (c : string)
    (fld : MetricRecord → float64) :
  (c, fld) ∈ metric_columns →
  set_column_mean (table st) s c
  = Ok (rowseries_set c (VFloat (series_mean (map fld st))) s).
Proof.
  intros Hin. unfold set_column_mean.
  rewrite (getitem_metric st c fld Hin). simpl. by rewrite to_floats_map.
Qed.

Lemma means_table (st : list MetricRecord) (r : MetricRecord) :
  last st = Some r →
  fold_result (set_column_mean (table st)) MEAN_COLUMNS
    (rowseries_set "note" (VStr "wt_avg") (zip LABELS (to_row r)))
  = Ok (zip LABELS (to_row (mean_row st))).
Proof.
  intros Hlast. unfold mean_row. rewrite Hlast.
  unfold MEAN_COLUMNS. cbn [fold_result].
  repeat match goal with
  | |- context [set_column_mean (table st) ?s ?c] =>
      first
        [ rewrite (set_column_mean_table st s c loss) by (unfold metric_columns; repeat constructor)
        | rewrite (set_column_mean_table st s c acc) by (unfold metric_columns; repeat constructor)
        | rewrite (set_column_mean_table st s c prec0) by (unfold metric_columns; repeat constructor)
        | rewrite (set_column_mean_table st s c prec1) by (unfold metric_columns; repeat constructor)
        | rewrite (set_column_mean_table st s c rec0) by (unfold metric_columns; repeat constructor)
        | rewrite (set_column_mean_table st s c rec1) by (unfold metric_columns; repeat constructor)
        | rewrite (set_column_mean_table st s c f1sc0) by (unfold metric_columns; repeat constructor)
        | rewrite (set_column_mean_table st s c f1sc1) by (unfold metric_columns; repeat constructor)
        | rewrite (set_column_mean_table st s c sup0) by (unfold metric_columns; repeat constructor)
        | rewrite (set_column_mean_table st s c sup1) by (unfold metric_columns; repeat constructor)
        | rewrite (set_column_mean_table st s c mcc) by (unfold metric_columns; repeat constructor) ];
      change (Ok ?a ≫= ?f) with (f a); cbv beta
  end.
  reflexivity.
Qed.

Lemma iloc_last_table (st : list MetricRecord) (r : MetricRecord) :
  last st = Some r → iloc_last (table st) = Ok (zip LABELS (to_row r)).
Proof.
  intros Hlast. unfold iloc_last, table. simpl.
  change (map to_row st) with (to_row <$> st). by rewrite fmap_last, Hlast.
Qed.

(** What [combine_several_weighted_averages] returns on tables of which at
    least one holds a ["wt_avg"] row. *)
Lemma combine_several_weighted_averages_returns (tables : list (list MetricRecord))
    (dfs : list ref) (h : heap) :
  Forall2 (λ r t, h !! r = Some (table t)) dfs tables →
  stacked 0 tables ≠ [] →
  returns (combine_several_weighted_averages dfs) h
    (table (stacked 0 tables ++ [mean_row (stacked 0 tables)])).
Proof.
  intros Hdfs Hne.
  assert (tables ≠ []) as Hts by (intros ->; done).
  destruct (last (stacked 0 tables)) as [r|] eqn:Hlast;
    [|by apply last_None in Hlast].
  rewrite <- (app_nil_r h) in Hdfs |- *.
  eexists _, _. split.
  - unfold combine_several_weighted_averages.
    erewrite bind_ok by by apply extract_wt_avg_run.
    erewrite bind_ok.
    2:{ eapply run_pd_concat; [apply lookup_extracted | by apply concat_extracted]. }
    erewrite bind_ok by apply run_deref, lookup_new.
    erewrite bind_ok by by apply run_lift, iloc_last_table.
    erewrite bind_ok by by apply run_lift, means_table.
    erewrite bind_ok by apply run_alloc.
    eapply run_pd_concat.
    + repeat constructor.
      * rewrite (assoc_L (++)), lookup_app_l; [apply lookup_new|].
        rewrite !length_app. simpl. lia.
      * rewrite length_app. simpl.
        rewrite (assoc_L (++) h), (assoc_L (++)).
        apply list_lookup_middle. rewrite !length_app. simpl. lia.
    + exact (concat_tables (stacked 0 tables) [[mean_row (stacked 0 tables)]]).
  - apply lookup_new.
Qed.

Lemma stacked_one (tables : list (list MetricRecord)) (ws : list MetricRecord) (i : nat) :
  Forall2 (λ t w, List.filter is_wt_avg t = [w]) tables ws →
  stacked i tables = imap (λ j, relabel (i + j)) ws.
Proof.
  intros Hone. revert i. induction Hone as [|t w ts ws' E _ IH]; intros i; [done|].
  simpl. rewrite E. simpl. rewrite Nat.add_0_r. f_equal.
  rewrite IH. apply imap_ext. intros j w' _. simpl. f_equal. lia.
Qed.

Lemma map_field_relabel (fld : MetricRecord → float64) (c : string)
    (ws : list MetricRecord) (i : nat) :
  (c, fld) ∈ metric_columns →
  map fld (imap (λ j, relabel (i + j)) ws) = map fld ws.
Proof.
  intros Hin. revert i. induction ws as [|w ws IH]; intros i; [done|]. simpl.
  f_equal.
  - unfold metric_columns in Hin.
    repeat (apply elem_of_cons in Hin as [[= -> ->]|Hin]; [reflexivity|]).
    by apply elem_of_nil in Hin.
  - rewrite <- (IH (S i)). f_equal. apply imap_ext. intros j w' _. simpl. f_equal. lia.
Qed.

Lemma mean_row_field (recs : list MetricRecord) (c : string)
    (fld : MetricRecord → float64) :
  (c, fld) ∈ metric_columns → fld (mean_row recs) = series_mean (map fld recs).
Proof.
  intros Hin. unfold metric_columns in Hin.
  repeat (apply elem_of_cons in Hin as [[= -> ->]|Hin]; [reflexivity|]).
  by apply elem_of_nil in Hin.
Qed.

Lemma series_mean_no_nan (xs : list float64) :
  xs ≠ [] → Forall (λ x, is_nan x = false) xs → series_mean xs = arithmetic_mean xs.
Proof.
  intros Hne Hxs. unfold series_mean, arithmetic_mean. rewrite dropna_id by done.
  by destruct xs.
Qed.

Lemma series_mean_all_nan (xs : list float64) :
  Forall (λ x, is_nan x = true) xs → series_mean xs = NaN.
Proof.
  intros Hxs. unfold series_mean.
  assert (dropna xs = []) as ->; [|done].
  induction Hxs as [|x xs E _ IH]; [done|]. unfold dropna in *. simpl.
  by rewrite E.
Qed.

Lemma last_imap_relabel (ws : list MetricRecord) (i : nat) :
  model_name <$> last (imap (λ j, relabel (i + j)) ws) = model_name <$> last ws.
Proof.
  rewrite !last_lookup, length_imap, list_lookup_imap.
  by destruct (ws !! pred (length ws)).
Qed.

(** ** Claims on [combine_several_weighted_averages] *)

(** Three runs with accuracies 0.70, 0.80 and 0.75: the last row has 0.75. *)
Example three_runs_average :
  ∃ r1 r2 r3 grand,
    returns (combine_several_weighted_averages [0; 1; 2]%nat) (map table three_runs)
      (table [r1; r2; r3; grand])
    ∧ map note [r1; r2; r3; grand]
      = [VStr "1_wt_avg"; VStr "2_wt_avg"; VStr "3_wt_avg"; VStr "wt_avg"]
    ∧ acc grand = dec 75 100.
Proof.
  eexists _, _, _, _. split_and!.
  - apply (combine_several_weighted_averages_returns three_runs);
      [repeat constructor | discriminate].
  - reflexivity.
  - apply feqb_eq. by vm_compute.
Qed.

(** The result of [combine_several_weighted_averages] on runs that each
    hold one ["wt_avg"] row. *)
Lemma combine_one_row_each (tables : list (list MetricRecord))
    (ws : list MetricRecord) (dfs : list ref) (h : heap) :
  Forall2 (λ r t, h !! r = Some (table t)) dfs tables →
  Forall2 (λ t w, List.filter is_wt_avg t = [w]) tables ws →
  tables ≠ [] →
  returns (combine_several_weighted_averages dfs) h
    (table (imap relabel ws ++ [mean_row (imap relabel ws)]))
  ∧ Some (model_name (mean_row (imap relabel ws))) = model_name <$> last ws
  ∧ ∀ c fld, (c, fld) ∈ metric_columns →
      fld (mean_row (imap relabel ws)) = series_mean (map fld ws).
Proof.
  intros Hdfs Hone Hne.
  assert (stacked 0 tables = imap relabel ws) as Hst
    by exact (stacked_one tables ws 0 Hone).
  assert (ws ≠ []) as Hws.
  { intros ->. apply Forall2_nil_inv_r in Hone. done. }
  assert (stacked 0 tables ≠ []) as Hsne.
  { rewrite Hst. intros Himap%(f_equal length). rewrite length_imap in Himap.
    by destruct ws. }
  rewrite <- Hst. split_and!.
  - by apply combine_several_weighted_averages_returns.
  - unfold mean_row. simpl. rewrite Hst.
    pose proof (last_imap_relabel ws 0) as <-. simpl.
    destruct (last (imap relabel ws)) eqn:Hlast; [done|].
    apply last_None in Hlast. apply (f_equal length) in Hlast.
    rewrite length_imap in Hlast. by destruct ws.
  - intros c fld Hin. rewrite (mean_row_field _ c fld Hin), Hst.
    exact (f_equal series_mean (map_field_relabel fld c ws 0 Hin)).
Qed.

(** C3, as amended. Given run tables that each hold one ["wt_avg"] row,
    [combine_several_weighted_averages] returns those rows in the order of
    the list, each with its note set to the 1-based position followed by
    ["_wt_avg"], and one more row whose note is ["wt_avg"], whose model name
    is that of the last of them, and whose value in every metric column is
    the mean of the values of that column that are not not-a-number
    ([series_mean]). The other rows of the runs play no part. When no value
    of the column is not-a-number this is the arithmetic mean of the k
    values; when all are, it is not-a-number. *)
Theorem combine_stacks_and_averages (tables : list (list MetricRecord))
    (ws : list MetricRecord) (dfs : list ref) (h : heap) :
  Forall2 (λ r t, h !! r = Some (table t)) dfs tables →
  Forall2 (λ t w, List.filter is_wt_avg t = [w]) tables ws →
  tables ≠ [] →
  ∃ grand,
    returns (combine_several_weighted_averages dfs) h
      (table (imap relabel ws ++ [grand]))
    ∧ note grand = VStr "wt_avg"
    ∧ Some (model_name grand) = model_name <$> last ws
    ∧ (∀ c fld, (c, fld) ∈ metric_columns → fld grand = series_mean (map fld ws))
    ∧ (∀ c fld, (c, fld) ∈ metric_columns →
         Forall (λ w, is_nan (fld w) = false) ws →
         fld grand = arithmetic_mean (map fld ws))
    ∧ (∀ c fld, (c, fld) ∈ metric_columns →
         Forall (λ w, is_nan (fld w) = true) ws → fld grand = NaN).
Proof.
  intros Hdfs Hone Hne.
  destruct (combine_one_row_each tables ws dfs h Hdfs Hone Hne)
    as (Hret & Hname & Hmean).
  exists (mean_row (imap relabel ws)). split_and!; [done..| |].
  - intros c fld Hin Hnn. rewrite (Hmean c fld Hin).
    apply series_mean_no_nan; [|by apply Forall_map].
    intros Hnil%(f_equal length). rewrite length_map in Hnil.
    apply Forall2_length in Hone. destruct tables, ws; done.
  - intros c fld Hin Hnn. rewrite (Hmean c fld Hin).
    apply series_mean_all_nan. by apply Forall_map.
Qed.

Lemma combine_stacks_and_averages_witness :
  Forall2 (λ r t, [table run_1; table run_2] !! r = Some (table t)) [0; 1]%nat [run_1; run_2]
  ∧ Forall2 (λ t w, List.filter is_wt_avg t = [w]) [run_1; run_2]
      [average_row two_folds; average_row no_class_1]
  ∧ [run_1; run_2] ≠ []
  ∧ ∃ grand,
      returns (combine_several_weighted_averages [0; 1]%nat) [table run_1; table run_2]
        (table (imap relabel [average_row two_folds; average_row no_class_1] ++ [grand]))
      ∧ note grand = VStr "wt_avg"
      ∧ Some (model_name grand)
        = model_name <$> last [average_row two_folds; average_row no_class_1]
      ∧ (∀ c fld, (c, fld) ∈ metric_columns →
           fld grand
           = series_mean (map fld [average_row two_folds; average_row no_class_1]))
      ∧ (∀ c fld, (c, fld) ∈ metric_columns →
           Forall (λ w, is_nan (fld w) = false)
             [average_row two_folds; average_row no_class_1] →
           fld grand
           = arithmetic_mean (map fld [average_row two_folds; average_row no_class_1]))
      ∧ (∀ c fld, (c, fld) ∈ metric_columns →
           Forall (λ w, is_nan (fld w) = true)
             [average_row two_folds; average_row no_class_1] →
           fld grand = NaN).
Proof.
  assert (Forall2 (λ r t, [table run_1; table run_2] !! r = Some (table t))
            [0; 1]%nat [run_1; run_2]) as H1 by (repeat constructor).
  assert (Forall2 (λ t w, List.filter is_wt_avg t = [w]) [run_1; run_2]
            [average_row two_folds; average_row no_class_1]) as H2
    by (repeat constructor).
  assert ([run_1; run_2] ≠ []) as H3 by discriminate.
  split; [exact H1|]. split; [exact H2|]. split; [exact H3|].
  exact (combine_stacks_and_averages [run_1; run_2]
           [average_row two_folds; average_row no_class_1] [0; 1]%nat
           [table run_1; table run_2] H1 H2 H3).
Defined.

(** C3 as stated fails when a run has no sample of class 1: the
    ["wt_avg"] row of [run_2] has no [prec1], the mean of the two extracted
    values is not-a-number, and the code returns the [prec1] of [run_1]. *)
Lemma grand_mean_skips_nan :
  ∃ grand,
    returns (combine_several_weighted_averages [0; 1]%nat) [table run_1; table run_2]
      (table (imap relabel [average_row two_folds; average_row no_class_1] ++ [grand]))
    ∧ prec1 grand = dec 41 50
    ∧ arithmetic_mean (map prec1 [average_row two_folds; average_row no_class_1]) = NaN
    ∧ prec1 grand
      ≠ arithmetic_mean (map prec1 [average_row two_folds; average_row no_class_1]).
Proof.
  assert (prec1 (mean_row (stacked 0 [run_1; run_2])) = dec 41 50) as Hcode
    by (apply feqb_eq; by vm_compute).
  assert (arithmetic_mean (map prec1 [average_row two_folds; average_row no_class_1])
          = NaN) as Hspec by reflexivity.
  exists (mean_row (stacked 0 [run_1; run_2])). split_and!.
  - apply (combine_several_weighted_averages_returns [run_1; run_2]);
      [repeat constructor | discriminate].
  - exact Hcode.
  - exact Hspec.
  - by rewrite Hcode, Hspec.
Qed.

(** ** Not-a-number terms in the reductions *)

Lemma fadd_zero_r (x : float64) : (x + fzero)%f64 = x.
Proof. destruct x as [a| | |]; simpl; try done. f_equal. ring. Qed.

Lemma fsum_app (xs ys : list float64) :
  fsum (xs ++ ys) = fold_left fadd ys (fsum xs).
Proof. unfold fsum. apply fold_left_app. Qed.

Lemma series_sum_skip_nan (xs ys : list float64) :
  series_sum (xs ++ NaN :: ys) = series_sum (xs ++ ys).
Proof. unfold series_sum, dropna. by rewrite !List.filter_app. Qed.

Lemma series_sum_skip_zero (xs ys : list float64) :
  series_sum (xs ++ fzero :: ys) = series_sum (xs ++ ys).
Proof.
  unfold series_sum, dropna. rewrite !List.filter_app. simpl.
  rewrite !fsum_app. simpl. by rewrite fadd_zero_r.
Qed.

Lemma series_mean_skip_nan (xs ys : list float64) :
  series_mean (xs ++ NaN :: ys) = series_mean (xs ++ ys).
Proof. unfold series_mean, dropna. by rewrite !List.filter_app. Qed.

Lemma fmul_zero_l (x : float64) : (fzero * x)%f64 = fzero ∨ (fzero * x)%f64 = NaN.
Proof.
  destruct x as [a| | |]; simpl; auto.
  left. unfold fzero. f_equal. ring.
Qed.

(** In a sum of products, a row whose value is not-a-number weighs as much
    as the same row with the value 0. *)
Lemma products_nan_as_zero (pre post : list MetricRecord) (r r' : MetricRecord)
    (fld sup : MetricRecord → float64) :
  fld r = NaN → fld r' = fzero → sup r' = sup r →
  series_sum (map (λ x, fld x * sup x)%f64 (pre ++ r :: post))
  = series_sum (map (λ x, fld x * sup x)%f64 (pre ++ r' :: post)).
Proof.
  intros Hr Hr' Hs. rewrite !map_app. simpl. rewrite Hr, Hr', Hs.
  change (NaN * sup r)%f64 with NaN. rewrite series_sum_skip_nan.
  destruct (fmul_zero_l (sup r)) as [-> | ->].
  - by rewrite series_sum_skip_zero.
  - by rewrite series_sum_skip_nan.
Qed.

Lemma average_of_nan_as_zero (pre post : list MetricRecord) (r r' : MetricRecord)
    (c : string) (fld : MetricRecord → float64) :
  fld r = NaN → fld r' = fzero → sup0 r' = sup0 r → sup1 r' = sup1 r →
  average_of (pre ++ r :: post) c fld = average_of (pre ++ r' :: post) c fld.
Proof.
  intros Hr Hr' H0 H1. unfold average_of.
  rewrite (products_nan_as_zero pre post r r' fld sup0) by done.
  rewrite (products_nan_as_zero pre post r r' fld sup1) by done.
  rewrite !map_app, !length_app. simpl. rewrite Hr, Hr', H0, H1.
  by rewrite series_sum_skip_nan, series_sum_skip_zero.
Qed.

(** C2, as amended. A not-a-number metric value is skipped by the
    aggregates. In [append_weighted_average] the appended value of its
    column is the one the table gives with 0 in the place of that value:
    the product is left out of the numerator while the row keeps its place
    in the denominator. In [combine_several_weighted_averages] the value of
    the column in the last row is the mean over the other runs. *)
Theorem nan_is_skipped (pre post : list MetricRecord) (r r' : MetricRecord)
    (tables : list (list MetricRecord)) (wpre wpost : list MetricRecord)
    (w : MetricRecord) (c : string) (fld : MetricRecord → float64)
    (h : heap) (df df' : ref) (dfs : list ref) :
  (c, fld) ∈ metric_columns →
  h !! df = Some (table (pre ++ r :: post)) →
  h !! df' = Some (table (pre ++ r' :: post)) →
  fld r = NaN → fld r' = fzero → sup0 r' = sup0 r → sup1 r' = sup1 r →
  Forall2 (λ x t, h !! x = Some (table t)) dfs tables →
  Forall2 (λ t x, List.filter is_wt_avg t = [x]) tables (wpre ++ w :: wpost) →
  fld w = NaN →
  (∃ row row',
     returns (append_weighted_average df) h (table ((pre ++ r :: post) ++ [row]))
     ∧ returns (append_weighted_average df') h (table ((pre ++ r' :: post) ++ [row']))
     ∧ fld row = fld row')
  ∧ (∃ grand,
       returns (combine_several_weighted_averages dfs) h
         (table (imap relabel (wpre ++ w :: wpost) ++ [grand]))
       ∧ fld grand = series_mean (map fld (wpre ++ wpost))).
Proof.
  intros Hin E E' Hr Hr' H0 H1 Hdfs Hone Hw. split.
  - exists (average_row (pre ++ r :: post)), (average_row (pre ++ r' :: post)).
    split_and!.
    + apply append_weighted_average_returns; [done | by destruct pre].
    + apply append_weighted_average_returns; [done | by destruct pre].
    + rewrite !(average_row_field _ c fld Hin). by apply average_of_nan_as_zero.
  - assert (tables ≠ []) as Hne.
    { intros ->. apply Forall2_nil_inv_l in Hone. by destruct wpre. }
    destruct (combine_one_row_each tables _ dfs h Hdfs Hone Hne)
      as (Hret & _ & Hmean).
    eexists. split; [exact Hret|].
    rewrite (Hmean c fld Hin), !map_app. simpl. rewrite Hw.
    apply series_mean_skip_nan.
Qed.

Lemma nan_is_skipped_witness :
  ("prec1", prec1) ∈ metric_columns
  ∧ nan_heap !! 0%nat = Some (table ([fold_A] ++ fold_C :: []))
  ∧ nan_heap !! 1%nat = Some (table ([fold_A] ++ fold_C0 :: []))
  ∧ prec1 fold_C = NaN ∧ prec1 fold_C0 = fzero
  ∧ sup0 fold_C0 = sup0 fold_C ∧ sup1 fold_C0 = sup1 fold_C
  ∧ Forall2 (λ x t, nan_heap !! x = Some (table t)) [2; 3]%nat [run_1; run_2]
  ∧ Forall2 (λ t x, List.filter is_wt_avg t = [x]) [run_1; run_2]
      ([average_row two_folds] ++ average_row no_class_1 :: [])
  ∧ prec1 (average_row no_class_1) = NaN
  ∧ (∃ row row',
       returns (append_weighted_average 0) nan_heap
         (table (([fold_A] ++ fold_C :: []) ++ [row]))
       ∧ returns (append_weighted_average 1) nan_heap
           (table (([fold_A] ++ fold_C0 :: []) ++ [row']))
       ∧ prec1 row = prec1 row')
  ∧ (∃ grand,
       returns (combine_several_weighted_averages [2; 3]%nat) nan_heap
         (table (imap relabel ([average_row two_folds] ++ average_row no_class_1 :: [])
                   ++ [grand]))
       ∧ prec1 grand = series_mean (map prec1 ([average_row two_folds] ++ []))).
Proof.
  assert (("prec1", prec1) ∈ metric_columns) as H1
    by (unfold metric_columns; repeat constructor).
  assert (Forall2 (λ x t, nan_heap !! x = Some (table t)) [2; 3]%nat [run_1; run_2])
    as H8 by (repeat constructor).
  assert (Forall2 (λ t x, List.filter is_wt_avg t = [x]) [run_1; run_2]
            ([average_row two_folds] ++ average_row no_class_1 :: [])) as H9
    by (repeat constructor).
  assert (prec1 (average_row no_class_1) = NaN) as H10 by reflexivity.
  split; [exact H1|]. do 6 (split; [reflexivity|]).
  split; [exact H8|]. split; [exact H9|]. split; [exact H10|].
  exact (nan_is_skipped [fold_A] [] fold_C fold_C0 [run_1; run_2]
           [average_row two_folds] [] (average_row no_class_1) "prec1" prec1
           nan_heap 0%nat 1%nat [2; 3]%nat
           H1 eq_refl eq_refl eq_refl eq_refl eq_refl eq_refl H8 H9 H10).
Defined.

(** C2 as stated fails in both operations. Fold C has an undefined
    [prec1], and the [prec1] appended to the table of folds A and C is a
    number; the ["wt_avg"] row of [run_2] has an undefined [prec1], and the
    [prec1] of the last row built from [run_1] and [run_2] is a number. *)
Lemma nan_does_not_propagate :
  is_nan (prec1 fold_C) = true
  ∧ (∃ row,
       returns (append_weighted_average 0) [table nan_folds]
         (table (nan_folds ++ [row]))
       ∧ is_nan (prec1 row) = false)
  ∧ is_nan (prec1 (average_row no_class_1)) = true
  ∧ (∃ grand,
       returns (combine_several_weighted_averages [0; 1]%nat)
         [table run_1; table run_2]
         (table (imap relabel [average_row two_folds; average_row no_class_1]
                   ++ [grand]))
       ∧ is_nan (prec1 grand) = false).
Proof.
  split_and!.
  - reflexivity.
  - exists (average_row nan_folds). split.
    + by apply append_weighted_average_returns.
    + by vm_compute.
  - reflexivity.
  - exists (mean_row (stacked 0 [run_1; run_2])). split.
    + apply (combine_several_weighted_averages_returns [run_1; run_2]);
        [repeat constructor | discriminate].
    + by vm_compute.
Qed.

(** ** Running [create_metrics_table] *)

Lemma setitem_values_new {A : Type} (c : string) (f : A → cell) (g : A → list cell)
    (cols : list string) (xs : list A) :
  col_pos cols c = Raise KeyError →
  setitem_values c (map f xs) (mkDF cols (map g xs))
  = Ok (mkDF (cols ++ [c]) (map (λ x, g x ++ [f x]) xs)).
Proof.
  intros Hc. unfold setitem_values, cols_set, row_set. simpl.
  rewrite !length_map, Nat.eqb_refl, Hc. do 2 f_equal.
  induction xs as [|x xs IH]; [done|]. simpl. by rewrite IH.
Qed.

Lemma class_mean_table (t : list MetricRecord) (a b : string)
    (fa fb : MetricRecord → float64) :
  (a, fa) ∈ metric_columns → (b, fb) ∈ metric_columns →
  class_mean (table t) a b
  = Ok (map (λ r, VFloat ((fa r + fb r) / ftwo)%f64) t).
Proof.
  intros Ha Hb. unfold class_mean.
  rewrite (getitem_metric t a fa Ha), (getitem_metric t b fb Hb). simpl.
  rewrite series_binop_map. simpl. by rewrite map_map.
Qed.

Lemma getitem_list_summary (t : list MetricRecord) :
  getitem_list (table t) ["model_name"; "loss"; "acc"]
  = Ok (mkDF ["model_name"; "loss"; "acc"]
          (map (λ r, [VStr (model_name r); VFloat (loss r); VFloat (acc r)]) t)).
Proof. unfold getitem_list. simpl. by rewrite map_map. Qed.

Lemma lookup_tables (tables : list (list MetricRecord)) (dfs : list ref) (h : heap) :
  Forall2 (λ r t, h !! r = Some (table t)) dfs tables →
  Forall2 (λ r d, h !! r = Some d) dfs (map table tables).
Proof. induction 1; simpl; by constructor. Qed.

Lemma create_metrics_table_returns (tables : list (list MetricRecord))
    (dfs : list ref) (h : heap) :
  Forall2 (λ r t, h !! r = Some (table t)) dfs tables →
  tables ≠ [] →
  returns (create_metrics_table dfs) h
    (summary_table (map summarise (List.filter is_wt_avg (mjoin tables)))).
Proof.
  intros Hdfs Hne. destruct tables as [|t ts]; [done|]. clear Hne.
  set (kept := List.filter is_wt_avg (mjoin (t :: ts))).
  rewrite <- (app_nil_r h) in Hdfs |- *.
  eexists _, _. split.
  - unfold create_metrics_table.
    erewrite bind_ok.
    2:{ eapply run_pd_concat; [by apply lookup_tables | apply concat_tables]. }
    erewrite bind_ok.
    2:{ eapply run_df_getitem; [apply lookup_new | apply getitem_note]. }
    erewrite bind_ok by (apply run_df_getitem_mask, lookup_new).
    rewrite getitem_mask_table. fold (mjoin (t :: ts)). fold kept.
    erewrite bind_ok by (apply run_deref, lookup_new).
    erewrite bind_ok.
    2:{ eapply run_df_getitem_list; [apply lookup_new | apply getitem_list_summary]. }
    erewrite bind_ok by (apply run_df_copy, lookup_new).
    erewrite bind_ok.
    2:{ apply run_lift. apply (class_mean_table kept "prec0" "prec1" prec0 prec1);
          unfold metric_columns; repeat constructor. }
    erewrite bind_ok by (apply run_df_setitem_values, setitem_values_new; reflexivity).
    erewrite bind_ok.
    2:{ apply run_lift. apply (class_mean_table kept "rec0" "rec1" rec0 rec1);
          unfold metric_columns; repeat constructor. }
    erewrite bind_ok by (apply run_df_setitem_values, setitem_values_new; reflexivity).
    erewrite bind_ok.
    2:{ apply run_lift. apply (class_mean_table kept "f1sc0" "f1sc1" f1sc0 f1sc1);
          unfold metric_columns; repeat constructor. }
    erewrite bind_ok by (apply run_df_setitem_values, setitem_values_new; reflexivity).
    unfold df_reset_index.
    erewrite bind_ok by (apply run_deref, lookup_new).
    apply run_alloc.
  - unfold summary_table. rewrite map_map. apply lookup_new.
Qed.

(** ** Claims on [create_metrics_table] *)

(** C5. Given at least one table, [create_metrics_table] returns a table
    with the columns [model_name, loss, acc, prec, rec, f1sc] holding one
    row for each row of the inputs whose note is ["wt_avg"], in the order
    of the inputs: model name, loss and accuracy are copied, [prec], [rec]
    and [f1sc] are the half sums of the two classes. So two kept rows with
    the same [prec0] and [prec1] give the same [prec], whatever their
    supports. *)
Theorem create_metrics_table_rows (tables : list (list MetricRecord))
    (dfs : list ref) (h : heap) :
  Forall2 (λ r t, h !! r = Some (table t)) dfs tables →
  tables ≠ [] →
  ∃ ss,
    returns (create_metrics_table dfs) h (summary_table ss)
    ∧ columns (summary_table ss) = ["model_name"; "loss"; "acc"; "prec"; "rec"; "f1sc"]
    ∧ Forall2 summary_of (List.filter is_wt_avg (mjoin tables)) ss
    ∧ ∀ i j r1 r2 s1 s2,
        List.filter is_wt_avg (mjoin tables) !! i = Some r1 → ss !! i = Some s1 →
        List.filter is_wt_avg (mjoin tables) !! j = Some r2 → ss !! j = Some s2 →
        prec0 r1 = prec0 r2 → prec1 r1 = prec1 r2 → s_prec s1 = s_prec s2.
Proof.
  intros Hdfs Hne.
  exists (map summarise (List.filter is_wt_avg (mjoin tables))). split_and!.
  - by apply create_metrics_table_returns.
  - done.
  - apply Forall2_fmap_r, Forall_Forall2_diag, Forall_forall.
    intros r _. by repeat split.
  - intros i j r1 r2 s1 s2 Hr1 Hs1 Hr2 Hs2 E0 E1.
    change (map summarise ?l) with (summarise <$> l) in Hs1, Hs2.
    rewrite list_lookup_fmap in Hs1, Hs2. rewrite Hr1 in Hs1. rewrite Hr2 in Hs2.
    simpl in Hs1, Hs2. injection Hs1 as <-. injection Hs2 as <-.
    simpl. by rewrite E0, E1.
Qed.

Lemma create_metrics_table_rows_witness :
  Forall2 (λ r t, [table run_1; table run_2] !! r = Some (table t))
    [0; 1]%nat [run_1; run_2]
  ∧ [run_1; run_2] ≠ []
  ∧ ∃ ss,
      returns (create_metrics_table [0; 1]%nat) [table run_1; table run_2]
        (summary_table ss)
      ∧ columns (summary_table ss) = ["model_name"; "loss"; "acc"; "prec"; "rec"; "f1sc"]
      ∧ Forall2 summary_of (List.filter is_wt_avg (mjoin [run_1; run_2])) ss
      ∧ ∀ i j r1 r2 s1 s2,
          List.filter is_wt_avg (mjoin [run_1; run_2]) !! i = Some r1 →
          ss !! i = Some s1 →
          List.filter is_wt_avg (mjoin [run_1; run_2]) !! j = Some r2 →
          ss !! j = Some s2 →
          prec0 r1 = prec0 r2 → prec1 r1 = prec1 r2 → s_prec s1 = s_prec s2.
Proof.
  assert (Forall2 (λ r t, [table run_1; table run_2] !! r = Some (table t))
            [0; 1]%nat [run_1; run_2]) as H1 by (repeat constructor).
  assert ([run_1; run_2] ≠ []) as H2 by discriminate.
  split; [exact H1|]. split; [exact H2|].
  exact (create_metrics_table_rows [run_1; run_2] [0; 1]%nat
           [table run_1; table run_2] H1 H2).
Defined.

(** ** Running [metric_class_averages] *)

Lemma class_view_0_run (r : MetricRecord) :
  ∃ sub, ∀ (df : ref) (h l : heap),
    (h ++ l) !! df = Some (table [r]) →
    class_view df "1" 0 (h ++ l)
    = (Ok (length h + length (l ++ [sub]))%nat,
       h ++ ((l ++ [sub]) ++ [class_table [class_0 r]])).
Proof.
  eexists. intros df h l E. unfold class_view.
  erewrite bind_ok by by apply run_deref.
  erewrite bind_ok by (apply run_lift; reflexivity).
  erewrite bind_ok by (eapply run_df_getitem_list; [exact E | reflexivity]).
  erewrite bind_ok by (apply run_df_copy, lookup_new).
  erewrite bind_ok by (apply run_deref, lookup_new).
  erewrite bind_ok by (apply run_df_set_columns; reflexivity).
  erewrite bind_ok by apply run_df_setitem_scalar.
  reflexivity.
Qed.

Lemma class_view_1_run (r : MetricRecord) :
  ∃ sub, ∀ (df : ref) (h l : heap),
    (h ++ l) !! df = Some (table [r]) →
    class_view df "0" 1 (h ++ l)
    = (Ok (length h + length (l ++ [sub]))%nat,
       h ++ ((l ++ [sub]) ++ [class_table [class_1 r]])).
Proof.
  eexists. intros df h l E. unfold class_view.
  erewrite bind_ok by by apply run_deref.
  erewrite bind_ok by (apply run_lift; reflexivity).
  erewrite bind_ok by (eapply run_df_getitem_list; [exact E | reflexivity]).
  erewrite bind_ok by (apply run_df_copy, lookup_new).
  erewrite bind_ok by (apply run_deref, lookup_new).
  erewrite bind_ok by (apply run_df_set_columns; reflexivity).
  erewrite bind_ok by apply run_df_setitem_scalar.
  reflexivity.
Qed.

Lemma class_ratio_run (r : MetricRecord) :
  ∃ sub copy, ∀ (df : ref) (h l : heap),
    (h ++ l) !! df = Some (table [r]) →
    class_ratio df (h ++ l) = (Ok (support_ratio r), h ++ ((l ++ [sub]) ++ [copy])).
Proof.
  eexists _, _. intros df h l E. unfold class_ratio.
  erewrite bind_ok by (eapply run_df_getitem_list; [exact E | reflexivity]).
  erewrite bind_ok by (apply run_df_copy, lookup_new).
  erewrite bind_ok by (eapply run_df_getitem; [apply lookup_new | reflexivity]).
  erewrite bind_ok by (eapply run_df_getitem; [apply lookup_new | reflexivity]).
  reflexivity.
Qed.

Lemma class_ratio_yields (r : MetricRecord) (df : ref) (h : heap) :
  h !! df = Some (table [r]) → yields (class_ratio df) h (support_ratio r).
Proof.
  intros E. rewrite <- (app_nil_r h) in E |- *.
  destruct (class_ratio_run r) as (sub & copy & Hrun).
  eexists. by apply Hrun.
Qed.

Lemma metric_class_averages_returns (r : MetricRecord) (df : ref) (h : heap) :
  h !! df = Some (table [r]) →
  returns (metric_class_averages df) h
    (class_table [class_0 r; class_1 r; macro_row r; weighted_row r]).
Proof.
  intros E. rewrite <- (app_nil_r h) in E |- *.
  destruct (class_ratio_run r) as (sub & copy & Hratio).
  destruct (class_view_0_run r) as [sub0 H0].
  destruct (class_view_1_run r) as [sub1 H1].
  eexists _, _. split.
  - unfold metric_class_averages.
    erewrite bind_ok by by apply Hratio.
    erewrite bind_ok by (apply H0; heap_lookup).
    erewrite bind_ok by (apply H1; heap_lookup).
    erewrite bind_ok.
    2:{ eapply run_pd_concat; [repeat constructor; heap_lookup | reflexivity]. }
    erewrite bind_ok.
    2:{ eapply run_df_apply; [apply lookup_new | reflexivity]. }
    erewrite bind_ok by (apply run_df_setitem_values; reflexivity).
    eapply run_pd_concat; [repeat constructor; heap_lookup | reflexivity].
  - apply lookup_new.
Qed.

Lemma Qcsign_Eq (a : Qc) : Qcsign a = Eq ↔ a = 0%Qc.
Proof. unfold Qcsign. symmetry. apply Qceq_alt. Qed.

Lemma ratio_zero_support (x : float64) :
  is_finite (x / fzero) = false
  ∧ ((x / fzero)%f64 = NaN ↔ x = fzero ∨ x = NaN).
Proof.
  destruct x as [a| | |]; simpl.
  - change (Qcsign 0) with Eq. destruct (Qcsign a) eqn:Ha; simpl.
    + apply Qcsign_Eq in Ha as ->. split; [done|]. split; auto.
    + split; [done|]. split; [done|]. intros [[= ->]|[=]]. done.
    + split; [done|]. split; [done|]. intros [[= ->]|[=]]. done.
  - change (Qcsign 0) with Eq. split; [done|]. split; [done|]. by intros [|].
  - change (Qcsign 0) with Eq. split; [done|]. split; [done|]. by intros [|].
  - split; [done|]. split; auto.
Qed.

Lemma weighted_of_not_finite (ratio v0 v1 : float64) :
  is_finite ratio = false → weighted_of ratio v0 v1 = NaN.
Proof.
  unfold weighted_of. destruct ratio; [done|..]; intros _;
    destruct v0, v1; simpl; unfold scale_inf;
    try destruct (Qcsign _); reflexivity.
Qed.

Lemma fmul_one_r (x : float64) : (x * fone)%f64 = x.
Proof.
  destruct x as [a| | |]; simpl; try done. f_equal. ring.
Qed.

Lemma weighted_of_one (v0 v1 : float64) : weighted_of fone v0 v1 = macro_of v0 v1.
Proof.
  unfold weighted_of, macro_of. rewrite fmul_one_r.
  by replace (fone + fone)%f64 with ftwo
    by (unfold ftwo; simpl; f_equal; by apply Qc_is_canon).
Qed.

Lemma reduce_views_field (nt : string) (f : float64 → float64 → float64)
    (a b : ClassRecord) (c : string) (fld : ClassRecord → float64) :
  (c, fld) ∈ class_columns → fld (reduce_views nt f a b) = f (fld a) (fld b).
Proof.
  intros Hin. unfold class_columns in Hin.
  repeat (apply elem_of_cons in Hin as [[= -> ->]|Hin]; [reflexivity|]).
  by apply elem_of_nil in Hin.
Qed.

(** ** Claims on [metric_class_averages] *)

(** C6, as amended. For a single row whose [sup1] is 0 the ratio
    [sup0 / sup1] is not a finite number: it is not-a-number exactly when
    [sup0] is 0 or not-a-number, and an infinity otherwise. Either way
    [metric_class_averages] returns the four rows, every numeric cell of
    the ["wt_avg"] row is not-a-number, and every numeric cell of the
    ["macro_avg"] row is [(v0 + v1) / 2]. *)
Theorem zero_sup1_class_averages (r : MetricRecord) (h : heap) (df : ref) :
  h !! df = Some (table [r]) → sup1 r = fzero →
  ∃ ratio c0 c1 macro wt,
    yields (class_ratio df) h ratio
    ∧ is_finite ratio = false
    ∧ (ratio = NaN ↔ sup0 r = fzero ∨ sup0 r = NaN)
    ∧ returns (metric_class_averages df) h (class_table [c0; c1; macro; wt])
    ∧ c_note macro = VStr "macro_avg" ∧ c_note wt = VStr "wt_avg"
    ∧ ∀ c fld, (c, fld) ∈ class_columns →
        fld wt = NaN ∧ fld macro = ((fld c0 + fld c1) / ftwo)%f64.
Proof.
  intros E Hz.
  destruct (ratio_zero_support (sup0 r)) as [Hfin Hnan].
  exists (support_ratio r), (class_0 r), (class_1 r), (macro_row r), (weighted_row r).
  split_and!.
  - by apply class_ratio_yields.
  - unfold support_ratio. by rewrite Hz.
  - unfold support_ratio. by rewrite Hz.
  - by apply metric_class_averages_returns.
  - done.
  - done.
  - intros c fld Hin. unfold weighted_row, macro_row.
    rewrite !(reduce_views_field _ _ _ _ c fld Hin). split; [|done].
    apply weighted_of_not_finite. unfold support_ratio. by rewrite Hz.
Qed.

Lemma zero_sup1_class_averages_witness :
  [table [only_class_0]] !! 0%nat = Some (table [only_class_0])
  ∧ sup1 only_class_0 = fzero
  ∧ ∃ ratio c0 c1 macro wt,
      yields (class_ratio 0) [table [only_class_0]] ratio
      ∧ is_finite ratio = false
      ∧ (ratio = NaN ↔ sup0 only_class_0 = fzero ∨ sup0 only_class_0 = NaN)
      ∧ returns (metric_class_averages 0) [table [only_class_0]]
          (class_table [c0; c1; macro; wt])
      ∧ c_note macro = VStr "macro_avg" ∧ c_note wt = VStr "wt_avg"
      ∧ ∀ c fld, (c, fld) ∈ class_columns →
          fld wt = NaN ∧ fld macro = ((fld c0 + fld c1) / ftwo)%f64.
Proof.
  split; [reflexivity|]. split; [reflexivity|].
  exact (zero_sup1_class_averages only_class_0 [table [only_class_0]] 0%nat
           eq_refl eq_refl).
Defined.

(** C6 as stated fails on a row with ten samples of class 0 and none of
    class 1: the ratio the code computes is plus infinity, not
    not-a-number. *)
Lemma ratio_is_infinite :
  sup1 only_class_0 = fzero
  ∧ yields (class_ratio 0) [table [only_class_0]] PInf
  ∧ ¬ yields (class_ratio 0) [table [only_class_0]] NaN.
Proof.
  assert (yields (class_ratio 0) [table [only_class_0]] PInf) as [h Hrun]
    by by apply (class_ratio_yields only_class_0 0 [table [only_class_0]]).
  split_and!; [reflexivity | by exists h |].
  intros [h' Hrun']. by rewrite Hrun in Hrun'.
Qed.

(** C7. For a single row with [sup0 = sup1] and ratio 1, every numeric
    cell of the ["wt_avg"] row of the result of [metric_class_averages]
    equals the cell of the ["macro_avg"] row in the same column, whatever
    the values are. *)
Theorem balanced_weighted_is_macro (r : MetricRecord) (h : heap) (df : ref) :
  h !! df = Some (table [r]) → sup0 r = sup1 r →
  yields (class_ratio df) h fone →
  ∃ c0 c1 macro wt,
    returns (metric_class_averages df) h (class_table [c0; c1; macro; wt])
    ∧ c_note macro = VStr "macro_avg" ∧ c_note wt = VStr "wt_avg"
    ∧ ∀ c fld, (c, fld) ∈ class_columns → fld wt = fld macro.
Proof.
  intros E _ [h1 Hrun].
  destruct (class_ratio_yields r df h E) as [h2 Hrun'].
  rewrite Hrun' in Hrun. injection Hrun as Hratio _.
  exists (class_0 r), (class_1 r), (macro_row r), (weighted_row r).
  split_and!; [by apply metric_class_averages_returns | done | done |].
  intros c fld Hin. unfold weighted_row, macro_row.
  rewrite !(reduce_views_field _ _ _ _ c fld Hin), Hratio.
  apply weighted_of_one.
Qed.

Lemma balanced_weighted_is_macro_witness :
  [table [balanced]] !! 0%nat = Some (table [balanced])
  ∧ sup0 balanced = sup1 balanced
  ∧ yields (class_ratio 0) [table [balanced]] fone
  ∧ ∃ c0 c1 macro wt,
      returns (metric_class_averages 0) [table [balanced]]
        (class_table [c0; c1; macro; wt])
      ∧ c_note macro = VStr "macro_avg" ∧ c_note wt = VStr "wt_avg"
      ∧ ∀ c fld, (c, fld) ∈ class_columns → fld wt = fld macro.
Proof.
  assert (yields (class_ratio 0) [table [balanced]] fone) as H3.
  { replace fone with (support_ratio balanced) by (apply feqb_eq; by vm_compute).
    by apply class_ratio_yields. }
  split; [reflexivity|]. split; [reflexivity|]. split; [exact H3|].
  exact (balanced_weighted_is_macro balanced [table [balanced]] 0%nat
           eq_refl eq_refl H3).
Defined.

(** ** A second application of [append_weighted_average] *)

Lemma fadd_zero_l (x : float64) : (fzero + x)%f64 = x.
Proof. destruct x as [a| | |]; simpl; try done. f_equal. ring. Qed.

Lemma value_number_op (f : float64 → float64 → float64) (a b : number) :
  value (number_op f a b) = f (value a) (value b).
Proof. by destruct a, b. Qed.

Lemma value_number_at (r : ObjectRecord) (c : string) (fld : MetricRecord → float64) :
  value (number_at r c fld) = fld (o_values r).
Proof. unfold number_at. by destruct (o_python r c). Qed.

Lemma value_fold_add (ns : list number) (n : number) :
  value (fold_left (number_op fadd) ns n) = fold_left fadd (map value ns) (value n).
Proof.
  revert n. induction ns as [|m ns IH]; intros n; [done|].
  simpl. by rewrite IH, value_number_op.
Qed.

Lemma fold_nan_as_zero (zs : list float64) (a : float64) :
  fold_left fadd (map (λ x, if is_nan x then fzero else x) zs) a
  = fold_left fadd (dropna zs) a.
Proof.
  revert a. induction zs as [|z zs IH]; intros a; [done|].
  unfold dropna in *. simpl. destruct (is_nan z); simpl.
  - rewrite fadd_zero_r. apply IH.
  - apply IH.
Qed.

(** The sum of an object column has the value of the sum of the float64
    column of the same values. *)
Lemma value_object_sum (xs : list number) :
  value (object_sum xs) = series_sum (map value xs).
Proof.
  unfold object_sum, series_sum, fsum. rewrite <- fold_nan_as_zero.
  destruct xs as [|x xs]; [done|]. cbn [map]. rewrite value_fold_add.
  cbn [fold_left]. rewrite !map_map.
  assert (∀ n, value (if is_nan (value n) then PyNumber fzero else n)
               = if is_nan (value n) then fzero else value n) as Hmask
    by (intros n; by destruct (is_nan (value n))).
  rewrite Hmask, fadd_zero_l. f_equal. apply map_ext. intros n. apply Hmask.
Qed.

(** With a divisor that is not 0 the division of two objects raises
    nothing and has the value of the float64 division. *)
Lemma number_div_value (a b : number) :
  feqb (value b) fzero = false →
  ∃ n, number_div a b = Returned n ∧ value n = (value a / value b)%f64.
Proof.
  intros Hb. destruct a as [x|x], b as [y|y]; simpl in *; try rewrite Hb; eauto.
Qed.

Lemma of_nat_not_zero (n : nat) : feqb (of_nat (S n)) fzero = false.
Proof.
  unfold of_nat, of_Z, fzero, feqb. apply not_true_is_false.
  intros E%Qeq_bool_iff. unfold Q2Qc, this in E. rewrite Qred_correct in E.
  unfold Qeq in E. simpl in E. lia.
Qed.

Lemma object_weighted_average (rows : list ObjectRecord) (c csup : string)
    (fld sup : MetricRecord → float64) :
  feqb (series_sum (map sup (map o_values rows))) fzero = false →
  ∃ n, number_div
         (object_sum (zip_with (number_op fmul) (object_column rows c fld)
                        (object_column rows csup sup)))
         (object_sum (object_column rows csup sup)) = Returned n
       ∧ value n = (series_sum (map (λ r, fld r * sup r)%f64 (map o_values rows))
                    / series_sum (map sup (map o_values rows)))%f64.
Proof.
  intros Hsup.
  assert (map value (object_column rows csup sup) = map sup (map o_values rows))
    as Hcol.
  { unfold object_column. rewrite !map_map. apply map_ext. intros r.
    apply value_number_at. }
  destruct (number_div_value
              (object_sum (zip_with (number_op fmul) (object_column rows c fld)
                             (object_column rows csup sup)))
              (object_sum (object_column rows csup sup))) as (n & Hn & Hval).
  { by rewrite value_object_sum, Hcol. }
  exists n. split; [exact Hn|]. rewrite Hval, !value_object_sum, Hcol.
  do 2 f_equal. unfold object_column. rewrite zip_with_map, !map_map.
  apply map_ext. intros r. by rewrite value_number_op, !value_number_at.
Qed.

Lemma object_plain_average (rows : list ObjectRecord) (c : string)
    (fld : MetricRecord → float64) :
  rows ≠ [] →
  ∃ n, number_div (object_sum (object_column rows c fld))
         (PyNumber (of_nat (length rows))) = Returned n
       ∧ value n = (series_sum (map fld (map o_values rows))
                    / of_nat (length (map o_values rows)))%f64.
Proof.
  intros Hne.
  destruct (number_div_value (object_sum (object_column rows c fld))
              (PyNumber (of_nat (length rows)))) as (n & Hn & Hval).
  { destruct rows; [done|]. apply of_nat_not_zero. }
  exists n. split; [exact Hn|]. rewrite Hval, value_object_sum, length_map.
  do 2 f_equal. unfold object_column. rewrite !map_map.
  apply map_ext. intros r. apply value_number_at.
Qed.

(** When neither support sums to 0 the average of a column of an object
    frame is computed, with the value of the average on float64 columns. *)
Lemma object_column_average_value (rows : list ObjectRecord) (c : string)
    (fld : MetricRecord → float64) :
  rows ≠ [] → (c, fld) ∈ metric_columns →
  feqb (series_sum (map sup0 (map o_values rows))) fzero = false →
  feqb (series_sum (map sup1 (map o_values rows))) fzero = false →
  ∃ n, object_column_average rows c fld = Returned n
       ∧ value n = average_of (map o_values rows) c fld.
Proof.
  intros Hne Hin H0 H1. unfold metric_columns in Hin.
  repeat (apply elem_of_cons in Hin as [[= -> ->]|Hin];
          [first [ exact (object_plain_average rows _ _ Hne)
                 | exact (object_weighted_average rows _ SUP0 _ sup0 H0)
                 | exact (object_weighted_average rows _ SUP1 _ sup1 H1) ]|]).
  by apply elem_of_nil in Hin.
Qed.

Lemma object_averages_value (rows : list ObjectRecord)
    (cols : list (string * (MetricRecord → float64))) :
  rows ≠ [] → Forall (λ cf, cf ∈ metric_columns) cols →
  feqb (series_sum (map sup0 (map o_values rows))) fzero = false →
  feqb (series_sum (map sup1 (map o_values rows))) fzero = false →
  ∃ ns, object_averages rows cols = Returned ns
        ∧ map value ns = map (λ cf, average_of (map o_values rows) cf.1 cf.2) cols.
Proof.
  intros Hne Hcols H0 H1. induction Hcols as [|[c fld] cols Hin _ IH].
  - by exists [].
  - destruct IH as (ns & Hns & Hvals).
    destruct (object_column_average_value rows c fld Hne Hin H0 H1) as (n & Hn & Hval).
    exists (n :: ns). split.
    + simpl. by rewrite Hn, Hns.
    + simpl. by rewrite Hval, Hvals.
Qed.

(** What [append_weighted_average] returns on an object frame whose
    supports do not sum to 0. *)
Lemma append_weighted_average_object_returns (rows : list ObjectRecord) :
  rows ≠ [] →
  feqb (series_sum (map sup0 (map o_values rows))) fzero = false →
  feqb (series_sum (map sup1 (map o_values rows))) fzero = false →
  ∃ row, append_weighted_average_object rows = Returned (rows ++ [row])
         ∧ o_values row = average_row (map o_values rows).
Proof.
  intros Hne H0 H1.
  destruct (object_averages_value rows metric_columns Hne) as (ns & Hns & Hvals);
    [by apply Forall_forall | done | done |].
  destruct rows as [|first rest]; [done|].
  exists (object_average_row (model_name (o_values first)) ns). split.
  - unfold append_weighted_average_object. by rewrite Hns.
  - unfold object_average_row, average_row. cbn [o_values]. by rewrite Hvals.
Qed.

Lemma values_first_result (recs : list MetricRecord) (row : MetricRecord) :
  map o_values (first_result recs row) = recs ++ [row].
Proof.
  unfold first_result. rewrite map_app, map_map. cbn [map o_values].
  by rewrite map_id.
Qed.

(** C10. On every table with a first row the result of
    [append_weighted_average] is the rows of the table, in order, followed
    by one row noted ["wt_avg"]. When over the rows of this result the
    supports of neither class sum to 0, a second application returns the
    rows of the first result followed by a second row noted ["wt_avg"],
    whose averages are taken over all the rows of the first result, the
    first ["wt_avg"] row included; so the two results differ. *)
Theorem append_weighted_average_twice (recs : list MetricRecord) (h : heap) (df : ref) :
  h !! df = Some (table recs) → recs ≠ [] →
  feqb (series_sum (map sup0 (recs ++ [average_row recs]))) fzero = false →
  feqb (series_sum (map sup1 (recs ++ [average_row recs]))) fzero = false →
  ∃ row1 row2,
    returns (append_weighted_average df) h (table (recs ++ [row1]))
    ∧ append_weighted_average_object (first_result recs row1)
      = Returned (first_result recs row1 ++ [row2])
    ∧ map o_values (first_result recs row1 ++ [row2]) = recs ++ [row1; o_values row2]
    ∧ note row1 = VStr "wt_avg" ∧ note (o_values row2) = VStr "wt_avg"
    ∧ (∀ c fld, (c, fld) ∈ metric_columns →
         fld (o_values row2) = average_of (recs ++ [row1]) c fld)
    ∧ recs ++ [row1; o_values row2] ≠ recs ++ [row1].
Proof.
  intros E Hne H0 H1.
  destruct (append_weighted_average_object_returns
              (first_result recs (average_row recs))) as (row2 & Hrun & Hrow2).
  { unfold first_result. by destruct recs. }
  { by rewrite values_first_result. }
  { by rewrite values_first_result. }
  rewrite values_first_result in Hrow2.
  exists (average_row recs), row2. split_and!.
  - by apply append_weighted_average_returns.
  - exact Hrun.
  - rewrite map_app, values_first_result, <- (assoc_L (++)). reflexivity.
  - done.
  - by rewrite Hrow2.
  - intros c fld Hin. rewrite Hrow2. by apply average_row_field.
  - intros Heq%(f_equal length). rewrite !length_app in Heq. simpl in Heq. lia.
Qed.

Lemma append_weighted_average_twice_witness :
  [table two_folds] !! 0%nat = Some (table two_folds) ∧ two_folds ≠ []
  ∧ feqb (series_sum (map sup0 (two_folds ++ [average_row two_folds]))) fzero = false
  ∧ feqb (series_sum (map sup1 (two_folds ++ [average_row two_folds]))) fzero = false
  ∧ ∃ row1 row2,
      returns (append_weighted_average 0) [table two_folds] (table (two_folds ++ [row1]))
      ∧ append_weighted_average_object (first_result two_folds row1)
        = Returned (first_result two_folds row1 ++ [row2])
      ∧ map o_values (first_result two_folds row1 ++ [row2])
        = two_folds ++ [row1; o_values row2]
      ∧ note row1 = VStr "wt_avg" ∧ note (o_values row2) = VStr "wt_avg"
      ∧ (∀ c fld, (c, fld) ∈ metric_columns →
           fld (o_values row2) = average_of (two_folds ++ [row1]) c fld)
      ∧ two_folds ++ [row1; o_values row2] ≠ two_folds ++ [row1].
Proof.
  assert (two_folds ≠ []) as H2 by discriminate.
  assert (feqb (series_sum (map sup0 (two_folds ++ [average_row two_folds]))) fzero
          = false) as H3 by (vm_compute; reflexivity).
  assert (feqb (series_sum (map sup1 (two_folds ++ [average_row two_folds]))) fzero
          = false) as H4 by (vm_compute; reflexivity).
  split; [reflexivity|]. split; [exact H2|]. split; [exact H3|]. split; [exact H4|].
  exact (append_weighted_average_twice two_folds [table two_folds] 0%nat
           eq_refl H2 H3 H4).
Defined.

(** On the two folds without a sample of class 1 the first application
    returns and the second raises [ZeroDivisionError]: over the rows of
    the first result the supports of class 1 sum to the Python float 0,
    and so do the weighted values of [prec1]. No second row is produced. *)
Lemma second_application_divides_by_zero :
  returns (append_weighted_average 0) [table no_class_1]
    (table (no_class_1 ++ [average_row no_class_1]))
  ∧ append_weighted_average_object (first_result no_class_1 (average_row no_class_1))
    = DivisionByZero.
Proof.
  split.
  - by apply append_weighted_average_returns.
  - vm_compute. reflexivity.
Qed.

(** * Further properties of the operations *)

(** ** Inputs the operations reject *)

Lemma col_pos_raises (cols : list string) (c : string) (e : exn) :
  col_pos cols c = Raise e → e = KeyError.
Proof.
  induction cols as [|c' cols IH]; simpl; [by intros [= <-]|].
  destruct (String.eqb c' c); [done|].
  destruct (col_pos cols c); simpl; [done|]. intros [= <-]. by apply IH.
Qed.

Lemma loc0_no_rows (d : DataFrame) (c : string) :
  rows d = [] → loc0 d c = Raise KeyError.
Proof.
  intros Hrows. unfold loc0. destruct (col_pos (columns d) c) as [i|e] eqn:Hc; simpl.
  - by rewrite Hrows.
  - by rewrite (col_pos_raises _ _ _ Hc).
Qed.

(** X1. On a frame without rows, whatever its columns,
    [append_weighted_average] raises [KeyError]: there is no first row to
    take the model name from. *)
Theorem append_weighted_average_no_rows (d : DataFrame) (h : heap) (df : ref) :
  h !! df = Some d → rows d = [] →
  raises (append_weighted_average df) h KeyError.
Proof.
  intros E Hrows. rewrite <- (app_nil_r h) in E |- *.
  eexists. unfold append_weighted_average.
  erewrite bind_ok by by apply run_df_copy.
  erewrite bind_ok by apply run_deref, lookup_new.
  erewrite bind_raise; [reflexivity|].
  unfold lift. by rewrite loc0_no_rows.
Qed.

Lemma append_weighted_average_no_rows_witness :
  [mkDF LABELS []] !! 0%nat = Some (mkDF LABELS []) ∧ rows (mkDF LABELS []) = []
  ∧ raises (append_weighted_average 0) [mkDF LABELS []] KeyError.
Proof.
  split; [reflexivity|]. split; [reflexivity|].
  exact (append_weighted_average_no_rows (mkDF LABELS []) [mkDF LABELS []] 0%nat
           eq_refl eq_refl).
Defined.

(** X2. With no table at all, [combine_several_weighted_averages] and
    [create_metrics_table] raise [ValueError] on any heap: [pd.concat]
    refuses an empty list. *)
Theorem no_tables_is_a_value_error (h : heap) :
  raises (combine_several_weighted_averages []) h ValueError
  ∧ raises (create_metrics_table []) h ValueError.
Proof. split; by eexists. Qed.

(** X3. Given tables of which none holds a row noted ["wt_avg"],
    [combine_several_weighted_averages] raises [IndexError]: the stacked
    frame is empty and has no last row. *)
Theorem combine_without_wt_avg (tables : list (list MetricRecord))
    (dfs : list ref) (h : heap) :
  Forall2 (λ r t, h !! r = Some (table t)) dfs tables →
  tables ≠ [] →
  Forall (λ t, List.filter is_wt_avg t = []) tables →
  raises (combine_several_weighted_averages dfs) h IndexError.
Proof.
  intros Hdfs Hne Hnone.
  assert (∀ i, stacked i tables = []) as Hst.
  { clear Hdfs Hne. induction Hnone as [|t ts E _ IH]; intros i; [done|].
    simpl. by rewrite E, IH. }
  rewrite <- (app_nil_r h) in Hdfs |- *.
  eexists. unfold combine_several_weighted_averages.
  erewrite bind_ok by by apply extract_wt_avg_run.
  erewrite bind_ok.
  2:{ eapply run_pd_concat; [apply lookup_extracted | by apply concat_extracted]. }
  erewrite bind_ok by apply run_deref, lookup_new.
  erewrite bind_raise; [reflexivity|].
  unfold lift. by rewrite Hst.
Qed.

Lemma combine_without_wt_avg_witness :
  Forall2 (λ r t, [table two_folds] !! r = Some (table t)) [0%nat] [two_folds]
  ∧ [two_folds] ≠ []
  ∧ Forall (λ t, List.filter is_wt_avg t = []) [two_folds]
  ∧ raises (combine_several_weighted_averages [0%nat]) [table two_folds] IndexError.
Proof.
  assert (Forall2 (λ r t, [table two_folds] !! r = Some (table t)) [0%nat] [two_folds])
    as H1 by (repeat constructor).
  assert ([two_folds] ≠ []) as H2 by discriminate.
  assert (Forall (λ t, List.filter is_wt_avg t = []) [two_folds]) as H3
    by (repeat constructor).
  split; [exact H1|]. split; [exact H2|]. split; [exact H3|].
  exact (combine_without_wt_avg [two_folds] [0%nat] [table two_folds] H1 H2 H3).
Defined.

Lemma traverse_length {A B : Type} (f : A → result B) (xs : list A) (ys : list B) :
  traverse f xs = Ok ys → length ys = length xs.
Proof.
  revert ys. induction xs as [|x xs IH]; intros ys; simpl; [by intros [= <-]|].
  destruct (f x) as [y|]; simpl; [|done].
  destruct (traverse f xs) as [ys'|]; simpl; [|done].
  intros [= <-]. simpl. by rewrite (IH ys').
Qed.

Lemma run_df_set_columns_raise (names : list string) (d : DataFrame) (e : exn)
    (h l : heap) :
  set_columns names d = Raise e →
  df_set_columns (length h + length l) names (h ++ (l ++ [d]))
  = (Raise e, h ++ (l ++ [d])).
Proof.
  intros E. unfold df_set_columns.
  erewrite bind_ok by (apply run_deref, lookup_new).
  erewrite bind_raise; [reflexivity|]. unfold lift. by rewrite E.
Qed.

(** X4. [append_weighted_average] only accepts frames of thirteen columns.
    On a frame with a first row whose column averages can all be computed
    but whose number of columns is not 13, it raises [ValueError]: the new
    row cannot take the thirteen labels. *)
Theorem append_weighted_average_wrong_width (d : DataFrame) (h : heap) (df : ref)
    (name : cell) (averages : list float64) :
  h !! df = Some d →
  loc0 d "model_name" = Ok name →
  traverse (column_average d) (drop 2 (columns d)) = Ok averages →
  length (columns d) ≠ 13%nat →
  raises (append_weighted_average df) h ValueError.
Proof.
  intros E Hname Havg Hwidth. rewrite <- (app_nil_r h) in E |- *.
  eexists. unfold append_weighted_average.
  erewrite bind_ok by by apply run_df_copy.
  erewrite bind_ok by apply run_deref, lookup_new.
  erewrite bind_ok by by apply run_lift.
  erewrite bind_ok by by apply run_lift.
  erewrite bind_ok by apply run_alloc.
  erewrite bind_raise; [reflexivity|].
  apply run_df_set_columns_raise.
  unfold set_columns, list_to_frame. cbn [columns].
  rewrite length_map, length_seq, length_app, length_map.
  rewrite (traverse_length _ _ _ Havg), length_drop.
  destruct (Nat.eqb_spec (length LABELS)
              (length [name; VStr "wt_avg"] + (length (columns d) - 2))) as [Heq|];
    [|done].
  simpl in Heq. lia.
Qed.

Lemma append_weighted_average_wrong_width_witness :
  [three_columns] !! 0%nat = Some three_columns
  ∧ loc0 three_columns "model_name" = Ok (VStr "Net")
  ∧ traverse (column_average three_columns) (drop 2 (columns three_columns))
    = Ok [dec 1 2]
  ∧ length (columns three_columns) ≠ 13%nat
  ∧ raises (append_weighted_average 0) [three_columns] ValueError.
Proof.
  assert (traverse (column_average three_columns) (drop 2 (columns three_columns))
          = Ok [dec 1 2]) as H3.
  { assert (∀ x y, feqb x y = true → Ok (A := list float64) [x] = Ok [y]) as Heq
      by (intros x y ->%feqb_eq; reflexivity).
    apply Heq. by vm_compute. }
  assert (length (columns three_columns) ≠ 13%nat) as H4 by discriminate.
  split; [reflexivity|]. split; [reflexivity|]. split; [exact H3|].
  split; [exact H4|].
  exact (append_weighted_average_wrong_width three_columns [three_columns] 0%nat
           (VStr "Net") [dec 1 2] eq_refl eq_refl H3 H4).
Defined.

Lemma getitem_list_supports (recs : list MetricRecord) :
  getitem_list (table recs) ["sup0"; "sup1"]
  = Ok (mkDF ["sup0"; "sup1"] (map (λ r, [VFloat (sup0 r); VFloat (sup1 r)]) recs)).
Proof. unfold getitem_list. simpl. by rewrite map_map. Qed.

(** X5. [metric_class_averages] expands one row at a time: on a table of
    no row, or of two rows or more, it raises [ValueError], because the
    ratio of the supports is not a single number. *)
Theorem metric_class_averages_wants_one_row (recs : list MetricRecord)
    (h : heap) (df : ref) :
  h !! df = Some (table recs) → length recs ≠ 1%nat →
  raises (metric_class_averages df) h ValueError.
Proof.
  intros E Hlen. rewrite <- (app_nil_r h) in E |- *.
  eexists. unfold metric_class_averages.
  erewrite bind_raise; [reflexivity|].
  unfold class_ratio.
  erewrite bind_ok
    by (eapply run_df_getitem_list; [exact E | apply getitem_list_supports]).
  erewrite bind_ok by (apply run_df_copy, lookup_new).
  erewrite bind_ok.
  2:{ eapply run_df_getitem; [apply lookup_new|].
      unfold getitem. simpl. rewrite map_map. reflexivity. }
  erewrite bind_ok.
  2:{ eapply run_df_getitem; [apply lookup_new|].
      unfold getitem. simpl. rewrite map_map. reflexivity. }
  unfold lift.
  rewrite (series_binop_map fdiv sup0 sup1).
  assert (Ok (map (λ x, (sup0 x / sup1 x)%f64) recs) ≫= item = Raise ValueError)
    as -> by (by destruct recs as [|r [|r' recs]]).
  reflexivity.
Qed.

Lemma metric_class_averages_wants_one_row_witness :
  [table two_folds] !! 0%nat = Some (table two_folds) ∧ length two_folds ≠ 1%nat
  ∧ raises (metric_class_averages 0) [table two_folds] ValueError.
Proof.
  split; [reflexivity|]. split; [discriminate|].
  apply (metric_class_averages_wants_one_row two_folds [table two_folds] 0%nat);
    [reflexivity | discriminate].
Defined.

(** ** The rows of [metric_class_averages] *)

(** X7. From a single row [metric_class_averages] returns four rows under
    the columns [model_name, note, loss, acc, prec, rec, f1sc, sup, mcc],
    noted 0, 1, ["macro_avg"] and ["wt_avg"] in this order and all named
    after the input row, whose own note is dropped. Row 0 holds the
    metrics of class 0 and row 1 those of class 1 under the names without
    the digit; loss, accuracy and mcc are repeated in both. *)
Theorem metric_class_averages_rows (r : MetricRecord) (h : heap) (df : ref) :
  h !! df = Some (table [r]) →
  ∃ c0 c1 macro wt,
    returns (metric_class_averages df) h (class_table [c0; c1; macro; wt])
    ∧ columns (class_table [c0; c1; macro; wt])
      = ["model_name"; "note"; "loss"; "acc"; "prec"; "rec"; "f1sc"; "sup"; "mcc"]
    ∧ map c_note [c0; c1; macro; wt]
      = [VInt 0; VInt 1; VStr "macro_avg"; VStr "wt_avg"]
    ∧ map c_model_name [c0; c1; macro; wt] = replicate 4 (model_name r)
    ∧ map (λ f, f c0) [c_prec; c_rec; c_f1sc; c_sup]
      = map (λ f, f r) [prec0; rec0; f1sc0; sup0]
    ∧ map (λ f, f c1) [c_prec; c_rec; c_f1sc; c_sup]
      = map (λ f, f r) [prec1; rec1; f1sc1; sup1]
    ∧ map (λ f, f c0) [c_loss; c_acc; c_mcc] = map (λ f, f r) [loss; acc; mcc]
    ∧ map (λ f, f c1) [c_loss; c_acc; c_mcc] = map (λ f, f r) [loss; acc; mcc].
Proof.
  intros E. exists (class_0 r), (class_1 r), (macro_row r), (weighted_row r).
  split_and!; [by apply metric_class_averages_returns | done..].
Qed.

Lemma metric_class_averages_rows_witness :
  [table [balanced]] !! 0%nat = Some (table [balanced])
  ∧ ∃ c0 c1 macro wt,
      returns (metric_class_averages 0) [table [balanced]]
        (class_table [c0; c1; macro; wt])
      ∧ columns (class_table [c0; c1; macro; wt])
        = ["model_name"; "note"; "loss"; "acc"; "prec"; "rec"; "f1sc"; "sup"; "mcc"]
      ∧ map c_note [c0; c1; macro; wt]
        = [VInt 0; VInt 1; VStr "macro_avg"; VStr "wt_avg"]
      ∧ map c_model_name [c0; c1; macro; wt] = replicate 4 (model_name balanced)
      ∧ map (λ f, f c0) [c_prec; c_rec; c_f1sc; c_sup]
        = map (λ f, f balanced) [prec0; rec0; f1sc0; sup0]
      ∧ map (λ f, f c1) [c_prec; c_rec; c_f1sc; c_sup]
        = map (λ f, f balanced) [prec1; rec1; f1sc1; sup1]
      ∧ map (λ f, f c0) [c_loss; c_acc; c_mcc] = map (λ f, f balanced) [loss; acc; mcc]
      ∧ map (λ f, f c1) [c_loss; c_acc; c_mcc] = map (λ f, f balanced) [loss; acc; mcc].
Proof.
  split; [reflexivity|].
  exact (metric_class_averages_rows balanced [table [balanced]] 0%nat eq_refl).
Defined.

Lemma fdiv_fin (a b : Qc) : b ≠ 0%Qc → (Fin a / Fin b)%f64 = Fin (a / b)%Qc.
Proof.
  intros Hb. simpl. destruct (Qcsign b) eqn:Hs; try done.
  by apply Qcsign_Eq in Hs.
Qed.

Lemma macro_of_same (v : Qc) : macro_of (Fin v) (Fin v) = Fin v.
Proof.
  unfold macro_of, ftwo. change (Fin v + Fin v)%f64 with (Fin (v + v)%Qc).
  rewrite fdiv_fin by discriminate. f_equal.
  replace (Q2Qc 2) with (1 + 1)%Qc by by apply Qc_is_canon.
  field. discriminate.
Qed.

(** X9. Loss, accuracy and mcc have no class: the two class rows hold the
    same value, and when it is finite the ["macro_avg"] row repeats it. *)
Theorem macro_row_repeats_scalars (r : MetricRecord) (h : heap) (df : ref) :
  h !! df = Some (table [r]) →
  ∃ c0 c1 macro wt,
    returns (metric_class_averages df) h (class_table [c0; c1; macro; wt])
    ∧ c_note macro = VStr "macro_avg"
    ∧ (c_loss c0 = loss r ∧ c_loss c1 = loss r
       ∧ (is_finite (loss r) = true → c_loss macro = loss r))
    ∧ (c_acc c0 = acc r ∧ c_acc c1 = acc r
       ∧ (is_finite (acc r) = true → c_acc macro = acc r))
    ∧ (c_mcc c0 = mcc r ∧ c_mcc c1 = mcc r
       ∧ (is_finite (mcc r) = true → c_mcc macro = mcc r)).
Proof.
  intros E.
  exists (class_0 r), (class_1 r), (macro_row r), (weighted_row r).
  split_and!; try done; [by apply metric_class_averages_returns | ..]; simpl.
  - destruct (loss r) as [v| | |]; [intros _; apply macro_of_same | done..].
  - destruct (acc r) as [v| | |]; [intros _; apply macro_of_same | done..].
  - destruct (mcc r) as [v| | |]; [intros _; apply macro_of_same | done..].
Qed.

Lemma macro_row_repeats_scalars_witness :
  [table [balanced]] !! 0%nat = Some (table [balanced])
  ∧ ∃ c0 c1 macro wt,
      returns (metric_class_averages 0) [table [balanced]]
        (class_table [c0; c1; macro; wt])
      ∧ c_note macro = VStr "macro_avg"
      ∧ (c_loss c0 = loss balanced ∧ c_loss c1 = loss balanced
         ∧ (is_finite (loss balanced) = true → c_loss macro = loss balanced))
      ∧ (c_acc c0 = acc balanced ∧ c_acc c1 = acc balanced
         ∧ (is_finite (acc balanced) = true → c_acc macro = acc balanced))
      ∧ (c_mcc c0 = mcc balanced ∧ c_mcc c1 = mcc balanced
         ∧ (is_finite (mcc balanced) = true → c_mcc macro = mcc balanced)).
Proof.
  split; [reflexivity|].
  exact (macro_row_repeats_scalars balanced [table [balanced]] 0%nat eq_refl).
Defined.

(** ** [create_metrics_table]: undefined class metrics and composition *)

Lemma fadd_nan (x y : float64) : x = NaN ∨ y = NaN → ((x + y) / ftwo)%f64 = NaN.
Proof. intros [-> | ->]; [done|]. by destruct x. Qed.

(** X10. [create_metrics_table] does not skip an undefined class metric:
    when [prec0] or [prec1] of a kept row is not-a-number so is its [prec],
    and likewise for [rec] and [f1sc]. *)
Theorem create_metrics_table_keeps_nan (tables : list (list MetricRecord))
    (dfs : list ref) (h : heap) :
  Forall2 (λ r t, h !! r = Some (table t)) dfs tables →
  tables ≠ [] →
  ∃ ss,
    returns (create_metrics_table dfs) h (summary_table ss)
    ∧ ∀ i r s,
        List.filter is_wt_avg (mjoin tables) !! i = Some r → ss !! i = Some s →
        (prec0 r = NaN ∨ prec1 r = NaN → s_prec s = NaN)
        ∧ (rec0 r = NaN ∨ rec1 r = NaN → s_rec s = NaN)
        ∧ (f1sc0 r = NaN ∨ f1sc1 r = NaN → s_f1sc s = NaN).
Proof.
  intros Hdfs Hne.
  exists (map summarise (List.filter is_wt_avg (mjoin tables))). split.
  - by apply create_metrics_table_returns.
  - intros i r s Hr Hs.
    change (map summarise ?l) with (summarise <$> l) in Hs.
    rewrite list_lookup_fmap, Hr in Hs. injection Hs as <-.
    split_and!; apply fadd_nan.
Qed.

Lemma create_metrics_table_keeps_nan_witness :
  Forall2 (λ r t, [table run_1; table run_2] !! r = Some (table t))
    [0; 1]%nat [run_1; run_2]
  ∧ [run_1; run_2] ≠ []
  ∧ ∃ ss,
      returns (create_metrics_table [0; 1]%nat) [table run_1; table run_2]
        (summary_table ss)
      ∧ ∀ i r s,
          List.filter is_wt_avg (mjoin [run_1; run_2]) !! i = Some r →
          ss !! i = Some s →
          (prec0 r = NaN ∨ prec1 r = NaN → s_prec s = NaN)
          ∧ (rec0 r = NaN ∨ rec1 r = NaN → s_rec s = NaN)
          ∧ (f1sc0 r = NaN ∨ f1sc1 r = NaN → s_f1sc s = NaN).
Proof.
  assert (Forall2 (λ r t, [table run_1; table run_2] !! r = Some (table t))
            [0; 1]%nat [run_1; run_2]) as H1 by (repeat constructor).
  assert ([run_1; run_2] ≠ []) as H2 by discriminate.
  split; [exact H1|]. split; [exact H2|].
  exact (create_metrics_table_keeps_nan [run_1; run_2] [0; 1]%nat
           [table run_1; table run_2] H1 H2).
Defined.

Lemma string_length_app (s t : string) :
  String.length (s ++ t)%string = (String.length s + String.length t)%nat.
Proof. induction s as [|a s IH]; simpl; [done|]. by rewrite IH. Qed.

Lemma relabel_not_wt_avg (i : nat) (w : MetricRecord) : is_wt_avg (relabel i w) = false.
Proof.
  unfold is_wt_avg. simpl. apply String.eqb_neq. intros Heq%(f_equal String.length).
  rewrite string_length_app in Heq. simpl in Heq. lia.
Qed.

Lemma filter_relabelled (ws : list MetricRecord) (i : nat) :
  List.filter is_wt_avg (imap (λ j, relabel (i + j)) ws) = [].
Proof.
  revert i. induction ws as [|w ws IH]; intros i; [done|]. simpl.
  rewrite relabel_not_wt_avg. rewrite <- (IH (S i)). f_equal.
  apply imap_ext. intros j w' _. simpl. f_equal. lia.
Qed.

Lemma returns_bind {A : Type} (m : M A) (f : A → M ref) (h h' : heap) (a : A)
    (d : DataFrame) :
  m h = (Ok a, h') → returns (f a) h' d → returns (m ≫= f) h d.
Proof.
  intros E (r & h'' & Hrun & Hlook). exists r, h''. split; [|done].
  by rewrite (bind_ok _ _ _ _ _ E).
Qed.

Lemma create_after_combine_returns (tables : list (list MetricRecord))
    (ws : list MetricRecord) (dfs : list ref) (h : heap) :
  Forall2 (λ r t, h !! r = Some (table t)) dfs tables →
  Forall2 (λ t w, List.filter is_wt_avg t = [w]) tables ws →
  tables ≠ [] →
  returns (combined ← combine_several_weighted_averages dfs;
           create_metrics_table [combined]) h
    (summary_table [summarise (mean_row (imap relabel ws))]).
Proof.
  intros Hdfs Hone Hne.
  destruct (combine_one_row_each tables ws dfs h Hdfs Hone Hne)
    as ((r & h' & Hrun & Hlook) & _ & _).
  eapply returns_bind; [exact Hrun|].
  pose proof (create_metrics_table_returns
                [imap relabel ws ++ [mean_row (imap relabel ws)]] [r] h') as Hcreate.
  assert (List.filter is_wt_avg (mjoin [imap relabel ws ++ [mean_row (imap relabel ws)]])
          = [mean_row (imap relabel ws)]) as Hkept.
  { simpl. rewrite app_nil_r, List.filter_app.
    assert (List.filter is_wt_avg (imap relabel ws) = []) as Hnone
      by exact (filter_relabelled ws 0).
    by rewrite Hnone. }
  rewrite Hkept in Hcreate. apply Hcreate; [by repeat constructor | done].
Qed.

(** X11. The two operations compose: since the rows that
    [combine_several_weighted_averages] stacks are relabelled, its result
    holds one row noted ["wt_avg"], the last, and [create_metrics_table]
    applied to it returns a single row, built from that row of means. *)
Theorem create_after_combine (tables : list (list MetricRecord))
    (ws : list MetricRecord) (dfs : list ref) (h : heap) :
  Forall2 (λ r t, h !! r = Some (table t)) dfs tables →
  Forall2 (λ t w, List.filter is_wt_avg t = [w]) tables ws →
  tables ≠ [] →
  ∃ grand s,
    returns (combined ← combine_several_weighted_averages dfs;
             create_metrics_table [combined]) h (summary_table [s])
    ∧ summary_of grand s
    ∧ Some (model_name grand) = model_name <$> last ws
    ∧ ∀ c fld, (c, fld) ∈ metric_columns → fld grand = series_mean (map fld ws).
Proof.
  intros Hdfs Hone Hne.
  destruct (combine_one_row_each tables ws dfs h Hdfs Hone Hne)
    as (_ & Hname & Hmean).
  exists (mean_row (imap relabel ws)), (summarise (mean_row (imap relabel ws))).
  split_and!; [by eapply create_after_combine_returns|by repeat split|done|done].
Qed.

Lemma create_after_combine_witness :
  Forall2 (λ r t, [table run_1; table run_2] !! r = Some (table t))
    [0; 1]%nat [run_1; run_2]
  ∧ Forall2 (λ t w, List.filter is_wt_avg t = [w]) [run_1; run_2]
      [average_row two_folds; average_row no_class_1]
  ∧ [run_1; run_2] ≠ []
  ∧ ∃ grand s,
      returns (combined ← combine_several_weighted_averages [0; 1]%nat;
               create_metrics_table [combined]) [table run_1; table run_2]
        (summary_table [s])
      ∧ summary_of grand s
      ∧ Some (model_name grand)
        = model_name <$> last [average_row two_folds; average_row no_class_1]
      ∧ ∀ c fld, (c, fld) ∈ metric_columns →
          fld grand
          = series_mean (map fld [average_row two_folds; average_row no_class_1]).
Proof.
  assert (Forall2 (λ r t, [table run_1; table run_2] !! r = Some (table t))
            [0; 1]%nat [run_1; run_2]) as H1 by (repeat constructor).
  assert (Forall2 (λ t w, List.filter is_wt_avg t = [w]) [run_1; run_2]
            [average_row two_folds; average_row no_class_1]) as H2
    by (repeat constructor).
  assert ([run_1; run_2] ≠ []) as H3 by discriminate.
  split; [exact H1|]. split; [exact H2|]. split; [exact H3|].
  exact (create_after_combine [run_1; run_2]
           [average_row two_folds; average_row no_class_1] [0; 1]%nat
           [table run_1; table run_2] H1 H2 H3).
Defined.

(** ** Averages of finite cells *)

Lemma fold_fadd_fin (qs : list Qc) (a : Qc) :
  fold_left fadd (map Fin qs) (Fin a) = Fin (a + Qcsum qs)%Qc.
Proof.
  revert a. induction qs as [|q qs IH]; intros a; simpl.
  - f_equal. ring.
  - rewrite IH. f_equal. ring.
Qed.

Lemma series_sum_fin {A : Type} (f : A → float64) (xs : list A) :
  Forall (λ x, is_finite (f x) = true) xs →
  series_sum (map f xs) = Fin (Qcsum (map (λ x, qval (f x)) xs)).
Proof.
  intros Hfin. rewrite series_sum_finite by done. unfold fsum.
  assert (map f xs = map Fin (map (λ x, qval (f x)) xs)) as ->.
  { rewrite map_map. apply map_ext_Forall. eapply Forall_impl; [exact Hfin|].
    intros x Hx. cbv beta in Hx. by destruct (f x). }
  unfold fzero. rewrite fold_fadd_fin. f_equal. ring.
Qed.

Lemma finite_column (recs : list MetricRecord) (c : string)
    (fld : MetricRecord → float64) :
  Forall finite_record recs → (c, fld) ∈ metric_columns →
  Forall (λ r, is_finite (fld r) = true) recs.
Proof.
  intros Hfin Hin. eapply Forall_impl; [exact Hfin|].
  intros r Hr. by eapply finite_field.
Qed.

Lemma series_sum_qsum (recs : list MetricRecord) (f : MetricRecord → float64) :
  Forall (λ r, is_finite (f r) = true) recs →
  series_sum (map f recs) = Fin (qsum f recs).
Proof. apply series_sum_fin. Qed.

Lemma series_sum_qdot (recs : list MetricRecord) (f g : MetricRecord → float64) :
  Forall (λ r, is_finite (f r) = true) recs →
  Forall (λ r, is_finite (g r) = true) recs →
  series_sum (map (λ r, f r * g r)%f64 recs) = Fin (qdot f g recs).
Proof.
  intros Hf Hg. rewrite (series_sum_fin (λ r, f r * g r)%f64).
  - unfold qdot. do 2 f_equal. apply map_ext_Forall.
    apply Forall_forall. intros r Hr.
    pose proof (proj1 (Forall_forall _ _) Hf r Hr) as Hfr.
    pose proof (proj1 (Forall_forall _ _) Hg r Hr) as Hgr.
    cbv beta in *. destruct (f r), (g r); done.
  - apply Forall_forall. intros r Hr. apply fmul_finite.
    + exact (proj1 (Forall_forall _ _) Hf r Hr).
    + exact (proj1 (Forall_forall _ _) Hg r Hr).
Qed.

Lemma sup_columns :
  ("sup0", sup0) ∈ metric_columns ∧ ("sup1", sup1) ∈ metric_columns.
Proof. unfold metric_columns. split; repeat constructor. Qed.

Lemma of_nat_qcount {A : Type} (xs : list A) : of_nat (length xs) = Fin (qcount xs).
Proof. reflexivity. Qed.

(** On finite cells with non-zero denominators the average is finite. *)
Lemma average_of_qaverage (recs : list MetricRecord) (c : string)
    (fld : MetricRecord → float64) :
  Forall finite_record recs →
  qsum sup0 recs ≠ 0%Qc → qsum sup1 recs ≠ 0%Qc → qcount recs ≠ 0%Qc →
  (c, fld) ∈ metric_columns →
  average_of recs c fld = Fin (qaverage recs c fld).
Proof.
  intros Hfin H0 H1 Hn Hin. unfold average_of, qaverage.
  destruct sup_columns as [Hs0 Hs1].
  pose proof (finite_column recs c fld Hfin Hin) as Hf.
  pose proof (finite_column recs _ _ Hfin Hs0) as Hf0.
  pose proof (finite_column recs _ _ Hfin Hs1) as Hf1.
  rewrite !series_sum_qdot, !series_sum_qsum, of_nat_qcount by done.
  rewrite !fdiv_fin by done.
  by repeat case_match.
Qed.

(** ** Order: sums of counts and of values of the unit interval *)

Lemma Qc_add_nonneg (a b : Qc) : (0 <= a → 0 <= b → 0 <= a + b)%Qc.
Proof.
  intros Ha Hb. replace 0%Qc with (0 + 0)%Qc by ring. by apply Qcplus_le_compat.
Qed.

Lemma Qc_add_pos_l (a b : Qc) : (0 < a → 0 <= b → 0 < a + b)%Qc.
Proof.
  intros Ha Hb. eapply Qclt_le_trans; [exact Ha|].
  replace a with (a + 0)%Qc at 1 by ring.
  apply Qcplus_le_compat; [apply Qcle_refl | exact Hb].
Qed.

Lemma Qc_add_pos_r (a b : Qc) : (0 <= a → 0 < b → 0 < a + b)%Qc.
Proof. intros Ha Hb. rewrite Qcplus_comm. by apply Qc_add_pos_l. Qed.

Lemma Qc_mul_nonneg (a b : Qc) : (0 <= a → 0 <= b → 0 <= a * b)%Qc.
Proof.
  intros Ha Hb. replace 0%Qc with (0 * b)%Qc by ring. by apply Qcmult_le_compat_r.
Qed.

Lemma Qc_div_in_unit (a b : Qc) :
  (0 <= a → a <= b → 0 < b → 0 <= a / b ∧ a / b <= 1)%Qc.
Proof.
  intros Ha Hab Hb. pose proof (Qclt_not_eq _ _ Hb) as Hne.
  assert ((a / b) * b = a)%Qc as Hdiv by (field; auto).
  split; apply (Qcmult_lt_0_le_reg_r _ _ b Hb); rewrite Hdiv.
  - by rewrite Qcmult_0_l.
  - by rewrite Qcmult_1_l.
Qed.

Lemma Qcsum_nonneg (qs : list Qc) : Forall (λ q, 0 <= q)%Qc qs → (0 <= Qcsum qs)%Qc.
Proof.
  induction 1 as [|q qs Hq _ IH]; simpl; [apply Qcle_refl|]. by apply Qc_add_nonneg.
Qed.

Lemma Qcsum_pos (qs : list Qc) :
  Forall (λ q, 0 <= q)%Qc qs → Exists (λ q, 0 < q)%Qc qs → (0 < Qcsum qs)%Qc.
Proof.
  intros Hall Hex. induction Hex as [q qs Hq | q qs Hex IH]; simpl.
  - apply Forall_cons in Hall as [_ Hall].
    apply Qc_add_pos_l; [done | by apply Qcsum_nonneg].
  - apply Forall_cons in Hall as [Hq Hall]. apply Qc_add_pos_r; auto.
Qed.

Lemma nonneg_qval (x : float64) : nonneg x → (0 <= qval x)%Qc.
Proof. by intros (q & -> & Hq). Qed.

Lemma qsum_pos (g : MetricRecord → float64) (recs : list MetricRecord) :
  Forall (λ r, nonneg (g r)) recs → Exists (λ r, positive (g r)) recs →
  (0 < qsum g recs)%Qc.
Proof.
  intros Hall Hex. unfold qsum. apply Qcsum_pos.
  - apply Forall_map. eapply Forall_impl; [exact Hall|].
    intros r Hr. by apply nonneg_qval.
  - apply Exists_exists in Hex as (r & Hr & q & Hq & Hpos).
    apply Exists_exists. exists q. split; [|done].
    apply list_elem_of_In, in_map_iff. exists r. rewrite Hq. split; [done|].
    by apply list_elem_of_In.
Qed.

Lemma qcount_cons {A : Type} (x : A) (xs : list A) :
  qcount (x :: xs) = (1 + qcount xs)%Qc.
Proof.
  unfold qcount. apply Qc_is_canon. simpl length.
  rewrite Nat2Z.inj_succ. unfold Qcplus, Q2Qc. simpl this.
  rewrite !Qred_correct. unfold Z.succ. rewrite inject_Z_plus.
  rewrite Qplus_comm. reflexivity.
Qed.

Lemma qcount_nonneg {A : Type} (xs : list A) : (0 <= qcount xs)%Qc.
Proof.
  induction xs as [|x xs IH]; [apply Qcle_refl|]. rewrite qcount_cons.
  apply Qc_add_nonneg; [|exact IH]. apply Qclt_le_weak. reflexivity.
Qed.

Lemma qcount_pos {A : Type} (xs : list A) : xs ≠ [] → (0 < qcount xs)%Qc.
Proof.
  destruct xs as [|x xs]; [done|]. intros _. rewrite qcount_cons.
  apply Qc_add_pos_l; [reflexivity | apply qcount_nonneg].
Qed.

Lemma fold_table_sums (recs : list MetricRecord) :
  fold_table recs →
  (0 < qsum sup0 recs)%Qc ∧ (0 < qsum sup1 recs)%Qc ∧ (0 < qcount recs)%Qc.
Proof.
  intros (Hfin & Hnn & Hp0 & Hp1). split_and!.
  - apply qsum_pos; [|done]. eapply Forall_impl; [exact Hnn|]. by intros r [].
  - apply qsum_pos; [|done]. eapply Forall_impl; [exact Hnn|]. by intros r [].
  - apply qcount_pos. intros ->. by apply Exists_nil in Hp0.
Qed.

Lemma in_unit_qval (x : float64) :
  in_unit x → is_finite x = true ∧ (0 <= qval x)%Qc ∧ (qval x <= 1)%Qc.
Proof. by intros (q & -> & H0 & H1). Qed.

Lemma qdot_bounds (f g : MetricRecord → float64) (recs : list MetricRecord) :
  Forall (λ r, in_unit (f r)) recs → Forall (λ r, nonneg (g r)) recs →
  (0 <= qdot f g recs)%Qc ∧ (qdot f g recs <= qsum g recs)%Qc.
Proof.
  intros Hf Hg. unfold qdot, qsum.
  induction recs as [|r recs IH]; simpl; [split; apply Qcle_refl|].
  apply Forall_cons in Hf as [Hfr Hf]. apply Forall_cons in Hg as [Hgr Hg].
  destruct (IH Hf Hg) as [IH0 IH1].
  destruct (in_unit_qval _ Hfr) as (_ & Hv0 & Hv1).
  pose proof (nonneg_qval _ Hgr) as Hs. split.
  - apply Qc_add_nonneg; [by apply Qc_mul_nonneg | done].
  - apply Qcplus_le_compat; [|done].
    replace (qval (g r)) with (1 * qval (g r))%Qc at 2 by ring.
    by apply Qcmult_le_compat_r.
Qed.

Lemma qsum_bounds (f : MetricRecord → float64) (recs : list MetricRecord) :
  Forall (λ r, in_unit (f r)) recs →
  (0 <= qsum f recs)%Qc ∧ (qsum f recs <= qcount recs)%Qc.
Proof.
  intros Hf. unfold qsum.
  induction recs as [|r recs IH]; [split; apply Qcle_refl|].
  apply Forall_cons in Hf as [Hfr Hf]. destruct (IH Hf) as [IH0 IH1].
  destruct (in_unit_qval _ Hfr) as (_ & Hv0 & Hv1).
  rewrite qcount_cons. simpl. split.
  - by apply Qc_add_nonneg.
  - by apply Qcplus_le_compat.
Qed.

Lemma qaverage_in_unit (recs : list MetricRecord) (c : string)
    (fld : MetricRecord → float64) :
  fold_table recs → Forall (λ r, in_unit (fld r)) recs →
  (0 <= qaverage recs c fld)%Qc ∧ (qaverage recs c fld <= 1)%Qc.
Proof.
  intros Htab Hunit. destruct (fold_table_sums recs Htab) as (H0 & H1 & Hn).
  destruct Htab as (_ & Hnn & _ & _).
  assert (Forall (λ r, nonneg (sup0 r)) recs) as Hnn0
    by (eapply Forall_impl; [exact Hnn|]; by intros r []).
  assert (Forall (λ r, nonneg (sup1 r)) recs) as Hnn1
    by (eapply Forall_impl; [exact Hnn|]; by intros r []).
  destruct (qdot_bounds fld sup0 recs Hunit Hnn0).
  destruct (qdot_bounds fld sup1 recs Hunit Hnn1).
  destruct (qsum_bounds fld recs Hunit).
  unfold qaverage. repeat case_match; by apply Qc_div_in_unit.
Qed.

(** X13. The averages keep the range of the metrics. On the folds of a
    run (finite cells, supports that are counts, each class present in some
    fold), in every metric column whose values all lie between 0 and 1 the
    value [append_weighted_average] appends lies between 0 and 1. *)
Theorem average_stays_in_unit (recs : list MetricRecord) (h : heap) (df : ref)
    (c : string) (fld : MetricRecord → float64) :
  h !! df = Some (table recs) → fold_table recs →
  (c, fld) ∈ metric_columns → Forall (λ r, in_unit (fld r)) recs →
  ∃ row,
    returns (append_weighted_average df) h (table (recs ++ [row]))
    ∧ in_unit (fld row).
Proof.
  intros E Htab Hin Hunit.
  destruct (fold_table_sums recs Htab) as (H0 & H1 & Hn).
  assert (recs ≠ []) as Hne by (intros ->; by apply Qclt_not_eq in Hn).
  exists (average_row recs). split; [by apply append_weighted_average_returns|].
  rewrite (average_row_field recs c fld Hin).
  rewrite (average_of_qaverage recs c fld);
    [|by destruct Htab | by apply not_eq_sym, Qclt_not_eq..| done].
  exists (qaverage recs c fld). split; [done|]. by apply qaverage_in_unit.
Qed.

Lemma average_stays_in_unit_witness :
  [table two_folds] !! 0%nat = Some (table two_folds) ∧ fold_table two_folds
  ∧ ("prec1", prec1) ∈ metric_columns
  ∧ Forall (λ r, in_unit (prec1 r)) two_folds
  ∧ ∃ row,
      returns (append_weighted_average 0) [table two_folds]
        (table (two_folds ++ [row]))
      ∧ in_unit (prec1 row).
Proof.
  assert (fold_table two_folds) as H2.
  { split_and!.
    - repeat constructor.
    - repeat constructor; by eexists.
    - constructor. by eexists.
    - constructor. by eexists. }
  assert (("prec1", prec1) ∈ metric_columns) as H3
    by (unfold metric_columns; repeat constructor).
  assert (Forall (λ r, in_unit (prec1 r)) two_folds) as H4
    by (repeat constructor; by eexists).
  split; [reflexivity|]. split; [exact H2|]. split; [exact H3|]. split; [exact H4|].
  exact (average_stays_in_unit two_folds [table two_folds] 0%nat "prec1" prec1
           eq_refl H2 H3 H4).
Defined.

(** ** The range of the class averages *)

Lemma Qc_div_nonneg (a b : Qc) : (0 <= a → 0 < b → 0 <= a / b)%Qc.
Proof.
  intros Ha Hb. pose proof (Qclt_not_eq _ _ Hb) as Hne.
  apply (Qcmult_lt_0_le_reg_r _ _ b Hb).
  replace (a / b * b)%Qc with a by (field; auto). by rewrite Qcmult_0_l.
Qed.

Lemma macro_of_in_unit (v0 v1 : float64) :
  in_unit v0 → in_unit v1 → in_unit (macro_of v0 v1).
Proof.
  intros (x & -> & Hx0 & Hx1) (y & -> & Hy0 & Hy1). unfold macro_of, ftwo.
  change (Fin x + Fin y)%f64 with (Fin (x + y)%Qc).
  rewrite fdiv_fin by discriminate. eexists. split; [reflexivity|].
  apply Qc_div_in_unit; [by apply Qc_add_nonneg | | reflexivity].
  replace (Q2Qc 2) with (1 + 1)%Qc by by apply Qc_is_canon.
  by apply Qcplus_le_compat.
Qed.

Lemma weighted_of_in_unit (s0 s1 v0 v1 : float64) :
  nonneg s0 → positive s1 → in_unit v0 → in_unit v1 →
  in_unit (weighted_of (s0 / s1) v0 v1).
Proof.
  intros (a & -> & Ha) (b & -> & Hb) (x & -> & Hx0 & Hx1) (y & -> & Hy0 & Hy1).
  pose proof (Qclt_not_eq _ _ Hb) as Hne.
  rewrite fdiv_fin by auto. unfold weighted_of.
  pose proof (Qc_div_nonneg a b Ha Hb) as Hratio.
  change (Fin x * Fin (a / b))%f64 with (Fin (x * (a / b))%Qc).
  change (Fin (x * (a / b))%Qc + Fin y)%f64 with (Fin (x * (a / b) + y)%Qc).
  change (fone + Fin (a / b))%f64 with (Fin (1 + a / b)%Qc).
  assert (0 < 1 + a / b)%Qc as Hden by (apply Qc_add_pos_l; [reflexivity | done]).
  rewrite fdiv_fin by by apply Qclt_not_eq in Hden.
  eexists. split; [reflexivity|]. apply Qc_div_in_unit; [| | done].
  - apply Qc_add_nonneg; [by apply Qc_mul_nonneg | done].
  - rewrite (Qcplus_comm 1). apply Qcplus_le_compat; [|done].
    replace (a / b)%Qc with (1 * (a / b))%Qc at 2 by ring.
    by apply Qcmult_le_compat_r.
Qed.

(** X8. The class averages keep the range of the metrics. From a row whose
    [sup0] is a count and whose [sup1] is a positive count, in every
    numeric column in which the values of the two classes lie between 0
    and 1 so do the value of the ["macro_avg"] row and that of the
    ["wt_avg"] row. *)
Theorem class_averages_stay_in_unit (r : MetricRecord) (h : heap) (df : ref) :
  h !! df = Some (table [r]) → nonneg (sup0 r) → positive (sup1 r) →
  ∃ c0 c1 macro wt,
    returns (metric_class_averages df) h (class_table [c0; c1; macro; wt])
    ∧ c_note macro = VStr "macro_avg" ∧ c_note wt = VStr "wt_avg"
    ∧ ∀ c fld, (c, fld) ∈ class_columns →
        in_unit (fld c0) → in_unit (fld c1) →
        in_unit (fld macro) ∧ in_unit (fld wt).
Proof.
  intros E H0 H1.
  exists (class_0 r), (class_1 r), (macro_row r), (weighted_row r).
  split_and!; [by apply metric_class_averages_returns | done | done |].
  intros c fld Hin Hv0 Hv1. unfold macro_row, weighted_row.
  rewrite !(reduce_views_field _ _ _ _ c fld Hin). split.
  - by apply macro_of_in_unit.
  - unfold support_ratio. by apply weighted_of_in_unit.
Qed.

Lemma class_averages_stay_in_unit_witness :
  [table [balanced]] !! 0%nat = Some (table [balanced])
  ∧ nonneg (sup0 balanced) ∧ positive (sup1 balanced)
  ∧ ∃ c0 c1 macro wt,
      returns (metric_class_averages 0) [table [balanced]]
        (class_table [c0; c1; macro; wt])
      ∧ c_note macro = VStr "macro_avg" ∧ c_note wt = VStr "wt_avg"
      ∧ ∀ c fld, (c, fld) ∈ class_columns →
          in_unit (fld c0) → in_unit (fld c1) →
          in_unit (fld macro) ∧ in_unit (fld wt).
Proof.
  assert (nonneg (sup0 balanced)) as H2
    by (exists (Q2Qc (5 # 1)); split; [reflexivity | discriminate]).
  assert (positive (sup1 balanced)) as H3
    by (exists (Q2Qc (5 # 1)); split; [reflexivity | reflexivity]).
  split; [reflexivity|]. split; [exact H2|]. split; [exact H3|].
  exact (class_averages_stay_in_unit balanced [table [balanced]] 0%nat
           eq_refl H2 H3).
Defined.

(** ** From the folds of the runs to the row of a model *)

Lemma traverse_append_run (fs : list (list MetricRecord)) (dfs : list ref) (h : heap) :
  Forall2 (λ r f, h !! r = Some (table f)) dfs fs →
  Forall (λ f, f ≠ []) fs →
  ∃ runs h',
    traverseM append_weighted_average dfs h = (Ok runs, h')
    ∧ Forall2 (λ r f, h' !! r = Some (table (f ++ [average_row f]))) runs fs
    ∧ ∀ r d, h !! r = Some d → h' !! r = Some d.
Proof.
  revert dfs h. induction fs as [|f fs IH]; intros dfs h Hdfs Hne.
  - apply Forall2_nil_inv_r in Hdfs as ->. exists [], h. by split_and!.
  - apply Forall2_cons_inv_r in Hdfs as (df & dfs' & E & Hrest & ->).
    apply Forall_cons in Hne as [Hf Hne].
    pose proof (append_weighted_average_run f df h [] ) as Hrun.
    rewrite app_nil_r in Hrun. specialize (Hrun E Hf).
    set (h1 := h ++ ([] ++ [table f; table [average_row f]])
                 ++ [table (f ++ [average_row f])]) in Hrun.
    assert (∀ r d, h !! r = Some d → h1 !! r = Some d) as Hkeep.
    { intros r d Hr. unfold h1. rewrite lookup_app_l; [done|].
      by eapply lookup_lt_Some. }
    destruct (IH dfs' h1) as (runs & h2 & Hruns & Hlook & Hkeep2); [|done|].
    { eapply Forall2_impl; [exact Hrest|]. intros r f' Hr. by apply Hkeep. }
    eexists (_ :: runs), h2. split_and!.
    + simpl. erewrite bind_ok by exact Hrun.
      erewrite bind_ok by exact Hruns. reflexivity.
    + constructor; [|done]. apply Hkeep2. unfold h1. apply lookup_new.
    + intros r d Hr. by apply Hkeep2, Hkeep.
Qed.

Lemma filter_run (f : list MetricRecord) :
  Forall (λ r, is_wt_avg r = false) f →
  List.filter is_wt_avg (f ++ [average_row f]) = [average_row f].
Proof.
  intros Hf. rewrite List.filter_app.
  assert (List.filter is_wt_avg f = []) as ->; [|done].
  induction Hf as [|r f E _ IH]; [done|]. simpl. by rewrite E.
Qed.

(** X15. The whole path of one model. Starting from the fold tables of its
    runs (each with a first row, none with a row already noted
    ["wt_avg"]), appending the weighted average to every table, combining
    the results and building the summary table of the combination returns
    one row: the summary of the row of means, whose value in every metric
    column is the mean, over the runs, of the averages
    [append_weighted_average] computes. *)
Theorem model_pipeline (fs : list (list MetricRecord)) (dfs : list ref) (h : heap) :
  Forall2 (λ r f, h !! r = Some (table f)) dfs fs →
  Forall (λ f, f ≠ [] ∧ Forall (λ r, is_wt_avg r = false) f) fs →
  fs ≠ [] →
  ∃ grand s,
    returns (runs ← traverseM append_weighted_average dfs;
             combined ← combine_several_weighted_averages runs;
             create_metrics_table [combined]) h (summary_table [s])
    ∧ summary_of grand s
    ∧ ∀ c fld, (c, fld) ∈ metric_columns →
        fld grand = series_mean (map (λ f, average_of f c fld) fs).
Proof.
  intros Hdfs Hfs Hne.
  destruct (traverse_append_run fs dfs h Hdfs) as (runs & h' & Hrun & Hlook & _).
  { eapply Forall_impl; [exact Hfs|]. by intros f []. }
  set (tables := map (λ f, f ++ [average_row f]) fs).
  set (ws := map average_row fs).
  assert (Forall2 (λ r t, h' !! r = Some (table t)) runs tables) as Hruns.
  { unfold tables. apply Forall2_fmap_r. exact Hlook. }
  assert (Forall2 (λ t w, List.filter is_wt_avg t = [w]) tables ws) as Hone.
  { unfold tables, ws. apply Forall2_fmap, Forall_Forall2_diag.
    eapply Forall_impl; [exact Hfs|]. intros f [_ Hf]. by apply filter_run. }
  assert (tables ≠ []) as Htne by (unfold tables; by destruct fs).
  destruct (combine_one_row_each tables ws runs h' Hruns Hone Htne)
    as (_ & _ & Hmean).
  exists (mean_row (imap relabel ws)), (summarise (mean_row (imap relabel ws))).
  split_and!.
  - eapply returns_bind; [exact Hrun|]. by eapply create_after_combine_returns.
  - by repeat split.
  - intros c fld Hin. rewrite (Hmean c fld Hin). unfold ws. rewrite map_map.
    f_equal. apply map_ext. intros f. by apply average_row_field.
Qed.

Lemma model_pipeline_witness :
  Forall2 (λ r f, [table two_folds; table nan_folds] !! r = Some (table f))
    [0; 1]%nat [two_folds; nan_folds]
  ∧ Forall (λ f, f ≠ [] ∧ Forall (λ r, is_wt_avg r = false) f) [two_folds; nan_folds]
  ∧ [two_folds; nan_folds] ≠ []
  ∧ ∃ grand s,
      returns (runs ← traverseM append_weighted_average [0; 1]%nat;
               combined ← combine_several_weighted_averages runs;
               create_metrics_table [combined]) [table two_folds; table nan_folds]
        (summary_table [s])
      ∧ summary_of grand s
      ∧ ∀ c fld, (c, fld) ∈ metric_columns →
          fld grand
          = series_mean (map (λ f, average_of f c fld) [two_folds; nan_folds]).
Proof.
  assert (Forall2 (λ r f, [table two_folds; table nan_folds] !! r = Some (table f))
            [0; 1]%nat [two_folds; nan_folds]) as H1 by (repeat constructor).
  assert (Forall (λ f, f ≠ [] ∧ Forall (λ r, is_wt_avg r = false) f)
            [two_folds; nan_folds]) as H2
    by (repeat constructor; discriminate).
  assert ([two_folds; nan_folds] ≠ []) as H3 by discriminate.
  split; [exact H1|]. split; [exact H2|]. split; [exact H3|].
  exact (model_pipeline [two_folds; nan_folds] [0; 1]%nat
           [table two_folds; table nan_folds] H1 H2 H3).
Defined.

(** ** Tables with several rows noted ["wt_avg"] *)

Lemma stacked_join (tables : list (list MetricRecord)) (i : nat) :
  stacked i tables
  = mjoin (imap (λ j t, map (relabel (i + j)) (List.filter is_wt_avg t)) tables).
Proof.
  revert i. induction tables as [|t ts IH]; intros i; [done|]. simpl.
  rewrite Nat.add_0_r. f_equal. rewrite IH. f_equal.
  apply imap_ext. intros j t' _. simpl. do 2 f_equal. lia.
Qed.

Lemma map_field_stacked (fld : MetricRecord → float64) (c : string)
    (tables : list (list MetricRecord)) (i : nat) :
  (c, fld) ∈ metric_columns →
  map fld (stacked i tables) = map fld (mjoin (map (List.filter is_wt_avg) tables)).
Proof.
  intros Hin. revert i. induction tables as [|t ts IH]; intros i; [done|]. simpl.
  rewrite !map_app, IH, map_map. f_equal. apply map_ext. intros w.
  unfold metric_columns in Hin.
  repeat (apply elem_of_cons in Hin as [[= -> ->]|Hin]; [reflexivity|]).
  by apply elem_of_nil in Hin.
Qed.

(** X16. [combine_several_weighted_averages] takes every row noted
    ["wt_avg"], not one per table: a table that holds several contributes
    them all under the one label of its position, and the row of means
    gives each of these rows the same weight. *)
Theorem combine_takes_every_wt_avg_row (tables : list (list MetricRecord))
    (dfs : list ref) (h : heap) :
  Forall2 (λ r t, h !! r = Some (table t)) dfs tables →
  Exists (λ t, List.filter is_wt_avg t ≠ []) tables →
  ∃ grand,
    returns (combine_several_weighted_averages dfs) h
      (table (mjoin (imap (λ i t, map (relabel i) (List.filter is_wt_avg t)) tables)
              ++ [grand]))
    ∧ note grand = VStr "wt_avg"
    ∧ ∀ c fld, (c, fld) ∈ metric_columns →
        fld grand
        = series_mean (map fld (mjoin (map (List.filter is_wt_avg) tables))).
Proof.
  intros Hdfs Hex.
  assert (stacked 0 tables ≠ []) as Hne.
  { assert (∀ i, stacked i tables ≠ []) as Hall; [|apply Hall].
    clear Hdfs. induction Hex as [t ts Ht | t ts _ IH]; intros i; simpl.
    - destruct (List.filter is_wt_avg t) as [|w ws]; [done|]. simpl. discriminate.
    - destruct (map (relabel i) (List.filter is_wt_avg t)) as [|w ws]; simpl;
        [apply IH|discriminate]. }
  exists (mean_row (stacked 0 tables)). split_and!.
  - change (mjoin (imap (λ i t, map (relabel i) (List.filter is_wt_avg t)) tables))
      with (mjoin (imap (λ j t, map (relabel (0 + j)) (List.filter is_wt_avg t))
                     tables)).
    rewrite <- (stacked_join tables 0).
    by apply combine_several_weighted_averages_returns.
  - done.
  - intros c fld Hin. rewrite (mean_row_field _ c fld Hin).
    by rewrite (map_field_stacked fld c tables 0 Hin).
Qed.

Lemma combine_takes_every_wt_avg_row_witness :
  Forall2 (λ r t, [table (run_1 ++ [average_row run_1]); table run_2] !! r
                  = Some (table t))
    [0; 1]%nat [run_1 ++ [average_row run_1]; run_2]
  ∧ Exists (λ t, List.filter is_wt_avg t ≠ [])
      [run_1 ++ [average_row run_1]; run_2]
  ∧ ∃ grand,
      returns (combine_several_weighted_averages [0; 1]%nat)
        [table (run_1 ++ [average_row run_1]); table run_2]
        (table (mjoin (imap (λ i t, map (relabel i) (List.filter is_wt_avg t))
                         [run_1 ++ [average_row run_1]; run_2])
                ++ [grand]))
      ∧ note grand = VStr "wt_avg"
      ∧ ∀ c fld, (c, fld) ∈ metric_columns →
          fld grand
          = series_mean (map fld (mjoin (map (List.filter is_wt_avg)
                                           [run_1 ++ [average_row run_1]; run_2]))).
Proof.
  assert (Forall2 (λ r t, [table (run_1 ++ [average_row run_1]); table run_2] !! r
                          = Some (table t))
            [0; 1]%nat [run_1 ++ [average_row run_1]; run_2]) as H1
    by (repeat constructor).
  assert (Exists (λ t, List.filter is_wt_avg t ≠ [])
            [run_1 ++ [average_row run_1]; run_2]) as H2
    by (constructor; discriminate).
  split; [exact H1|]. split; [exact H2|].
  exact (combine_takes_every_wt_avg_row [run_1 ++ [average_row run_1]; run_2]
           [0; 1]%nat [table (run_1 ++ [average_row run_1]); table run_2] H1 H2).
Defined.

(** ** Missing columns *)

Lemma col_pos_missing (cols : list string) (c : string) :
  c ∉ cols → col_pos cols c = Raise KeyError.
Proof.
  induction cols as [|c' cols IH]; [done|]. intros Hc. simpl.
  destruct (String.eqb_spec c' c) as [->|_].
  - exfalso. apply Hc. constructor.
  - rewrite IH; [done|]. intros Hin. apply Hc. by constructor.
Qed.

(** X17. A missing column is a [KeyError]:
    [combine_several_weighted_averages] raises it when its first table has
    no [note] column, [metric_class_averages] when its frame lacks [sup0]
    or [sup1]. *)
Theorem missing_column_is_key_error (d : DataFrame) (h : heap) (df : ref) :
  h !! df = Some d →
  ("note" ∉ columns d →
   ∀ dfs, raises (combine_several_weighted_averages (df :: dfs)) h KeyError)
  ∧ ("sup0" ∉ columns d ∨ "sup1" ∉ columns d →
     raises (metric_class_averages df) h KeyError).
Proof.
  intros E. split.
  - intros Hnote dfs. eexists. unfold combine_several_weighted_averages. simpl.
    erewrite bind_raise; [reflexivity|].
    erewrite bind_raise; [reflexivity|].
    unfold df_getitem. erewrite bind_ok by by apply run_deref.
    unfold lift, getitem. by rewrite col_pos_missing.
  - intros Hsup. eexists. unfold metric_class_averages.
    erewrite bind_raise; [reflexivity|].
    unfold class_ratio. erewrite bind_raise; [reflexivity|].
    unfold df_getitem_list. erewrite bind_ok by by apply run_deref.
    erewrite bind_raise; [reflexivity|].
    unfold lift, getitem_list. simpl.
    destruct (col_pos (columns d) "sup0") as [i|e] eqn:H0; simpl.
    + destruct Hsup as [Hsup|Hsup].
      * by rewrite col_pos_missing in H0.
      * by rewrite col_pos_missing.
    + by rewrite (col_pos_raises _ _ _ H0).
Qed.

Lemma missing_column_is_key_error_witness :
  [three_columns] !! 0%nat = Some three_columns
  ∧ ("note" ∉ columns three_columns →
     ∀ dfs, raises (combine_several_weighted_averages (0%nat :: dfs))
              [three_columns] KeyError)
  ∧ ("sup0" ∉ columns three_columns ∨ "sup1" ∉ columns three_columns →
     raises (metric_class_averages 0) [three_columns] KeyError).
Proof.
  split; [reflexivity|].
  exact (missing_column_is_key_error three_columns [three_columns] 0%nat eq_refl).
Defined.

(** ** The evaluation loop *)

Lemma fold_add_batch (dl : list Batch) (t : Totals) :
  fold_left add_batch dl t
  = mkTotals
      (fold_left fadd (map b_loss dl) (test_loss t))
      (fold_left fadd (map b_acc dl) (test_acc t))
      (fold_left fadd (map (λ b, entry_or_zero fzero (b_precision b) 0) dl)
         (test_precision t).1,
       fold_left fadd (map (λ b, entry_or_zero fzero (b_precision b) 1) dl)
         (test_precision t).2)
      (fold_left fadd (map (λ b, entry_or_zero fzero (b_recall b) 0) dl)
         (test_recall t).1,
       fold_left fadd (map (λ b, entry_or_zero fzero (b_recall b) 1) dl)
         (test_recall t).2)
      (fold_left fadd (map (λ b, entry_or_zero fzero (b_fscore b) 0) dl)
         (test_fscore t).1,
       fold_left fadd (map (λ b, entry_or_zero fzero (b_fscore b) 1) dl)
         (test_fscore t).2)
      (fold_left int64_add (map (λ b, entry_or_zero 0%Z (b_support b) 0) dl)
         (test_support t).1,
       fold_left int64_add (map (λ b, entry_or_zero 0%Z (b_support b) 1) dl)
         (test_support t).2)
      (fold_left fadd (map b_mcc dl) (test_mcc t)).
Proof.
  revert t. induction dl as [|b dl IH]; intros t.
  - by destruct t as [? ? [] [] [] [] ?].
  - simpl. by rewrite IH.
Qed.

(** On at least one batch [eval_model] returns the means over the batches. *)
Lemma eval_model_returns (name : string) (nt : cell) (b : Batch) (dl : list Batch) :
  eval_model name (b :: dl) nt = Value (batch_means name nt (b :: dl)).
Proof.
  unfold eval_model. rewrite fold_add_batch. reflexivity.
Qed.

(** X18. [eval_model] divides by the number of batches: without any batch
    the first division raises [ZeroDivisionError]; on at least one batch it
    returns, under the thirteen labels, the plain mean over the batches of
    the loss, the accuracy, the scores of each class and mcc, an array too
    short for a class counting as 0, and the supports of each class summed. *)
Theorem eval_model_batch_means (name : string) (nt : cell) :
  eval_model name [] nt = ZeroDivisionError
  ∧ ∀ b dl, eval_model name (b :: dl) nt = Value (batch_means name nt (b :: dl)).
Proof.
  split; [reflexivity|]. intros b dl. apply eval_model_returns.
Qed.

Lemma fold_fadd_nan (xs : list float64) : fold_left fadd xs NaN = NaN.
Proof. induction xs as [|x xs IH]; [done|]. simpl. exact IH. Qed.

Lemma fsum_nan (xs : list float64) : NaN ∈ xs → fsum xs = NaN.
Proof.
  intros Hin. apply list_elem_of_split in Hin as (l1 & l2 & ->).
  rewrite fsum_app. simpl.
  replace (fsum l1 + NaN)%f64 with NaN by by destruct (fsum l1).
  apply fold_fadd_nan.
Qed.

Lemma batch_mean_nan (f : Batch → float64) (dl : list Batch) (b : Batch) :
  b ∈ dl → f b = NaN → batch_mean f dl = NaN.
Proof.
  intros Hin Hb. unfold batch_mean. rewrite fsum_nan; [done|].
  rewrite <- Hb. apply list_elem_of_In, in_map, list_elem_of_In, Hin.
Qed.

Lemma series_at_batch_means (name : string) (nt : cell) (dl : list Batch)
    (c : string) (f : Batch → float64) :
  (c, f) ∈ batch_measures →
  series_at (batch_means name nt dl) c = Some (VFloat (batch_mean f dl)).
Proof.
  intros Hin. unfold batch_measures in Hin.
  repeat (apply elem_of_cons in Hin as [[= -> ->]|Hin]; [reflexivity|]).
  by apply elem_of_nil in Hin.
Qed.

(** X19. Within a fold nothing is skipped: when one batch has a measure
    that is not-a-number (scikit-learn reports so the precision of a class
    that was never predicted in the batch), the value [eval_model] returns
    for this measure is not-a-number, whatever the other batches hold. *)
Theorem nan_batch_makes_fold_nan (name : string) (nt : cell) (dl : list Batch)
    (b : Batch) (c : string) (f : Batch → float64) :
  b ∈ dl → (c, f) ∈ batch_measures → f b = NaN →
  ∃ s, eval_model name dl nt = Value s ∧ series_at s c = Some (VFloat NaN).
Proof.
  intros Hb Hin Hnan. destruct dl as [|b' dl]; [by apply elem_of_nil in Hb|].
  exists (batch_means name nt (b' :: dl)). split; [apply eval_model_returns|].
  rewrite (series_at_batch_means _ _ _ c f Hin).
  by rewrite (batch_mean_nan f _ b Hb Hnan).
Qed.

Lemma nan_batch_makes_fold_nan_witness :
  batch_B ∈ [batch_A; batch_B]
  ∧ ("prec1", λ b, entry_or_zero fzero (b_precision b) 1) ∈ batch_measures
  ∧ entry_or_zero fzero (b_precision batch_B) 1 = NaN
  ∧ ∃ s, eval_model "Net" [batch_A; batch_B] VNone = Value s
         ∧ series_at s "prec1" = Some (VFloat NaN).
Proof.
  assert (batch_B ∈ [batch_A; batch_B]) as H1 by (repeat constructor).
  assert (("prec1", λ b, entry_or_zero fzero (b_precision b) 1) ∈ batch_measures)
    as H2 by (unfold batch_measures; repeat constructor).
  assert (entry_or_zero fzero (b_precision batch_B) 1 = NaN) as H3 by reflexivity.
  split; [exact H1|]. split; [exact H2|]. split; [exact H3|].
  exact (nan_batch_makes_fold_nan "Net" VNone [batch_A; batch_B] batch_B "prec1"
           (λ b, entry_or_zero fzero (b_precision b) 1) H1 H2 H3).
Defined.

Lemma entry_raises {A : Type} (v : list A) (i : nat) (e : exn) :
  entry v i = Raise e → e = IndexError.
Proof. unfold entry. destruct (v !! i); congruence. Qed.

Lemma entry_length {A : Type} (v : list A) (i : nat) (x : A) :
  entry v i = Ok x → (i < length v)%nat.
Proof.
  unfold entry. destruct (v !! i) eqn:E; [|done]. intros _.
  by eapply lookup_lt_Some.
Qed.

(** X20. [eval_sklearn_model] reads the two entries of every array without
    a guard: when one of the arrays scikit-learn returns has fewer than two
    entries (a test set scored on one class only) it raises [IndexError],
    where [eval_model] given the same values as its only batch returns a
    Series. *)
Theorem eval_sklearn_model_short_array (name : string) (m : Batch) (nt : cell) :
  (length (b_precision m) < 2 ∨ length (b_recall m) < 2
   ∨ length (b_fscore m) < 2 ∨ length (b_support m) < 2)%nat →
  eval_sklearn_model name m nt = Raise IndexError
  ∧ eval_model name [m] nt = Value (batch_means name nt [m]).
Proof.
  intros Hshort. split; [|apply eval_model_returns].
  unfold eval_sklearn_model.
  destruct (entry (b_precision m) 0) as [p0|e] eqn:P0;
    [|by rewrite (entry_raises _ _ _ P0)].
  destruct (entry (b_precision m) 1) as [p1|e] eqn:P1;
    [|by rewrite (entry_raises _ _ _ P1)].
  destruct (entry (b_recall m) 0) as [r0|e] eqn:R0;
    [|by rewrite (entry_raises _ _ _ R0)].
  destruct (entry (b_recall m) 1) as [r1|e] eqn:R1;
    [|by rewrite (entry_raises _ _ _ R1)].
  destruct (entry (b_fscore m) 0) as [f0|e] eqn:F0;
    [|by rewrite (entry_raises _ _ _ F0)].
  destruct (entry (b_fscore m) 1) as [f1|e] eqn:F1;
    [|by rewrite (entry_raises _ _ _ F1)].
  destruct (entry (b_support m) 0) as [s0|e] eqn:S0;
    [|by rewrite (entry_raises _ _ _ S0)].
  destruct (entry (b_support m) 1) as [s1|e] eqn:S1;
    [|by rewrite (entry_raises _ _ _ S1)].
  apply entry_length in P1, R1, F1, S1. lia.
Qed.

Lemma eval_sklearn_model_short_array_witness :
  (length (b_precision batch_C) < 2 ∨ length (b_recall batch_C) < 2
   ∨ length (b_fscore batch_C) < 2 ∨ length (b_support batch_C) < 2)%nat
  ∧ eval_sklearn_model "Forest" batch_C VNone = Raise IndexError
  ∧ eval_model "Forest" [batch_C] VNone = Value (batch_means "Forest" VNone [batch_C]).
Proof.
  assert (length (b_precision batch_C) < 2 ∨ length (b_recall batch_C) < 2
          ∨ length (b_fscore batch_C) < 2 ∨ length (b_support batch_C) < 2)%nat
    as H by (left; simpl; lia).
  split; [exact H|].
  exact (eval_sklearn_model_short_array "Forest" batch_C VNone H).
Defined.

Lemma wrap64_int64 (z : Z) : is_int64 z → wrap64 z = z.
Proof. unfold is_int64, wrap64. intros Hz. rewrite Z.mod_small; lia. Qed.

Lemma fsum_fin {A : Type} (f : A → float64) (xs : list A) :
  Forall (λ x, is_finite (f x) = true) xs →
  fsum (map f xs) = Fin (Qcsum (map (λ x, qval (f x)) xs)).
Proof.
  intros Hfin. unfold fsum.
  assert (map f xs = map Fin (map (λ x, qval (f x)) xs)) as ->.
  { rewrite map_map. apply map_ext_Forall. eapply Forall_impl; [exact Hfin|].
    intros x Hx. cbv beta in Hx. by destruct (f x). }
  unfold fzero. rewrite fold_fadd_fin. f_equal. ring.
Qed.

Lemma Qcsum_in_count {A : Type} (f : A → float64) (xs : list A) :
  Forall (λ x, in_unit (f x)) xs →
  (0 <= Qcsum (map (λ x, qval (f x)) xs))%Qc
  ∧ (Qcsum (map (λ x, qval (f x)) xs) <= qcount xs)%Qc.
Proof.
  intros Hf. induction xs as [|x xs IH]; [split; apply Qcle_refl|].
  apply Forall_cons in Hf as [Hfx Hf]. destruct (IH Hf) as [IH0 IH1].
  destruct (in_unit_qval _ Hfx) as (_ & Hv0 & Hv1).
  rewrite qcount_cons. simpl. split.
  - by apply Qc_add_nonneg.
  - by apply Qcplus_le_compat.
Qed.

Lemma batch_mean_in_unit (f : Batch → float64) (dl : list Batch) :
  dl ≠ [] → Forall (λ b, in_unit (f b)) dl → in_unit (batch_mean f dl).
Proof.
  intros Hne Hunit. unfold batch_mean.
  rewrite fsum_fin, of_nat_qcount.
  - pose proof (qcount_pos dl Hne) as Hpos.
    destruct (Qcsum_in_count f dl Hunit) as [H0 H1].
    rewrite fdiv_fin by by apply Qclt_not_eq in Hpos.
    eexists. split; [reflexivity|]. by apply Qc_div_in_unit.
  - eapply Forall_impl; [exact Hunit|]. intros b Hb. by apply in_unit_qval in Hb as [? _].
Qed.

(** X22. The means over the batches keep the range of the scores: when a
    measure lies between 0 and 1 on every batch (an entry missing from an
    array counts as 0), so does the value [eval_model] returns for it. *)
Theorem batch_means_stay_in_unit (name : string) (nt : cell) (dl : list Batch)
    (c : string) (f : Batch → float64) :
  dl ≠ [] → (c, f) ∈ batch_measures → Forall (λ b, in_unit (f b)) dl →
  ∃ s x, eval_model name dl nt = Value s
         ∧ series_at s c = Some (VFloat x) ∧ in_unit x.
Proof.
  intros Hne Hin Hunit. destruct dl as [|b dl]; [done|].
  exists (batch_means name nt (b :: dl)), (batch_mean f (b :: dl)). split_and!.
  - apply eval_model_returns.
  - by apply series_at_batch_means.
  - by apply batch_mean_in_unit.
Qed.

Lemma batch_means_stay_in_unit_witness :
  [batch_A; batch_C] ≠ []
  ∧ ("rec1", λ b, entry_or_zero fzero (b_recall b) 1) ∈ batch_measures
  ∧ Forall (λ b, in_unit (entry_or_zero fzero (b_recall b) 1)) [batch_A; batch_C]
  ∧ ∃ s x, eval_model "Net" [batch_A; batch_C] VNone = Value s
           ∧ series_at s "rec1" = Some (VFloat x) ∧ in_unit x.
Proof.
  assert ([batch_A; batch_C] ≠ []) as H1 by discriminate.
  assert (("rec1", λ b, entry_or_zero fzero (b_recall b) 1) ∈ batch_measures)
    as H2 by (unfold batch_measures; repeat constructor).
  assert (Forall (λ b, in_unit (entry_or_zero fzero (b_recall b) 1))
            [batch_A; batch_C]) as H3.
  { repeat constructor.
    - exists (Q2Qc (1 # 1)). split; [reflexivity|]. split; discriminate.
    - exists 0%Qc. split; [reflexivity|]. split; discriminate. }
  split; [exact H1|]. split; [exact H2|]. split; [exact H3|].
  exact (batch_means_stay_in_unit "Net" VNone [batch_A; batch_C] "rec1"
           (λ b, entry_or_zero fzero (b_recall b) 1) H1 H2 H3).
Defined.

Lemma entry_or_zero_nonneg (v : list Z) (i : nat) :
  Forall (λ z, 0 ≤ z)%Z v → (0 ≤ entry_or_zero 0 v i)%Z.
Proof.
  intros Hv. unfold entry_or_zero. destruct (Nat.ltb_spec i (length v)); [|done].
  destruct (nth_lookup_or_length v i 0%Z) as [Hn|]; [|lia].
  eapply Forall_lookup_1 in Hn; [|exact Hv]. exact Hn.
Qed.

Lemma fold_int64_add (zs : list Z) (a : Z) :
  (0 ≤ a)%Z → Forall (λ z, 0 ≤ z)%Z zs → (a + foldr Z.add 0 zs < 2 ^ 63)%Z →
  fold_left int64_add zs a = (a + foldr Z.add 0 zs)%Z.
Proof.
  revert a. induction zs as [|z zs IH]; intros a Ha Hzs Hlt; simpl in *; [lia|].
  apply Forall_cons in Hzs as [Hz Hzs].
  assert (0 ≤ foldr Z.add 0 zs)%Z as Hsum.
  { clear -Hzs. induction Hzs; simpl; lia. }
  unfold int64_add at 2. rewrite wrap64_int64 by (unfold is_int64; lia).
  rewrite IH; [lia|lia|done|lia].
Qed.

(** X23. The supports are counted, not averaged: when the supports of the
    batches are non-negative and the samples of each class over all batches
    stay below 2^63, [eval_model] returns their exact sums as [sup0] and
    [sup1], a batch without an entry for a class adding none. *)
Theorem supports_are_summed (name : string) (nt : cell) (dl : list Batch) :
  dl ≠ [] →
  Forall (λ b, Forall (λ z, 0 ≤ z)%Z (b_support b)) dl →
  (samples 0 dl < 2 ^ 63)%Z → (samples 1 dl < 2 ^ 63)%Z →
  ∃ s, eval_model name dl nt = Value s
       ∧ series_at s "sup0" = Some (VInt (samples 0 dl))
       ∧ series_at s "sup1" = Some (VInt (samples 1 dl)).
Proof.
  intros Hne Hnn H0 H1. destruct dl as [|b dl]; [done|].
  exists (batch_means name nt (b :: dl)). split; [apply eval_model_returns|].
  assert (∀ i, (samples i (b :: dl) < 2 ^ 63)%Z →
               support_total i (b :: dl) = samples i (b :: dl)) as Hsum.
  { intros i Hi. unfold support_total, samples in *.
    rewrite fold_int64_add; [lia|lia| |lia].
    apply Forall_map. eapply Forall_impl; [exact Hnn|].
    intros b' Hb'. by apply entry_or_zero_nonneg. }
  unfold batch_means, results_series. cbn [series_at zip LABELS zip_with String.eqb].
  split.
  - rewrite <- (Hsum 0%nat H0). reflexivity.
  - rewrite <- (Hsum 1%nat H1). reflexivity.
Qed.

Lemma supports_are_summed_witness :
  [batch_A; batch_B; batch_C] ≠ []
  ∧ Forall (λ b, Forall (λ z, 0 ≤ z)%Z (b_support b)) [batch_A; batch_B; batch_C]
  ∧ (samples 0 [batch_A; batch_B; batch_C] < 2 ^ 63)%Z
  ∧ (samples 1 [batch_A; batch_B; batch_C] < 2 ^ 63)%Z
  ∧ ∃ s, eval_model "Net" [batch_A; batch_B; batch_C] VNone = Value s
         ∧ series_at s "sup0" = Some (VInt (samples 0 [batch_A; batch_B; batch_C]))
         ∧ series_at s "sup1" = Some (VInt (samples 1 [batch_A; batch_B; batch_C])).
Proof.
  assert ([batch_A; batch_B; batch_C] ≠ []) as H1 by discriminate.
  assert (Forall (λ b, Forall (λ z, 0 ≤ z)%Z (b_support b))
            [batch_A; batch_B; batch_C]) as H2
    by (repeat constructor; simpl; lia).
  assert (samples 0 [batch_A; batch_B; batch_C] < 2 ^ 63)%Z as H3 by reflexivity.
  assert (samples 1 [batch_A; batch_B; batch_C] < 2 ^ 63)%Z as H4 by reflexivity.
  split; [exact H1|]. split; [exact H2|]. split; [exact H3|]. split; [exact H4|].
  exact (supports_are_summed "Net" VNone [batch_A; batch_B; batch_C] H1 H2 H3 H4).
Defined.
